(** * AttendMark backend: the attendance admission engine

    A shallow embedding of [src/controllers/attendanceController.ts]
    ([markAttendance], [forceMarkAttendance], [getMyAttendance] and
    [getUserAttendance]) and of [src/services/mapmyindiaService.ts]
    ([verifyLocation] and its helpers), together with the properties of the
    admission pipeline: request validation, schedule resolution, duplicate
    suppression, the early/late window, the location verification gate,
    device binding and the final commit.

    Conventions of the embedding.
    - Request fields keep their JavaScript dynamic type ([JsValue]), because
      the controller decides on [typeof], truthiness and [===].
    - A JavaScript number is [JNaN], an infinity or a finite value; finite
      values are rationals ([Q]), a superset of the binary64 values on which
      all comparisons used by the controller agree.
    - A JavaScript string is held as its UTF-8 encoding; equal strings have
      equal encodings.
    - A [Date] is its [getTime()] value: integral milliseconds since the epoch
      ([Z]).  The server's local zone is UTC, as the controller's own comment
      states ("Server runs in UTC"), so [setHours], [getDay] and
      [new Date(y, m, d)] are arithmetic on days of 86,400,000 ms.
    - Mongo collections are lists of documents; [findOne]/[findById] return
      the first match.  Every database access and every call of the external
      location verification is recorded, in order, in a trace of [Event]s.
      Database operations succeed, except the settings lookup, whose failure
      the controller handles itself; a document handed to [save()] is
      stored.  [storable] names the one case in which the Attendance schema
      would refuse a record that [markAttendance] has built (NaN on a Number
      path), and the properties of what a run writes state where they rest
      on it. *)

From Stdlib Require Import ZArith QArith Qround List String Ascii Bool Lia.
From Stdlib Require Import Qabs DecimalString Sorted Permutation.
Import ListNotations.
Local Open Scope string_scope.
Local Open Scope list_scope.
Local Open Scope Z_scope.
#[local] Set Warnings "-register-all".

(* ------------------------------------------------------------------ *)
(** ** JavaScript values *)

Inductive JsNumber : Type :=
| JNaN
| JInfinity (negative : bool)
| JFinite (q : Q).

Inductive JsValue : Type :=
| JUndefined
| JNull
| JBoolean (b : bool)
| JNum (n : JsNumber)
| JString (s : string)
| JObject (props : list (string * JsValue)).

Inductive JsType : Type :=
| TUndefined | TObject | TBoolean | TNumber | TString.

Definition typeof (v : JsValue) : JsType :=
  match v with
  | JUndefined => TUndefined
  | JNull => TObject
  | JBoolean _ => TBoolean
  | JNum _ => TNumber
  | JString _ => TString
  | JObject _ => TObject
  end.

Definition JsType_eqb (a b : JsType) : bool :=
  match a, b with
  | TUndefined, TUndefined | TObject, TObject | TBoolean, TBoolean
  | TNumber, TNumber | TString, TString => true
  | _, _ => false
  end.

(** [n === 0] on numbers (both zeros are one rational). *)
Definition num_is_zero (n : JsNumber) : bool :=
  match n with
  | JFinite q => Qeq_bool q 0
  | _ => false
  end.

Definition isNaN (n : JsNumber) : bool :=
  match n with JNaN => true | _ => false end.

(** [a <= b] and [a > b] on numbers; every comparison with NaN is false. *)
Definition num_leb (a b : JsNumber) : bool :=
  match a, b with
  | JNaN, _ | _, JNaN => false
  | JInfinity true, _ => true
  | _, JInfinity false => true
  | JInfinity false, _ => false
  | _, JInfinity true => false
  | JFinite x, JFinite y => Qle_bool x y
  end.

Definition num_gtb (a b : JsNumber) : bool :=
  match a, b with
  | JNaN, _ | _, JNaN => false
  | _, _ => negb (num_leb a b)
  end.

(** JavaScript truthiness ([!v] is [negb (truthy v)]). *)
Definition truthy (v : JsValue) : bool :=
  match v with
  | JUndefined | JNull => false
  | JBoolean b => b
  | JNum n => negb (isNaN n || num_is_zero n)
  | JString s => negb (s =? "")%string
  | JObject _ => true
  end.

(** Property read [v.name]; a missing property reads as [undefined]. *)
Fixpoint lookup_prop (name : string) (props : list (string * JsValue)) : JsValue :=
  match props with
  | [] => JUndefined
  | (k, v) :: rest => if (k =? name)%string then v else lookup_prop name rest
  end.

Definition get (v : JsValue) (name : string) : JsValue :=
  match v with
  | JObject props => lookup_prop name props
  | _ => JUndefined
  end.

(** Strict equality [a === b] on primitives.  Two object operands are never
    the same reference in the places the controller compares. *)
Definition strict_eq (a b : JsValue) : bool :=
  match a, b with
  | JUndefined, JUndefined => true
  | JNull, JNull => true
  | JBoolean x, JBoolean y => Bool.eqb x y
  | JNum (JFinite x), JNum (JFinite y) => Qeq_bool x y
  | JNum (JInfinity x), JNum (JInfinity y) => Bool.eqb x y
  | JString x, JString y => (x =? y)%string
  | _, _ => false
  end.

(** [String.prototype.trim] strips the WhiteSpace and LineTerminator
    characters of ECMAScript: U+0009 to U+000D and U+0020, which are one byte
    each, and U+00A0, U+1680, U+2000 to U+200A, U+2028, U+2029, U+202F,
    U+205F, U+3000 and U+FEFF, which are two or three bytes in UTF-8. *)
Definition is_space (c : ascii) : bool :=
  let n := nat_of_ascii c in
  (Nat.eqb n 32 || (Nat.leb 9 n && Nat.leb n 13))%bool.

(** U+00A0 is C2 A0. *)
Definition is_space2 (a b : ascii) : bool :=
  (Nat.eqb (nat_of_ascii a) 194 && Nat.eqb (nat_of_ascii b) 160)%bool.

(** U+1680 is E1 9A 80; U+2000 to U+200A are E2 80 80 to E2 80 8A; U+2028,
    U+2029 and U+202F are E2 80 A8, E2 80 A9 and E2 80 AF; U+205F is
    E2 81 9F; U+3000 is E3 80 80; U+FEFF is EF BB BF. *)
Definition is_space3 (a b c : ascii) : bool :=
  let x := nat_of_ascii a in
  let y := nat_of_ascii b in
  let z := nat_of_ascii c in
  (Nat.eqb x 225 && Nat.eqb y 154 && Nat.eqb z 128
   || Nat.eqb x 226 && Nat.eqb y 128
      && (Nat.leb 128 z && Nat.leb z 138
          || Nat.eqb z 168 || Nat.eqb z 169 || Nat.eqb z 175)
   || Nat.eqb x 226 && Nat.eqb y 129 && Nat.eqb z 159
   || Nat.eqb x 227 && Nat.eqb y 128 && Nat.eqb z 128
   || Nat.eqb x 239 && Nat.eqb y 187 && Nat.eqb z 191)%bool.

Fixpoint trim_start (s : string) : string :=
  match s with
  | EmptyString => EmptyString
  | String a rest =>
    if is_space a then trim_start rest
    else
      match rest with
      | EmptyString => s
      | String b rest2 =>
        if is_space2 a b then trim_start rest2
        else
          match rest2 with
          | EmptyString => s
          | String c rest3 => if is_space3 a b c then trim_start rest3 else s
          end
      end
  end.

(** [s.trim() === ''] holds exactly when [s] has only white space. *)
Definition trim_is_empty (s : string) : bool :=
  match trim_start s with
  | EmptyString => true
  | _ => false
  end.

(** The guard [!v || typeof v !== 'string' || v.trim() === ''] of the
    controller (used for [deviceId] and [userAgent]). *)
Definition missing_string (v : JsValue) : bool :=
  negb (truthy v)
  || negb (JsType_eqb (typeof v) TString)
  || match v with JString s => trim_is_empty s | _ => false end.

(* ------------------------------------------------------------------ *)
(** ** Clock and calendar arithmetic *)

Definition MS_PER_MINUTE : Z := 60000.
Definition MS_PER_HOUR : Z := 3600000.
Definition MS_PER_DAY : Z := 86400000.

(** [IST_OFFSET_MS = 5.5 * 60 * 60 * 1000]. *)
Definition IST_OFFSET_MS : Z := 19800000.

(** Day number of an instant (days since the epoch, server-local = UTC). *)
Definition dayOf (t : Z) : Z := t / MS_PER_DAY.

(** [d.setHours(0, 0, 0, 0)] and [new Date(y, m, d)] of a date's own fields. *)
Definition startOfDay (t : Z) : Z := dayOf t * MS_PER_DAY.

(** [d.setHours(23, 59, 59, 999)]. *)
Definition endOfDay (t : Z) : Z := startOfDay t + (MS_PER_DAY - 1).

(** [d.setHours(h, m, 0, 0)]. *)
Definition setHours (t h m : Z) : Z :=
  startOfDay t + h * MS_PER_HOUR + m * MS_PER_MINUTE.

(** [d.getDay()]: 0 is Sunday; the epoch day was a Thursday. *)
Definition getDay (t : Z) : Z := (dayOf t + 4) mod 7.

Definition dayNames : list string :=
  ["Sunday"; "Monday"; "Tuesday"; "Wednesday"; "Thursday"; "Friday"; "Saturday"].

(** The reading of [toLocaleTimeString('en-US', {hour: 'numeric',
    minute: '2-digit', hour12: true})]: hour on the 12-hour dial, minute and
    meridiem, kept as a structure instead of the rendered text. *)
Record ClockTime : Type := mkClockTime {
  hour12 : Z;
  minute : Z;
  isPM : bool
}.

Definition toLocaleTimeString (t : Z) : ClockTime :=
  let h := (t / MS_PER_HOUR) mod 24 in
  {| hour12 := if (h mod 12 =? 0) then 12 else h mod 12;
     minute := (t / MS_PER_MINUTE) mod 60;
     isPM := 12 <=? h |}.

(* ------------------------------------------------------------------ *)
(** ** Data model *)

Inductive Frequency : Type := OneTime | Daily | Weekly | Monthly.

Module SessionType.
Inductive t : Type := PHYSICAL | REMOTE | HYBRID.
End SessionType.

Module Mode.
Inductive t : Type := PHYSICAL | REMOTE.
End Mode.

(** One entry of [session.assignedUsers]. *)
Module Assignment.
Record t : Type := mk {
  userId : string;
  mode : Mode.t;
  attendanceStatus : string;
  isLate : bool
}.
End Assignment.

Record Coordinates : Type := mkCoordinates {
  coord_latitude : Q;
  coord_longitude : Q
}.

Inductive LocationType : Type := COORDS | LINK.

(** [session.location]: a descriptor of type COORDS or LINK, with optional
    resolved coordinates and optional link. *)
Record LocationDescriptor : Type := mkLocationDescriptor {
  loc_type : LocationType;
  loc_geolocation : option Coordinates;
  loc_link : option string
}.

(** GeoJSON polygon coordinates, [number[][][]]. *)
Definition Polygon : Type := list (list (list Q)).

Module Session.
Record t : Type := mk {
  id : string;
  name : string;
  frequency : Frequency;
  startDate : Z;
  endDate : option Z;
  (** ['HH:mm'] after [split(':').map(Number)]: hour and minute. *)
  startTime : Z * Z;
  endTime : Z * Z;
  (** An absent [weeklyDays] reads as the empty list. *)
  weeklyDays : list string;
  sessionType : SessionType.t;
  city : option string;
  state : option string;
  geofence : option Polygon;
  location : option LocationDescriptor;
  geolocation : option Coordinates;
  radius : Z;
  assignedUsers : list Assignment.t
}.
End Session.

Module User.
Record t : Type := mk {
  id : string;
  email : string;
  (** [undefined] until the first successful check-in. *)
  registeredDeviceId : JsValue;
  registeredUserAgent : JsValue
}.
End User.

Record ReverseGeocode : Type := mkReverseGeocode {
  rg_city : string;
  rg_state : string;
  rg_locality : string;
  rg_district : string;
  rg_pincode : string;
  rg_fullAddress : string
}.

Record GeofenceResult : Type := mkGeofenceResult {
  isInside : bool;
  distance : Q
}.

(** What [verifyLocation] resolves to.  The controller re-checks the dynamic
    type of [confidenceScore] and [accuracyRadius] and the presence of
    [reverseGeocode], so these fields keep their dynamic type here. *)
Module LocationVerificationResult.
Record t : Type := mk {
  isValid : bool;
  confidenceScore : JsValue;
  accuracyRadius : JsValue;
  reverseGeocode : option ReverseGeocode;
  geofenceResult : option GeofenceResult
}.
End LocationVerificationResult.

Module Attendance.
Record t : Type := mk {
  userId : string;
  sessionId : string;
  checkInTime : Z;
  locationVerified : bool;
  isLate : bool;
  lateByMinutes : option Z;
  userLocation : JsValue;
  deviceId : JsValue;
  reverseGeocodeSnapshot : option ReverseGeocode;
  confidenceScore : JsValue;
  accuracyRadius : JsValue
}.
End Attendance.

(** The organisation's collections. *)
Record World : Type := mkWorld {
  users : list User.t;
  sessions : list Session.t;
  attendance : list Attendance.t
}.

(** ** External collaborators *)

(** Arguments of one call of [verifyLocation]. *)
Record VerifyArgs : Type := mkVerifyArgs {
  v_latitude : JsValue;
  v_longitude : JsValue;
  v_accuracyRadius : JsValue;
  v_sessionCity : option string;
  v_sessionState : option string;
  v_geofencePolygon : option Polygon
}.

(** [verifyLocation] either resolves (to a result object, or to nothing) or
    throws an error whose [message] may be absent. *)
Inductive VerifyOutcome : Type :=
| Resolved (result : option LocationVerificationResult.t)
| Threw (message : option string).

(** [OrganizationSettings.findOne]: it throws, finds nothing, or finds the
    settings document ([isStrictAttendance] may be absent in it). *)
Inductive SettingsLookup : Type :=
| SettingsThrows
| SettingsNone
| SettingsDoc (lateAttendanceLimit : Z) (isStrictAttendance : option bool).

Record Env : Type := mkEnv {
  (** [new Date()] at the time of the request. *)
  nowUTC : Z;
  findSettings : SettingsLookup;
  verifyLocation : VerifyArgs -> VerifyOutcome;
  (** [mongoose.Types.ObjectId.isValid]. *)
  isValidObjectId : string -> bool
}.

(** Everything the handlers do outside their own memory, in order. *)
Inductive Event : Type :=
| FindSettings
| FindUserById (id : string)
| FindSessionById (id : string)
| FindAttendance (userId sessionId : string) (checkInTime : option (Z * Z))
| VerifyLocationCall (args : VerifyArgs)
| SaveUser (u : User.t)
| SaveAttendance (a : Attendance.t)
| SaveSession (s : Session.t)
| DeleteAttendance (userId sessionId : string)
| AuditLogCreate (action targetUserId sessionId status : string).

(** ** Requests and responses *)

Record Request : Type := mkRequest {
  (** [validationResult(req).array()] of the route's validators. *)
  validationErrors : list string;
  (** [req.user]. *)
  userId : string;
  role : string;
  (** [req.body]. *)
  sessionId : string;
  userLocation : JsValue;
  deviceId : JsValue;
  userAgent : JsValue;
  accuracy : JsValue
}.

Inductive Body : Type :=
| Errors (errors : list string)
| Message (msg : string) (reason : option string)
(** [type: 'TOO_EARLY']; the message text is built from these fields. *)
| TooEarly (sessionStartTime scanWindowStartTime : ClockTime)
           (hoursRemaining minutesRemaining : Z)
(** Strict mode: late by [minutesLate] minutes and [secondsLate] seconds. *)
| StrictLate (minutesLate secondsLate : Z)
| Created (attendance : Attendance.t)
| Text (text : string)
| ForceMarked (status : string).

Record Response : Type := mkResponse {
  status : Z;
  body : Body
}.

Definition reject (code : Z) (msg : string) (reason : string) : Response :=
  mkResponse code (Message msg (Some reason)).

Definition rejectMsg (code : Z) (msg : string) : Response :=
  mkResponse code (Message msg None).

(** The outer [catch]: [res.status(500).send('Server error')]. *)
Definition serverError : Response := mkResponse 500 (Text "Server error").

Definition reasonOf (r : Response) : option string :=
  match body r with
  | Message _ reason => reason
  | _ => None
  end.

(** What a handler run amounts to: the response sent, the trace of
    database and network operations, and the collections afterwards. *)
Record Outcome : Type := mkOutcome {
  response : Response;
  trace : list Event;
  final : World
}.

(** No call of the external location verification occurs in a trace. *)
Definition noVerifyCall (tr : list Event) : Prop :=
  forall args, ~ In (VerifyLocationCall args) tr.

(** No attendance record is written in a trace. *)
Definition noAttendanceSaved (tr : list Event) : Prop :=
  forall a, ~ In (SaveAttendance a) tr.

(* ------------------------------------------------------------------ *)
(** ** markAttendance, stage by stage *)

Definition is_type (v : JsValue) (t : JsType) : bool := JsType_eqb (typeof v) t.

(** The number held by a value already known to be of type number. *)
Definition number_of (v : JsValue) : JsNumber :=
  match v with JNum n => n | _ => JNaN end.

Definition zero : JsValue := JNum (JFinite 0).

(** Lines 33-124: checks made on the request alone, before any collection
    is touched.  [None] means that every check passed. *)
Definition validateRequest (env : Env) (req : Request) : option Response :=
  if negb (match validationErrors req with [] => true | _ => false end) then
    Some (mkResponse 400 (Errors (validationErrors req)))
  else if missing_string (deviceId req) then
    Some (reject 400 "Device ID is required. Please refresh the page and try again."
                 "MISSING_DEVICE_ID")
  else if missing_string (userAgent req) then
    Some (reject 400 "User Agent is required. Please refresh the page and try again."
                 "MISSING_USER_AGENT")
  else if negb (truthy (userLocation req)) || negb (is_type (userLocation req) TObject) then
    Some (reject 400 "Location is required. Please enable GPS and try again."
                 "MISSING_LOCATION")
  else if negb (is_type (get (userLocation req) "latitude") TNumber)
          || negb (is_type (get (userLocation req) "longitude") TNumber) then
    Some (reject 400 "Invalid location coordinates. Please enable GPS and try again."
                 "INVALID_LOCATION_COORDS")
  else if strict_eq (get (userLocation req) "latitude") zero
          && strict_eq (get (userLocation req) "longitude") zero then
    Some (reject 400 "Invalid location detected. Please ensure GPS is enabled and try again."
                 "INVALID_LOCATION_ZERO")
  else if negb (is_type (accuracy req) TNumber)
          || isNaN (number_of (accuracy req))
          || strict_eq (accuracy req) JUndefined
          || strict_eq (accuracy req) JNull then
    Some (reject 400 "GPS accuracy is required. Please enable high-accuracy GPS and try again."
                 "MISSING_ACCURACY")
  else if num_leb (number_of (accuracy req)) (JFinite 0)
          || num_gtb (number_of (accuracy req)) (JFinite 1000) then
    Some (reject 400 "Invalid GPS accuracy data. Please enable high-accuracy GPS and try again."
                 "INVALID_ACCURACY")
  else if (role req =? "PLATFORM_OWNER")%string then
    Some (rejectMsg 403 "Forbidden: Platform Owner cannot mark their own attendance")
  else if negb (isValidObjectId env (sessionId req)) then
    Some (rejectMsg 400 "Invalid Session ID. Please scan a valid QR code.")
  else None.

(** Lines 133-145: organisation settings with their defaults. *)
Definition lateAttendanceLimit (env : Env) : Z :=
  match findSettings env with
  | SettingsDoc limit _ => limit
  | _ => 30
  end.

Definition isStrictAttendance (env : Env) : bool :=
  match findSettings env with
  | SettingsDoc _ (Some strict) => strict
  | _ => false
  end.

(** Lines 147-151: [findById]. *)
Definition findUserById (w : World) (uid : string) : option User.t :=
  find (fun u => (User.id u =? uid)%string) (users w).

Definition findSessionById (w : World) (sid : string) : option Session.t :=
  find (fun s => (Session.id s =? sid)%string) (sessions w).

(** Lines 159-166. *)
Definition nowInIST (env : Env) : Z := nowUTC env + IST_OFFSET_MS.

Definition todayIST (env : Env) : Z := startOfDay (nowInIST env).

Definition frequency_is_Weekly (f : Frequency) : bool :=
  match f with Weekly => true | _ => false end.

Definition includes (l : list string) (x : string) : bool :=
  existsb (fun y => (y =? x)%string) l.

(** Lines 192-194. *)
Definition isWithinDateRange (env : Env) (s : Session.t) : bool :=
  let sessionStartDate := startOfDay (Session.startDate s) in
  let sessionEndDate := option_map endOfDay (Session.endDate s) in
  (sessionStartDate <=? todayIST env)
  && match sessionEndDate with
     | None => true
     | Some e => todayIST env <=? e
     end.

Definition todayDayName (env : Env) : string :=
  nth (Z.to_nat (getDay (nowInIST env))) dayNames "".

(** Lines 172-209. *)
Definition isSessionDateToday (env : Env) (s : Session.t) : bool :=
  match Session.frequency s with
  | OneTime => startOfDay (Session.startDate s) =? todayIST env
  | _ =>
    if isWithinDateRange env s then
      if frequency_is_Weekly (Session.frequency s)
         && (0 <? Z.of_nat (List.length (Session.weeklyDays s))) then
        includes (Session.weeklyDays s) (todayDayName env)
      else true
    else false
  end.

(** Lines 226-234: today's IST day as a window of UTC instants. *)
Definition todayStartUTC (env : Env) : Z := startOfDay (todayIST env) - IST_OFFSET_MS.
Definition todayEndUTC (env : Env) : Z := endOfDay (todayIST env) - IST_OFFSET_MS.

(** The filter of the duplicate query, lines 221-244. *)
Definition duplicateFilter (env : Env) (req : Request) (s : Session.t)
    (a : Attendance.t) : bool :=
  match Session.frequency s with
  | OneTime =>
    (Attendance.userId a =? userId req)%string
    && (Attendance.sessionId a =? sessionId req)%string
  | _ =>
    (Attendance.userId a =? userId req)%string
    && (Attendance.sessionId a =? sessionId req)%string
    && (todayStartUTC env <=? Attendance.checkInTime a)
    && (Attendance.checkInTime a <=? todayEndUTC env)
  end.

Definition existingAttendance (env : Env) (w : World) (req : Request)
    (s : Session.t) : option Attendance.t :=
  find (duplicateFilter env req s) (attendance w).

Definition duplicateQuery (env : Env) (req : Request) (s : Session.t) : Event :=
  FindAttendance (userId req) (sessionId req)
    match Session.frequency s with
    | OneTime => None
    | _ => Some (todayStartUTC env, todayEndUTC env)
    end.

(** Lines 254-264. *)
Definition sessionStartDateTime (env : Env) (s : Session.t) : Z :=
  let '(startHour, startMinute) := Session.startTime s in
  match Session.frequency s with
  | OneTime => setHours (Session.startDate s) startHour startMinute
  | _ => setHours (todayIST env) startHour startMinute
  end.

Definition EARLY_WINDOW_HOURS : Z := 2.

(** Line 268. *)
Definition scanWindowStart (env : Env) (s : Session.t) : Z :=
  sessionStartDateTime env s - EARLY_WINDOW_HOURS * 60 * 60 * 1000.

(** [Math.floor(a / b)] for integral [a] and [b]. *)
Definition floorDiv (a b : Z) : Z := Qfloor (inject_Z a / inject_Z b)%Q.

(** Lines 271-305: the response when the attempt is too early. *)
Definition tooEarly (env : Env) (s : Session.t) : option Response :=
  if nowInIST env <? scanWindowStart env s then
    let timeTillWindowMs := scanWindowStart env s - nowInIST env in
    let hoursRemaining := floorDiv timeTillWindowMs (1000 * 60 * 60) in
    let minutesRemaining :=
      floorDiv (Z.rem timeTillWindowMs (1000 * 60 * 60)) (1000 * 60) in
    Some (mkResponse 400
            (TooEarly (toLocaleTimeString (sessionStartDateTime env s))
                      (toLocaleTimeString (scanWindowStart env s))
                      hoursRemaining minutesRemaining))
  else None.

(** Lines 307-337: lateness classification. *)
Inductive Lateness : Type :=
| Accepted (isLate : bool) (lateByMinutes : option Z)
| WindowClosed (minutesLate secondsLate : Z).

Definition Qltb (a b : Q) : bool := negb (Qle_bool b a).

Definition lateness (timeDifferenceMs : Z) (limit : Z) (strict : bool) : Lateness :=
  let timeDifferenceMinutes : Q := (inject_Z timeDifferenceMs / inject_Z (1000 * 60))%Q in
  let timeDifferenceSeconds := floorDiv (Z.rem timeDifferenceMs (1000 * 60)) 1000 in
  if Qltb 0 timeDifferenceMinutes && Qle_bool timeDifferenceMinutes (inject_Z limit) then
    Accepted true (Some (Qfloor timeDifferenceMinutes))
  else if Qltb (inject_Z limit) timeDifferenceMinutes then
    let minutesLate := Qfloor timeDifferenceMinutes in
    let secondsLate := timeDifferenceSeconds in
    if strict then WindowClosed minutesLate secondsLate
    else Accepted true (Some minutesLate)
  else Accepted false None.

(** Line 313. *)
Definition timeDifferenceMs (env : Env) (s : Session.t) : Z :=
  nowInIST env - sessionStartDateTime env s.

(** Lines 342-344. *)
Definition findAssignment (s : Session.t) (uid : string) : option Assignment.t :=
  find (fun u => (Assignment.userId u =? uid)%string) (Session.assignedUsers s).

(** Lines 352-364. *)
Definition isLocationRequired (s : Session.t) (assignment : Assignment.t) : bool :=
  match Session.sessionType s with
  | SessionType.PHYSICAL => true
  | SessionType.HYBRID =>
    match Assignment.mode assignment with
    | Mode.PHYSICAL => true
    | Mode.REMOTE => false
    end
  | SessionType.REMOTE => false
  end.

(** Lines 403-410: the arguments passed to [verifyLocation]. *)
Definition verifyArgs (req : Request) (s : Session.t) : VerifyArgs :=
  {| v_latitude := get (userLocation req) "latitude";
     v_longitude := get (userLocation req) "longitude";
     v_accuracyRadius := accuracy req;
     v_sessionCity := Session.city s;
     v_sessionState := Session.state s;
     v_geofencePolygon := Session.geofence s |}.

(** The three fields the controller requires of a verification result
    (lines 422-424 and again 582-584). *)
Definition verificationDataPresent (r : LocationVerificationResult.t) : bool :=
  is_type (LocationVerificationResult.confidenceScore r) TNumber
  && is_type (LocationVerificationResult.accuracyRadius r) TNumber
  && match LocationVerificationResult.reverseGeocode r with
     | Some _ => true
     | None => false
     end.

(** The inner [catch], lines 452-475: [error.message || ...]. *)
Definition verificationFailed (message : option string) : Response :=
  reject 403
    match message with
    | Some m => if (m =? "")%string
                then "Unable to verify location at this time. Attendance not marked."
                else m
    | None => "Unable to verify location at this time. Attendance not marked."
    end
    "MAPMYINDIA_VERIFICATION_FAILED".

(** Result of lines 366-485: either the handler has responded, or it goes on
    with [locationVerified] and [locationVerificationResult]. *)
Inductive Gate : Type :=
| GateResponded (r : Response)
| GateOpen (locationVerified : bool)
           (locationVerificationResult : option LocationVerificationResult.t).

Definition locationDataMissing (req : Request) : bool :=
  negb (truthy (userLocation req))
  || negb (is_type (get (userLocation req) "latitude") TNumber)
  || negb (is_type (get (userLocation req) "longitude") TNumber).

Definition locationGate (env : Env) (req : Request) (s : Session.t)
    (assignment : Assignment.t) : Gate * list Event :=
  if isLocationRequired s assignment then
    if locationDataMissing req then
      (* thrown outside the inner try: the outer catch answers *)
      (GateResponded serverError, [])
    else
      let call := [VerifyLocationCall (verifyArgs req s)] in
      match verifyLocation env (verifyArgs req s) with
      | Threw message => (GateResponded (verificationFailed message), call)
      | Resolved None =>
        (GateResponded
           (verificationFailed (Some "FATAL: Location verification returned invalid result")),
         call)
      | Resolved (Some result) =>
        if negb (LocationVerificationResult.isValid result) then
          (GateResponded
             (verificationFailed (Some "FATAL: Location verification returned invalid result")),
           call)
        else if negb (verificationDataPresent result) then
          (GateResponded
             (verificationFailed (Some "FATAL: Required verification data missing")),
           call)
        else (GateOpen true (Some result), call)
      end
  else (GateOpen true None, []).

(** Lines 487-513: the two assertions after the gate. *)
Definition assertAfterGate (required verified : bool)
    (result : option LocationVerificationResult.t) : option Response :=
  if required && negb verified then
    Some (reject 403 "Location verification failed. Attendance cannot be marked."
                 "LOCATION_VERIFICATION_FAILED")
  else if required && match result with None => true | Some _ => false end then
    Some (reject 403 "Location verification data missing. Attendance cannot be marked."
                 "MISSING_VERIFICATION_RESULT")
  else None.

(** Lines 515-547: device binding. *)
Inductive DeviceDecision : Type :=
| RegisterDevice (u : User.t)
| DeviceMismatch
| CloningDetected
| DeviceMatches.

Definition deviceGuard (user : User.t) (req : Request) : DeviceDecision :=
  if negb (truthy (User.registeredDeviceId user)) then
    RegisterDevice
      {| User.id := User.id user;
         User.email := User.email user;
         User.registeredDeviceId := deviceId req;
         User.registeredUserAgent := userAgent req |}
  else if negb (strict_eq (User.registeredDeviceId user) (deviceId req)) then
    DeviceMismatch
  else if truthy (User.registeredUserAgent user)
          && negb (strict_eq (User.registeredUserAgent user) (userAgent req)) then
    CloningDetected
  else DeviceMatches.

Definition deviceMismatchResponse : Response :=
  rejectMsg 403 "Security Alert: You are not using the same device/browser you use everyday. Access Denied. Please contact your Admin to reset your device registration.".

Definition cloningResponse : Response :=
  rejectMsg 403 "Security Alert: Device ID matched but Browser Signature mismatch. Cloning detected.".

(** Lines 555-591: the assertions repeated before the record is built. *)
Definition assertBeforeCreate (required verified : bool)
    (result : option LocationVerificationResult.t) : option Response :=
  if required then
    if negb verified then
      Some (reject 403 "Location verification failed. Attendance cannot be marked."
                   "LOCATION_NOT_VERIFIED")
    else
      match result with
      | None =>
        Some (reject 403 "Location verification data missing. Attendance cannot be marked."
                     "MISSING_VERIFICATION_RESULT")
      | Some r =>
        if negb (LocationVerificationResult.isValid r) then
          Some (reject 403 "Location verification failed. Attendance cannot be marked."
                       "INVALID_VERIFICATION_RESULT")
        else if negb (verificationDataPresent r) then
          Some (reject 403 "Location verification data incomplete. Attendance cannot be marked."
                       "INCOMPLETE_VERIFICATION_DATA")
        else None
      end
  else None.

(** Lines 606-634: the record, or the last internal-error response. *)
Definition attendanceData (env : Env) (req : Request) (required verified : bool)
    (result : option LocationVerificationResult.t) (late : bool)
    (lateBy : option Z) : Attendance.t + Response :=
  let base reverse confidence radius :=
    {| Attendance.userId := userId req;
       Attendance.sessionId := sessionId req;
       Attendance.checkInTime := nowUTC env;
       Attendance.locationVerified := verified;
       Attendance.isLate := late;
       Attendance.lateByMinutes := lateBy;
       Attendance.userLocation := userLocation req;
       Attendance.deviceId := deviceId req;
       Attendance.reverseGeocodeSnapshot := reverse;
       Attendance.confidenceScore := confidence;
       Attendance.accuracyRadius := radius |} in
  match required, result with
  | true, Some r =>
    if negb (verificationDataPresent r) then
      inr (reject 500 "Internal error: Verification data incomplete." "INTERNAL_ERROR")
    else
      inl (base (LocationVerificationResult.reverseGeocode r)
                (LocationVerificationResult.confidenceScore r)
                (LocationVerificationResult.accuracyRadius r))
  | _, _ => inl (base None JUndefined JUndefined)
  end.

(** [new AttendanceCollection(attendanceData)], lines 636-637: of
    [userLocation] the Attendance schema has the paths [latitude] and
    [longitude], and the document keeps these two and no other key. *)
Definition storedLocation (location : JsValue) : JsValue :=
  JObject [("latitude", get location "latitude");
           ("longitude", get location "longitude")].

Definition newAttendanceDocument (data : Attendance.t) : Attendance.t :=
  {| Attendance.userId := Attendance.userId data;
     Attendance.sessionId := Attendance.sessionId data;
     Attendance.checkInTime := Attendance.checkInTime data;
     Attendance.locationVerified := Attendance.locationVerified data;
     Attendance.isLate := Attendance.isLate data;
     Attendance.lateByMinutes := Attendance.lateByMinutes data;
     Attendance.userLocation := storedLocation (Attendance.userLocation data);
     Attendance.deviceId := Attendance.deviceId data;
     Attendance.reverseGeocodeSnapshot := Attendance.reverseGeocodeSnapshot data;
     Attendance.confidenceScore := Attendance.confidenceScore data;
     Attendance.accuracyRadius := Attendance.accuracyRadius data |}.

(* ------------------------------------------------------------------ *)
(** ** Writes *)

(** Replace the first element that satisfies [p] (a document's [save()]). *)
Fixpoint replaceFirst {A : Type} (p : A -> bool) (x : A) (l : list A) : list A :=
  match l with
  | [] => []
  | y :: rest => if p y then x :: rest else y :: replaceFirst p x rest
  end.

(** Remove the first element that satisfies [p] ([deleteOne]). *)
Fixpoint removeFirst {A : Type} (p : A -> bool) (l : list A) : list A :=
  match l with
  | [] => []
  | y :: rest => if p y then rest else y :: removeFirst p rest
  end.

Definition saveUser (w : World) (u : User.t) : World :=
  {| users := replaceFirst (fun v => (User.id v =? User.id u)%string) u (users w);
     sessions := sessions w;
     attendance := attendance w |}.

Definition saveSession (w : World) (s : Session.t) : World :=
  {| users := users w;
     sessions := replaceFirst (fun v => (Session.id v =? Session.id s)%string) s (sessions w);
     attendance := attendance w |}.

Definition insertAttendance (w : World) (a : Attendance.t) : World :=
  {| users := users w;
     sessions := sessions w;
     attendance := attendance w ++ [a] |}.

Definition withAssignedUsers (s : Session.t) (l : list Assignment.t) : Session.t :=
  {| Session.id := Session.id s;
     Session.name := Session.name s;
     Session.frequency := Session.frequency s;
     Session.startDate := Session.startDate s;
     Session.endDate := Session.endDate s;
     Session.startTime := Session.startTime s;
     Session.endTime := Session.endTime s;
     Session.weeklyDays := Session.weeklyDays s;
     Session.sessionType := Session.sessionType s;
     Session.city := Session.city s;
     Session.state := Session.state s;
     Session.geofence := Session.geofence s;
     Session.location := Session.location s;
     Session.geolocation := Session.geolocation s;
     Session.radius := Session.radius s;
     Session.assignedUsers := l |}.

(** Lines 646-655: the roster entry of the user becomes Present, and late
    when the check-in was late. *)
Definition markPresent (late : bool) (a : Assignment.t) : Assignment.t :=
  {| Assignment.userId := Assignment.userId a;
     Assignment.mode := Assignment.mode a;
     Assignment.attendanceStatus := "Present";
     Assignment.isLate := if late then true else Assignment.isLate a |}.

Definition updateRoster (s : Session.t) (uid : string)
    (f : Assignment.t -> Assignment.t) : option Session.t :=
  match findAssignment s uid with
  | Some a =>
    Some (withAssignedUsers s
            (replaceFirst (fun u => (Assignment.userId u =? uid)%string) (f a)
                          (Session.assignedUsers s)))
  | None => None
  end.

(** Lines 549-660: last assertions, the attendance record, the roster. *)
Definition commit (env : Env) (req : Request) (session : Session.t)
    (required verified : bool) (result : option LocationVerificationResult.t)
    (late : bool) (lateBy : option Z) (w : World) (tr : list Event) : Outcome :=
  match assertBeforeCreate required verified result with
  | Some r => mkOutcome r tr w
  | None =>
    match attendanceData env req required verified result late lateBy with
    | inr r => mkOutcome r tr w
    | inl data =>
      let newAttendance := newAttendanceDocument data in
      let w1 := insertAttendance w newAttendance in
      let tr1 := tr ++ [SaveAttendance newAttendance] in
      match updateRoster session (userId req) (markPresent late) with
      | Some session' =>
        mkOutcome (mkResponse 201 (Created newAttendance))
                  (tr1 ++ [SaveSession session']) (saveSession w1 session')
      | None => mkOutcome (mkResponse 201 (Created newAttendance)) tr1 w1
      end
    end
  end.

(** ** markAttendance (POST /api/attendance/scan) *)

Definition loads (req : Request) : list Event :=
  [FindSettings; FindUserById (userId req); FindSessionById (sessionId req)].

Definition markAttendance (env : Env) (w : World) (req : Request) : Outcome :=
  match validateRequest env req with
  | Some r => mkOutcome r [] w
  | None =>
  match findUserById w (userId req) with
  | None => mkOutcome (rejectMsg 404 "User not found") (loads req) w
  | Some user =>
  match findSessionById w (sessionId req) with
  | None => mkOutcome (rejectMsg 404 "Session not found") (loads req) w
  | Some session =>
  if negb (isSessionDateToday env session) then
    mkOutcome
      (rejectMsg 400 "Session is not scheduled for today. Please check the session date and try again.")
      (loads req) w
  else
  let tr := loads req ++ [duplicateQuery env req session] in
  match existingAttendance env w req session with
  | Some _ =>
    mkOutcome (rejectMsg 400 "You have already marked attendance for this session.") tr w
  | None =>
  match tooEarly env session with
  | Some r => mkOutcome r tr w
  | None =>
  match lateness (timeDifferenceMs env session) (lateAttendanceLimit env)
                 (isStrictAttendance env) with
  | WindowClosed minutesLate secondsLate =>
    mkOutcome (mkResponse 400 (StrictLate minutesLate secondsLate)) tr w
  | Accepted late lateBy =>
  match findAssignment session (userId req) with
  | None => mkOutcome (rejectMsg 403 "You are not assigned to this session.") tr w
  | Some assignment =>
  let required := isLocationRequired session assignment in
  match locationGate env req session assignment with
  | (GateResponded r, calls) => mkOutcome r (tr ++ calls) w
  | (GateOpen verified result, calls) =>
  match assertAfterGate required verified result with
  | Some r => mkOutcome r (tr ++ calls) w
  | None =>
  match deviceGuard user req with
  | DeviceMismatch => mkOutcome deviceMismatchResponse (tr ++ calls) w
  | CloningDetected => mkOutcome cloningResponse (tr ++ calls) w
  | RegisterDevice user' =>
    commit env req session required verified result late lateBy
           (saveUser w user') (tr ++ calls ++ [SaveUser user'])
  | DeviceMatches =>
    commit env req session required verified result late lateBy w (tr ++ calls)
  end end end end end end end end end end.

(* ------------------------------------------------------------------ *)
(** ** forceMarkAttendance (POST /api/attendance/force-mark) *)

Record ForceRequest : Type := mkForceRequest {
  f_validationErrors : list string;
  f_role : string;
  f_performerId : string;
  f_sessionId : string;
  f_userId : string;
  (** ['Present'] or ['Absent']. *)
  f_status : string
}.

(** [s] between quotation marks (code 34). *)
Definition quoted (s : string) : string :=
  String (ascii_of_nat 34) (s ++ String (ascii_of_nat 34) EmptyString).

Definition sameUserAndSession (uid sid : string) (a : Attendance.t) : bool :=
  (Attendance.userId a =? uid)%string && (Attendance.sessionId a =? sid)%string.

(** Lines 1003-1008: an existing record is forced to verified and on time. *)
Definition forceVerified (a : Attendance.t) : Attendance.t :=
  {| Attendance.userId := Attendance.userId a;
     Attendance.sessionId := Attendance.sessionId a;
     Attendance.checkInTime := Attendance.checkInTime a;
     Attendance.locationVerified := true;
     Attendance.isLate := false;
     Attendance.lateByMinutes := None;
     Attendance.userLocation := Attendance.userLocation a;
     Attendance.deviceId := Attendance.deviceId a;
     Attendance.reverseGeocodeSnapshot := Attendance.reverseGeocodeSnapshot a;
     Attendance.confidenceScore := Attendance.confidenceScore a;
     Attendance.accuracyRadius := Attendance.accuracyRadius a |}.

(** Lines 1011-1018: the record created by the Platform Owner. *)
Definition forcedAttendance (env : Env) (req : ForceRequest) : Attendance.t :=
  {| Attendance.userId := f_userId req;
     Attendance.sessionId := f_sessionId req;
     Attendance.checkInTime := nowUTC env;
     Attendance.locationVerified := true;
     Attendance.isLate := false;
     Attendance.lateByMinutes := None;
     Attendance.userLocation := JUndefined;
     Attendance.deviceId := JString "FORCED_BY_PLATFORM_OWNER";
     Attendance.reverseGeocodeSnapshot := None;
     Attendance.confidenceScore := JUndefined;
     Attendance.accuracyRadius := JUndefined |}.

Definition setRoster (st : string) (a : Assignment.t) : Assignment.t :=
  {| Assignment.userId := Assignment.userId a;
     Assignment.mode := Assignment.mode a;
     Assignment.attendanceStatus := st;
     Assignment.isLate := false |}.

Definition withAttendance (w : World) (l : list Attendance.t) : World :=
  {| users := users w; sessions := sessions w; attendance := l |}.

(** Roster update and audit log shared by both statuses. *)
Definition forceFinish (req : ForceRequest) (session : Session.t)
    (w : World) (tr : list Event) : Outcome :=
  let audit :=
    AuditLogCreate "FORCE_ATTENDANCE_CORRECTION" (f_userId req) (f_sessionId req)
                   (f_status req) in
  match updateRoster session (f_userId req) (setRoster (f_status req)) with
  | Some session' =>
    mkOutcome (mkResponse 200 (ForceMarked (f_status req)))
              (tr ++ [SaveSession session'; audit]) (saveSession w session')
  | None =>
    mkOutcome (mkResponse 200 (ForceMarked (f_status req))) (tr ++ [audit]) w
  end.

Definition forceLoads (req : ForceRequest) : list Event :=
  [FindUserById (f_userId req); FindSessionById (f_sessionId req)].

Definition forceMarkAttendance (env : Env) (w : World) (req : ForceRequest) : Outcome :=
  if negb (match f_validationErrors req with [] => true | _ => false end) then
    mkOutcome (mkResponse 400 (Errors (f_validationErrors req))) [] w
  else if negb (f_role req =? "PLATFORM_OWNER")%string then
    mkOutcome (rejectMsg 403 "Forbidden: Only Platform Owner can force mark attendance") [] w
  else if negb (isValidObjectId env (f_sessionId req)) then
    mkOutcome (rejectMsg 400 "Invalid Session ID") [] w
  else if negb (isValidObjectId env (f_userId req)) then
    mkOutcome (rejectMsg 400 "Invalid User ID") [] w
  else if negb (f_status req =? "Present")%string
          && negb (f_status req =? "Absent")%string then
    mkOutcome (rejectMsg 400 ("Status must be either " ++ quoted "Present"
                                ++ " or " ++ quoted "Absent")) [] w
  else
  match findUserById w (f_userId req) with
  | None => mkOutcome (rejectMsg 404 "User not found") (forceLoads req) w
  | Some user =>
  match findSessionById w (f_sessionId req) with
  | None => mkOutcome (rejectMsg 404 "Session not found") (forceLoads req) w
  | Some session =>
    let same := sameUserAndSession (f_userId req) (f_sessionId req) in
    if (f_status req =? "Present")%string then
      let query := FindAttendance (f_userId req) (f_sessionId req) None in
      match find same (attendance w) with
      | Some existing =>
        forceFinish req session
          (withAttendance w (replaceFirst same (forceVerified existing) (attendance w)))
          (forceLoads req ++ [query; SaveAttendance (forceVerified existing)])
      | None =>
        forceFinish req session
          (insertAttendance w (forcedAttendance env req))
          (forceLoads req ++ [query; SaveAttendance (forcedAttendance env req)])
      end
    else
      forceFinish req session
        (withAttendance w (removeFirst same (attendance w)))
        (forceLoads req ++ [DeleteAttendance (f_userId req) (f_sessionId req)])
  end end.

(* ------------------------------------------------------------------ *)
(** ** Vocabulary of the properties *)

(** The attempt got past request validation and found its user and session. *)
Definition loaded (env : Env) (w : World) (req : Request)
    (user : User.t) (session : Session.t) : Prop :=
  validateRequest env req = None
  /\ findUserById w (userId req) = Some user
  /\ findSessionById w (sessionId req) = Some session.

(** Today (the IST calendar day) lies between the day of [startDate] and,
    when there is one, the day of [endDate], both included. *)
Definition inDateRange (env : Env) (s : Session.t) : Prop :=
  dayOf (Session.startDate s) <= dayOf (nowInIST env)
  /\ match Session.endDate s with
     | None => True
     | Some e => dayOf (nowInIST env) <= dayOf e
     end.

(** The check-in instant [t] falls on today's calendar day in local (IST)
    time. *)
Definition sameLocalDay (env : Env) (t : Z) : Prop :=
  dayOf (t + IST_OFFSET_MS) = dayOf (nowInIST env).

(** The uniqueness key: user and session for a OneTime session; user,
    session and local calendar day for a recurring one. *)
Definition duplicateKey (env : Env) (req : Request) (s : Session.t)
    (a : Attendance.t) : Prop :=
  Attendance.userId a = userId req
  /\ Attendance.sessionId a = sessionId req
  /\ (Session.frequency s <> OneTime -> sameLocalDay env (Attendance.checkInTime a)).

(** The attempt is scheduled today and is no duplicate. *)
Definition scheduled (env : Env) (w : World) (req : Request)
    (user : User.t) (session : Session.t) : Prop :=
  loaded env w req user session
  /\ isSessionDateToday env session = true
  /\ existingAttendance env w req session = None.

Definition isTooEarly (b : Body) : bool :=
  match b with TooEarly _ _ _ _ => true | _ => false end.

(** The attempt passed every stage before device binding. *)
Definition cleared (env : Env) (w : World) (req : Request)
    (user : User.t) (session : Session.t) (late : bool) (lateBy : option Z)
    (assignment : Assignment.t)
    (result : option LocationVerificationResult.t) (calls : list Event) : Prop :=
  scheduled env w req user session
  /\ tooEarly env session = None
  /\ lateness (timeDifferenceMs env session) (lateAttendanceLimit env)
              (isStrictAttendance env) = Accepted late lateBy
  /\ findAssignment session (userId req) = Some assignment
  /\ locationGate env req session assignment = (GateOpen true result, calls).

(** The record that a cleared attempt stores. *)
Definition recordOf (env : Env) (req : Request)
    (result : option LocationVerificationResult.t) (late : bool)
    (lateBy : option Z) : Attendance.t :=
  {| Attendance.userId := userId req;
     Attendance.sessionId := sessionId req;
     Attendance.checkInTime := nowUTC env;
     Attendance.locationVerified := true;
     Attendance.isLate := late;
     Attendance.lateByMinutes := lateBy;
     Attendance.userLocation := storedLocation (userLocation req);
     Attendance.deviceId := deviceId req;
     Attendance.reverseGeocodeSnapshot :=
       match result with
       | Some r => LocationVerificationResult.reverseGeocode r
       | None => None
       end;
     Attendance.confidenceScore :=
       match result with
       | Some r => LocationVerificationResult.confidenceScore r
       | None => JUndefined
       end;
     Attendance.accuracyRadius :=
       match result with
       | Some r => LocationVerificationResult.accuracyRadius r
       | None => JUndefined
       end |}.

Definition rosterAfter (session : Session.t) (assignment : Assignment.t)
    (uid : string) (late : bool) : Session.t :=
  withAssignedUsers session
    (replaceFirst (fun u => (Assignment.userId u =? uid)%string)
                  (markPresent late assignment) (Session.assignedUsers session)).

(** The successful end of the pipeline from world [w] and trace [tr]. *)
Definition created (env : Env) (req : Request) (session : Session.t)
    (assignment : Assignment.t) (result : option LocationVerificationResult.t)
    (late : bool) (lateBy : option Z) (w : World) (tr : list Event) : Outcome :=
  let a := recordOf env req result late lateBy in
  let session' := rosterAfter session assignment (userId req) late in
  mkOutcome (mkResponse 201 (Created a))
            ((tr ++ [SaveAttendance a]) ++ [SaveSession session'])
            (saveSession (insertAttendance w a) session').

(** U+00A0 and U+2028, in UTF-8. *)
Definition noBreakSpace : string :=
  String (ascii_of_nat 194) (String (ascii_of_nat 160) EmptyString).

Definition lineSeparator : string :=
  String (ascii_of_nat 226)
         (String (ascii_of_nat 128) (String (ascii_of_nat 168) EmptyString)).

Definition isStrictLate (b : Body) : bool :=
  match b with StrictLate _ _ => true | _ => false end.

(** The stages that follow the lateness block let the attempt through: the
    user is on the roster, the location gate opens with [result], and the
    device is the registered one or gets registered. *)
Definition laterStagesPass (env : Env) (req : Request) (user : User.t)
    (session : Session.t) (result : option LocationVerificationResult.t) : Prop :=
  exists assignment calls,
    findAssignment session (userId req) = Some assignment
    /\ locationGate env req session assignment = (GateOpen true result, calls)
    /\ (deviceGuard user req = DeviceMatches
        \/ exists user', deviceGuard user req = RegisterDevice user').

(** The Attendance schema casts [userLocation.latitude],
    [userLocation.longitude], [confidenceScore] and [accuracyRadius] to
    Number, and the cast refuses NaN.  The records that [markAttendance]
    builds hold numbers or nothing on these four paths, a non-blank device
    id and ids that passed the checks, so that NaN is the one reason for
    which the schema refuses such a record and its [save()] is rejected. *)
Definition notNaN (v : JsValue) : bool :=
  match v with
  | JNum JNaN => false
  | _ => true
  end.

Definition storable (a : Attendance.t) : bool :=
  notNaN (get (Attendance.userLocation a) "latitude")
  && notNaN (get (Attendance.userLocation a) "longitude")
  && notNaN (Attendance.confidenceScore a)
  && notNaN (Attendance.accuracyRadius a).

(** Every attendance record that a run hands to [save()] is one that the
    schema accepts. *)
Definition savesAccepted (tr : list Event) : bool :=
  forallb (fun e => match e with SaveAttendance a => storable a | _ => true end) tr.

(** A refusal: nothing is changed, no attendance record is written and the
    response is not the 201 of a created record. *)
Definition refused (w : World) (out : Outcome) : Prop :=
  final out = w
  /\ noAttendanceSaved (trace out)
  /\ status (response out) <> 201.

(** Every attendance record written with [locationVerified = true] in a run
    was preceded, in that run, by a call of [verifyLocation] that resolved
    to a result with [isValid = true]. *)
Definition verifiedByContract (env : Env) (out : Outcome) : Prop :=
  forall a,
    In (SaveAttendance a) (trace out) ->
    Attendance.locationVerified a = true ->
    exists args result,
      In (VerifyLocationCall args) (trace out)
      /\ verifyLocation env args = Resolved (Some result)
      /\ LocationVerificationResult.isValid result = true.

(** The request got as far as the checks on latitude and longitude: the
    route validators passed, [deviceId] and [userAgent] are non-blank
    strings and [userLocation] is an object. *)
Definition locationPresent (req : Request) : Prop :=
  validationErrors req = []
  /\ missing_string (deviceId req) = false
  /\ missing_string (userAgent req) = false
  /\ exists props, userLocation req = JObject props.

(** The attempt is answered 400 with reason [code] before anything is
    loaded or called. *)
Definition rejectedAtOnce (w : World) (out : Outcome) (code : string) : Prop :=
  status (response out) = 400
  /\ reasonOf (response out) = Some code
  /\ trace out = []
  /\ final out = w.

(** The reason codes of request validation are given by request validation
    only: once it has passed, no later stage answers with one of them. *)
Definition validationCodes : list string :=
  ["MISSING_DEVICE_ID"; "MISSING_USER_AGENT"; "MISSING_LOCATION";
   "INVALID_LOCATION_COORDS"; "INVALID_LOCATION_ZERO"; "MISSING_ACCURACY";
   "INVALID_ACCURACY"].

Definition hasValidationCode (r : Response) : bool :=
  match reasonOf r with
  | Some code => includes validationCodes code
  | None => false
  end.

(** The raw location payload of a request is unusable: the location object
    is missing, a coordinate is not a number, the coordinates are (0, 0), or
    the accuracy is missing, not a number, NaN, not positive or above 1000
    metres. *)
Definition rawLocationInvalid (req : Request) : Prop :=
  (forall props, userLocation req <> JObject props)
  \/ typeof (get (userLocation req) "latitude") <> TNumber
  \/ typeof (get (userLocation req) "longitude") <> TNumber
  \/ (exists x y, get (userLocation req) "latitude" = JNum (JFinite x)
                  /\ get (userLocation req) "longitude" = JNum (JFinite y)
                  /\ (x == 0)%Q /\ (y == 0)%Q)
  \/ typeof (accuracy req) <> TNumber
  \/ accuracy req = JNum JNaN
  \/ (exists q, accuracy req = JNum (JFinite q) /\ ((q <= 0)%Q \/ (1000 < q)%Q)).

Definition locationCodes : list string :=
  ["MISSING_LOCATION"; "INVALID_LOCATION_COORDS"; "INVALID_LOCATION_ZERO";
   "MISSING_ACCURACY"; "INVALID_ACCURACY"].

Definition withSettings (env : Env) (settings : SettingsLookup) : Env :=
  {| nowUTC := nowUTC env;
     findSettings := settings;
     verifyLocation := verifyLocation env;
     isValidObjectId := isValidObjectId env |}.

(** The user as stored by a first check-in. *)
Definition registeredAs (user : User.t) (req : Request) : User.t :=
  {| User.id := User.id user;
     User.email := User.email user;
     User.registeredDeviceId := deviceId req;
     User.registeredUserAgent := userAgent req |}.

(* ------------------------------------------------------------------ *)
(** ** A concrete organisation, used to run the handlers

    The clock reads 2024-01-01T04:30:00Z, that is 10:00 IST on a Monday; the
    session starts at 11:00 IST on that day. *)

Module Scenario.

Definition now : Z := 1704083400000.

Definition today : Z := 1704067200000.

Definition delhi : JsValue :=
  JObject [("latitude", JNum (JFinite (286139 # 10000)));
           ("longitude", JNum (JFinite (77209 # 1000)))].

Definition snapshot : ReverseGeocode :=
  {| rg_city := "New Delhi"; rg_state := "Delhi";
     rg_locality := "Connaught Place"; rg_district := "New Delhi";
     rg_pincode := "110001";
     rg_fullAddress := "Connaught Place, New Delhi, Delhi 110001" |}.

Definition verified : LocationVerificationResult.t :=
  {| LocationVerificationResult.isValid := true;
     LocationVerificationResult.confidenceScore := JNum (JFinite (17 # 20));
     LocationVerificationResult.accuracyRadius := JNum (JFinite 20);
     LocationVerificationResult.reverseGeocode := Some snapshot;
     LocationVerificationResult.geofenceResult := None |}.

Definition env (settings : SettingsLookup) (verify : VerifyOutcome) : Env :=
  {| nowUTC := now;
     findSettings := settings;
     verifyLocation := fun _ => verify;
     isValidObjectId := fun s => Nat.eqb (String.length s) 24 |}.

Definition env0 : Env := env (SettingsDoc 30 (Some false)) (Resolved (Some verified)).

(** The provider would refuse everything. *)
Definition envRefusing : Env :=
  env (SettingsDoc 30 (Some false)) (Threw (Some "Location verification failed.")).

Definition sid : string := "507f1f77bcf86cd799439011".
Definition uid : string := "65a000000000000000000123".

Definition request : Request :=
  {| validationErrors := [];
     userId := uid;
     role := "User";
     sessionId := sid;
     userLocation := delhi;
     deviceId := JString "device123";
     userAgent := JString "Mozilla/5.0";
     accuracy := JNum (JFinite 20) |}.

Definition user (device agent : JsValue) : User.t :=
  {| User.id := uid; User.email := "test@example.com";
     User.registeredDeviceId := device; User.registeredUserAgent := agent |}.

Definition registered : User.t := user (JString "device123") (JString "Mozilla/5.0").
Definition newcomer : User.t := user JUndefined JUndefined.

Definition assigned (m : Mode.t) : Assignment.t :=
  {| Assignment.userId := uid; Assignment.mode := m;
     Assignment.attendanceStatus := "Pending"; Assignment.isLate := false |}.

Definition session (f : Frequency) (t : SessionType.t) (m : Mode.t)
    (start : Z * Z) (days : list string) (loc : option LocationDescriptor) : Session.t :=
  {| Session.id := sid; Session.name := "Test Session";
     Session.frequency := f;
     Session.startDate := today; Session.endDate := None;
     Session.startTime := start; Session.endTime := (fst start + 1, snd start);
     Session.weeklyDays := days;
     Session.sessionType := t;
     Session.city := None; Session.state := None; Session.geofence := None;
     Session.location := loc;
     Session.geolocation := None;
     Session.radius := 100;
     Session.assignedUsers := [assigned m] |}.

Definition coordsLocation : option LocationDescriptor :=
  Some {| loc_type := COORDS;
          loc_geolocation := Some (mkCoordinates (286139 # 10000) (77209 # 1000));
          loc_link := None |}.

(** A link-type descriptor whose coordinates were never resolved. *)
Definition linkWithoutCoordinates : option LocationDescriptor :=
  Some {| loc_type := LINK;
          loc_geolocation := None;
          loc_link := Some "https://maps.google.com/..." |}.

Definition physical : Session.t :=
  session OneTime SessionType.PHYSICAL Mode.PHYSICAL (11, 0) [] coordsLocation.

Definition world (u : User.t) (s : Session.t) (l : list Attendance.t) : World :=
  {| users := [u]; sessions := [s]; attendance := l |}.

Definition earlier (checkIn : Z) : Attendance.t :=
  {| Attendance.userId := uid; Attendance.sessionId := sid;
     Attendance.checkInTime := checkIn;
     Attendance.locationVerified := true;
     Attendance.isLate := false; Attendance.lateByMinutes := None;
     Attendance.userLocation := delhi;
     Attendance.deviceId := JString "device123";
     Attendance.reverseGeocodeSnapshot := Some snapshot;
     Attendance.confidenceScore := JNum (JFinite (17 # 20));
     Attendance.accuracyRadius := JNum (JFinite 20) |}.

Definition withAccuracy (a : JsValue) : Request :=
  {| validationErrors := [];
     userId := uid;
     role := "User";
     sessionId := sid;
     userLocation := delhi;
     deviceId := JString "device123";
     userAgent := JString "Mozilla/5.0";
     accuracy := a |}.

Definition nullIsland : JsValue :=
  JObject [("latitude", JNum (JFinite 0)); ("longitude", JNum (JFinite 0))].

Definition withLocation (l : JsValue) : Request :=
  {| validationErrors := [];
     userId := uid;
     role := "User";
     sessionId := sid;
     userLocation := l;
     deviceId := JString "device123";
     userAgent := JString "Mozilla/5.0";
     accuracy := JNum (JFinite 20) |}.

Definition forceRequest (st : string) : ForceRequest :=
  {| f_validationErrors := [];
     f_role := "PLATFORM_OWNER";
     f_performerId := "65a000000000000000000001";
     f_sessionId := sid;
     f_userId := uid;
     f_status := st |}.

End Scenario.

(* ------------------------------------------------------------------ *)
(** ** Vocabulary of the further properties *)

(** The reason codes [markAttendance] can answer with. *)
Definition answerCodes : list string :=
  validationCodes ++ ["MAPMYINDIA_VERIFICATION_FAILED"].

(** A write to a collection. *)
Definition isWrite (e : Event) : bool :=
  match e with
  | SaveUser _ | SaveAttendance _ | SaveSession _ | DeleteAttendance _ _ => true
  | _ => false
  end.

Definition noWrite (tr : list Event) : Prop :=
  forall e, In e tr -> isWrite e = false.

(** An entry of the audit log. *)
Definition isAuditLog (e : Event) : bool :=
  match e with
  | AuditLogCreate _ _ _ _ => true
  | _ => false
  end.

(** The attendance records of one user for one session. *)
Definition recordsOf (uid sid : string) (l : list Attendance.t) : list Attendance.t :=
  filter (sameUserAndSession uid sid) l.

(* ------------------------------------------------------------------ *)
(** ** The location verification service ([services/mapmyindiaService.ts])

    [verifyLocation], which [markAttendance] calls, and its helpers, over
    the HTTP client.  The outcome of each [axios.get] is a field of the
    [Service] record, and every request that is made is recorded, in order.
    Coordinates are numbers, as the signatures say and as the controller
    ensures before it calls (lines 389-396); the accuracy keeps its dynamic
    type, because the service checks it.  Response bodies have their
    declared types ([ReverseGeocodeResponse], [GeofenceResponse]); an absent
    text field reads as the empty string, which the service does not tell
    apart from it, and a distance is a JSON number, held as its rational
    value.  The rendering of numbers in messages and the normalisation of
    city names are the platform's, and fields of the record as well. *)

Module MapmyIndia.

Definition MIN_CONFIDENCE_SCORE : JsNumber := JFinite (6 # 10).
Definition MAX_ACCURACY_RADIUS : JsNumber := JFinite 50.

(** A thrown error: its [message] and, for an error of the HTTP client, the
    status of [error.response] and the presence of [error.request]. *)
Record Exception : Type := mkException {
  message : string;
  responseStatus : option Z;
  hasRequest : bool
}.

(** [new Error(message)]. *)
Definition newError (m : string) : Exception := mkException m None false.

Inductive Result (A : Type) : Type :=
| Return (a : A)
| Throw (e : Exception).

Arguments Return {A} a.
Arguments Throw {A} e.

(** One entry of [ReverseGeocodeResponse.results]: the fields that are read. *)
Record Place : Type := mkPlace {
  houseNumber : string;
  houseName : string;
  street : string;
  subLocality : string;
  locality : string;
  district : string;
  city : string;
  state : string;
  pincode : string
}.

Record ReverseGeocodeResponse : Type := mkReverseGeocodeResponse {
  rev_responseCode : JsNumber;
  (** Absent, or an array. *)
  rev_results : option (list Place);
  rev_confidenceScore : option JsNumber
}.

Record GeofenceHit : Type := mkGeofenceHit {
  hit_isInside : bool;
  hit_distance : Q
}.

Record GeofenceResponse : Type := mkGeofenceResponse {
  geo_responseCode : JsNumber;
  geo_results : option (list GeofenceHit)
}.

(** How an [axios.get] ends: with a response whose status passed
    [validateStatus], or with a rejection. *)
Inductive Http (A : Type) : Type :=
| Responds (data : A)
| Rejects (e : Exception).

Arguments Responds {A} data.
Arguments Rejects {A} e.

(** The requests the service makes. *)
Inductive HttpGet : Type :=
| RevGeocode (lat lng : JsNumber)
| GeofenceCheck (lat lng : JsNumber) (ring : list (list Q)).

Record Service : Type := mkService {
  (** [process.env.MAPMYINDIA_API_KEY]. *)
  MAPMYINDIA_API_KEY : option string;
  (** [axios.get] of [rev_geocode] and of [geofence/check]. *)
  rev_geocode : JsNumber -> JsNumber -> Http ReverseGeocodeResponse;
  geofence_check : JsNumber -> JsNumber -> list (list Q) -> Http GeofenceResponse;
  (** [String(Math.round(x))]. *)
  rounded : JsNumber -> string;
  (** [x.toFixed(2)]. *)
  toFixed2 : JsNumber -> string;
  (** [s.trim().toLowerCase()]. *)
  normalized : string -> string;
  (** The message of the TypeError of reading a property of [undefined]. *)
  typeErrorMessage : string
}.

(** A computation of the service: its result and the requests it made. *)
Definition M (A : Type) : Type := Result A * list HttpGet.

Definition ret {A : Type} (a : A) : M A := (Return a, []).

Definition throw {A : Type} (e : Exception) : M A := (Throw e, []).

Definition bind {A B : Type} (m : M A) (f : A -> M B) : M B :=
  match m with
  | (Return a, calls) => let (r, calls') := f a in (r, calls ++ calls')
  | (Throw e, calls) => (Throw e, calls)
  end.

(** [try { m } catch (error) { handler }]. *)
Definition tryCatch {A : Type} (m : M A) (handler : Exception -> M A) : M A :=
  match m with
  | (Return a, calls) => (Return a, calls)
  | (Throw e, calls) => let (r, calls') := handler e in (r, calls ++ calls')
  end.

Definition lift {A : Type} (r : Result A) : M A := (r, []).

Definition axiosGet {A : Type} (call : HttpGet) (answer : Http A) : M A :=
  match answer with
  | Responds data => (Return data, [call])
  | Rejects e => (Throw e, [call])
  end.

Notation "x <- m ;; k" := (bind m (fun x => k))
  (at level 61, m at next level, right associativity).

(** [a < b] on numbers. *)
Definition num_ltb (a b : JsNumber) : bool := num_gtb b a.

(** [code !== 200]. *)
Definition not200 (code : JsNumber) : bool :=
  negb (strict_eq (JNum code) (JNum (JFinite 200))).

(** [!MAPMYINDIA_API_KEY] is false. *)
Definition configured (S : Service) : bool :=
  match MAPMYINDIA_API_KEY S with
  | Some key => truthy (JString key)
  | None => false
  end.

(** [a || b] on strings. *)
Definition orElse (a b : string) : string :=
  if (a =? "")%string then b else a.

(** [response.data.confidenceScore || 0.8]. *)
Definition confidenceOf (data : ReverseGeocodeResponse) : JsNumber :=
  match rev_confidenceScore data with
  | Some n => if truthy (JNum n) then n else JFinite (8 # 10)
  | None => JFinite (8 # 10)
  end.

(** The [reverseGeocode] field built from the first result (lines 293-308). *)
Definition snapshotOf (result : Place) : ReverseGeocode :=
  {| rg_city := orElse (city result) (orElse (district result) "Unknown");
     rg_state := orElse (state result) "Unknown";
     rg_locality := orElse (locality result) (orElse (subLocality result) "Unknown");
     rg_district := orElse (district result) "Unknown";
     rg_pincode := orElse (pincode result) "Unknown";
     rg_fullAddress :=
       String.concat ", "
         (filter (fun s => truthy (JString s))
                 [houseNumber result; houseName result; street result;
                  locality result; city result; state result; pincode result]) |}.

Definition notConfigured : Exception :=
  newError "Location verification service is not configured. Please contact administrator.".

(** Lines 236-344. *)
Definition reverseGeocode (S : Service) (latitude longitude : JsNumber)
    : M LocationVerificationResult.t :=
  if negb (configured S) then throw notConfigured
  else
    tryCatch
      (data <- axiosGet (RevGeocode latitude longitude)
                        (rev_geocode S latitude longitude) ;;
       if not200 (rev_responseCode data) then
         throw (newError "Location verification failed. Please try again.")
       else
         match rev_results data with
         | None | Some [] =>
           throw (newError "Could not verify your location. Please ensure GPS is enabled.")
         | Some (result :: _) =>
           let confidenceScore := confidenceOf data in
           if num_ltb confidenceScore MIN_CONFIDENCE_SCORE then
             throw (newError
                      ("Location verification failed. Confidence score too low ("
                         ++ toFixed2 S confidenceScore ++ "). "
                         ++ "Please ensure you are at the correct location and GPS is accurate."))
           else
             ret {| LocationVerificationResult.isValid := true;
                    LocationVerificationResult.confidenceScore := JNum confidenceScore;
                    LocationVerificationResult.accuracyRadius := zero;
                    LocationVerificationResult.reverseGeocode := Some (snapshotOf result);
                    LocationVerificationResult.geofenceResult := None |}
         end)
      (fun error =>
         match responseStatus error with
         | Some statusCode =>
           if (400 <=? statusCode) && (statusCode <? 500) then
             throw (newError "Unable to verify location at this time. Attendance not marked. Please try again.")
           else
             throw (newError "Location verification service is temporarily unavailable. Attendance not marked.")
         | None =>
           if hasRequest error then
             throw (newError "Unable to verify location at this time. Attendance not marked. Please check your connection and try again.")
           else
             throw (newError "Unable to verify location at this time. Attendance not marked.")
         end).

(** Lines 360-453.  [geofencePolygon[0]] of an empty polygon is [undefined],
    and reading [map] of it throws inside the [try], before the request. *)
Definition checkGeofence (S : Service) (latitude longitude : JsNumber)
    (geofencePolygon : Polygon) : M GeofenceResult :=
  if negb (configured S) then throw notConfigured
  else
    tryCatch
      (match geofencePolygon with
       | [] => throw (newError (typeErrorMessage S))
       | ring :: _ =>
         data <- axiosGet (GeofenceCheck latitude longitude ring)
                          (geofence_check S latitude longitude ring) ;;
         if not200 (geo_responseCode data) then
           throw (newError "Geofence verification failed. Please try again.")
         else
           match geo_results data with
           | None | Some [] =>
             throw (newError "Could not verify location boundary. Please try again.")
           | Some (result :: _) =>
             if negb (hit_isInside result) then
               throw (newError
                        ("You are not within the approved location boundary. "
                           ++ "You are " ++ rounded S (JFinite (hit_distance result))
                           ++ "m away from the session location. "
                           ++ "Please move to the correct location and try again."))
             else
               ret {| isInside := hit_isInside result;
                      distance := if Qeq_bool (hit_distance result) 0
                                  then 0%Q else hit_distance result |}
           end
       end)
      (fun error =>
         match responseStatus error with
         | Some statusCode =>
           if (400 <=? statusCode) && (statusCode <? 500) then
             throw (newError "Unable to verify location boundary at this time. Attendance not marked. Please try again.")
           else
             throw (newError "Geofence verification service is temporarily unavailable. Attendance not marked.")
         | None =>
           if hasRequest error then
             throw (newError "Unable to verify location boundary at this time. Attendance not marked. Please check your connection and try again.")
           else
             throw error
         end).

(** Lines 464-479. *)
Definition validateAccuracy (S : Service) (accuracyRadius : JsValue) : Result unit :=
  if negb (is_type accuracyRadius TNumber) || isNaN (number_of accuracyRadius) then
    Throw (newError "Invalid GPS accuracy data. Please enable high-accuracy GPS and try again.")
  else if num_gtb (number_of accuracyRadius) MAX_ACCURACY_RADIUS then
    Throw (newError
             ("GPS accuracy is too low (" ++ rounded S (number_of accuracyRadius) ++ "m). "
                ++ "Please enable high-accuracy GPS and ensure you have a clear view of the sky. "
                ++ "Maximum allowed accuracy: 50m."))
  else Return tt.

(** Lines 491-517. *)
Definition validateCityMatch (S : Service) (reverseGeocodeCity sessionCity : string)
    : Result unit :=
  if negb (truthy (JString sessionCity)) || negb (truthy (JString reverseGeocodeCity)) then
    if negb (truthy (JString sessionCity)) then Return tt
    else Throw (newError "Could not verify location city. Please try again.")
  else if negb (normalized S reverseGeocodeCity =? normalized S sessionCity)%string then
    Throw (newError
             ("Location verification failed. You are in " ++ reverseGeocodeCity ++ ", "
                ++ "but the session is in " ++ sessionCity
                ++ ". Please move to the correct location."))
  else Return tt.

Definition withAccuracyRadius (r : LocationVerificationResult.t) (a : JsValue)
    : LocationVerificationResult.t :=
  {| LocationVerificationResult.isValid := LocationVerificationResult.isValid r;
     LocationVerificationResult.confidenceScore :=
       LocationVerificationResult.confidenceScore r;
     LocationVerificationResult.accuracyRadius := a;
     LocationVerificationResult.reverseGeocode :=
       LocationVerificationResult.reverseGeocode r;
     LocationVerificationResult.geofenceResult :=
       LocationVerificationResult.geofenceResult r |}.

Definition withGeofenceResult (r : LocationVerificationResult.t) (g : GeofenceResult)
    : LocationVerificationResult.t :=
  {| LocationVerificationResult.isValid := LocationVerificationResult.isValid r;
     LocationVerificationResult.confidenceScore :=
       LocationVerificationResult.confidenceScore r;
     LocationVerificationResult.accuracyRadius :=
       LocationVerificationResult.accuracyRadius r;
     LocationVerificationResult.reverseGeocode :=
       LocationVerificationResult.reverseGeocode r;
     LocationVerificationResult.geofenceResult := Some g |}.

Definition withIsValid (r : LocationVerificationResult.t) (b : bool)
    : LocationVerificationResult.t :=
  {| LocationVerificationResult.isValid := b;
     LocationVerificationResult.confidenceScore :=
       LocationVerificationResult.confidenceScore r;
     LocationVerificationResult.accuracyRadius :=
       LocationVerificationResult.accuracyRadius r;
     LocationVerificationResult.reverseGeocode :=
       LocationVerificationResult.reverseGeocode r;
     LocationVerificationResult.geofenceResult :=
       LocationVerificationResult.geofenceResult r |}.

(** [geofencePolygon && geofencePolygon.length > 0 &&
    geofencePolygon[0].length >= 3]. *)
Definition hasGeofence (geofencePolygon : option Polygon) : bool :=
  match geofencePolygon with
  | Some (ring :: _) => (3 <=? List.length ring)%nat
  | _ => false
  end.

(** Step 3, lines 565-567. *)
Definition cityStep (S : Service) (r : LocationVerificationResult.t)
    (sessionCity : option string) : M unit :=
  match sessionCity with
  | Some c =>
    if truthy (JString c) then
      match LocationVerificationResult.reverseGeocode r with
      | Some rg => lift (validateCityMatch S (rg_city rg) c)
      | None => throw (newError (typeErrorMessage S))
      end
    else ret tt
  | None => ret tt
  end.

(** Lines 539-595.  [sessionState] is accepted and not used. *)
Definition verifyLocation (S : Service) (latitude longitude : JsNumber)
    (accuracyRadius : JsValue) (sessionCity sessionState : option string)
    (geofencePolygon : option Polygon) : M LocationVerificationResult.t :=
  _ <- lift (validateAccuracy S accuracyRadius) ;;
  reverseGeocodeResult <- reverseGeocode S latitude longitude ;;
  let reverseGeocodeResult := withAccuracyRadius reverseGeocodeResult accuracyRadius in
  _ <- cityStep S reverseGeocodeResult sessionCity ;;
  if hasGeofence geofencePolygon then
    geofenceResult <- checkGeofence S latitude longitude
                                    (match geofencePolygon with Some p => p | None => [] end) ;;
    let reverseGeocodeResult := withGeofenceResult reverseGeocodeResult geofenceResult in
    if negb (isInside geofenceResult) then
      (* the result object, marked invalid, is dropped with the throw *)
      throw (newError
               ("You are not within the approved location boundary. "
                  ++ "You are " ++ rounded S (JFinite (distance geofenceResult))
                  ++ "m away from the session location."))
    else ret (withIsValid reverseGeocodeResult true)
  else ret (withIsValid reverseGeocodeResult true).

(** The call of the controller, lines 403-410, and what its [await] sees. *)
Definition called (S : Service) (args : VerifyArgs) : M LocationVerificationResult.t :=
  verifyLocation S (number_of (v_latitude args)) (number_of (v_longitude args))
                 (v_accuracyRadius args) (v_sessionCity args) (v_sessionState args)
                 (v_geofencePolygon args).

Definition awaited (m : M LocationVerificationResult.t) : VerifyOutcome :=
  match fst m with
  | Return r => Resolved (Some r)
  | Throw e => Threw (Some (message e))
  end.

End MapmyIndia.

(** The environment of a server whose [verifyLocation] is the service. *)
Definition withService (S : MapmyIndia.Service) (env : Env) : Env :=
  {| nowUTC := nowUTC env;
     findSettings := findSettings env;
     verifyLocation := fun args => MapmyIndia.awaited (MapmyIndia.called S args);
     isValidObjectId := isValidObjectId env |}.

(** ** Vocabulary of the service properties *)

(** The accuracy is a number of at most [MAX_ACCURACY_RADIUS] metres. *)
Definition withinAccuracy (a : JsValue) : bool :=
  match a with
  | JNum n => num_leb n MapmyIndia.MAX_ACCURACY_RADIUS
  | _ => false
  end.

Definition isVerifyCall (e : Event) : bool :=
  match e with VerifyLocationCall _ => true | _ => false end.

(** The messages of [reverseGeocode] for a provider that cannot be used. *)
Definition reverseGeocodeFailures : list string :=
  ["Location verification service is not configured. Please contact administrator.";
   "Unable to verify location at this time. Attendance not marked. Please try again.";
   "Location verification service is temporarily unavailable. Attendance not marked.";
   "Unable to verify location at this time. Attendance not marked. Please check your connection and try again.";
   "Unable to verify location at this time. Attendance not marked."].

(** A provider and a platform to run the service on: numbers below 1e21 and
    names in the ASCII range. *)
Module Provider.

Definition text_of_Z (z : Z) : string := NilZero.string_of_int (Z.to_int z).

(** [Math.round] rounds halves up. *)
Definition rounded (n : JsNumber) : string :=
  match n with
  | JNaN => "NaN"
  | JInfinity negative => if negative then "-Infinity" else "Infinity"
  | JFinite q => text_of_Z (Qfloor (q + (1 # 2)))
  end.

Definition two_digits (z : Z) : string :=
  if z <? 10 then "0" ++ text_of_Z z else text_of_Z z.

(** [toFixed] rounds the magnitude, halves up, and puts the sign in front. *)
Definition toFixed2 (n : JsNumber) : string :=
  match n with
  | JNaN => "NaN"
  | JInfinity negative => if negative then "-Infinity" else "Infinity"
  | JFinite q =>
    let hundredths := Qfloor (Qabs q * 100 + (1 # 2)) in
    (if Qle_bool 0 q then "" else "-")
      ++ text_of_Z (hundredths / 100) ++ "." ++ two_digits (hundredths mod 100)
  end.

Fixpoint dropSpaces (l : list ascii) : list ascii :=
  match l with
  | [] => []
  | c :: rest => if is_space c then dropSpaces rest else l
  end.

Definition toLowerCase (c : ascii) : ascii :=
  let n := nat_of_ascii c in
  if (Nat.leb 65 n && Nat.leb n 90)%bool then ascii_of_nat (n + 32) else c.

Definition normalized (s : string) : string :=
  string_of_list_ascii
    (map toLowerCase (rev (dropSpaces (rev (dropSpaces (list_ascii_of_string s)))))).

Definition service (key : option string)
    (rev : MapmyIndia.Http MapmyIndia.ReverseGeocodeResponse)
    (geo : MapmyIndia.Http MapmyIndia.GeofenceResponse) : MapmyIndia.Service :=
  {| MapmyIndia.MAPMYINDIA_API_KEY := key;
     MapmyIndia.rev_geocode := fun _ _ => rev;
     MapmyIndia.geofence_check := fun _ _ _ => geo;
     MapmyIndia.rounded := rounded;
     MapmyIndia.toFixed2 := toFixed2;
     MapmyIndia.normalized := normalized;
     MapmyIndia.typeErrorMessage :=
       "Cannot read properties of undefined (reading 'map')" |}.

Definition connaughtPlace : MapmyIndia.Place :=
  {| MapmyIndia.houseNumber := "";
     MapmyIndia.houseName := "";
     MapmyIndia.street := "Janpath";
     MapmyIndia.subLocality := "";
     MapmyIndia.locality := "Connaught Place";
     MapmyIndia.district := "New Delhi";
     MapmyIndia.city := "New Delhi";
     MapmyIndia.state := "Delhi";
     MapmyIndia.pincode := "110001" |}.

(** The provider finds the place, with the given confidence score if any. *)
Definition located (score : option JsNumber)
    : MapmyIndia.Http MapmyIndia.ReverseGeocodeResponse :=
  MapmyIndia.Responds
    {| MapmyIndia.rev_responseCode := JFinite 200;
       MapmyIndia.rev_results := Some [connaughtPlace];
       MapmyIndia.rev_confidenceScore := score |}.

Definition fenced (inside : bool) (metres : Q)
    : MapmyIndia.Http MapmyIndia.GeofenceResponse :=
  MapmyIndia.Responds
    {| MapmyIndia.geo_responseCode := JFinite 200;
       MapmyIndia.geo_results :=
         Some [{| MapmyIndia.hit_isInside := inside;
                  MapmyIndia.hit_distance := metres |}] |}.

(** The request timed out. *)
Definition timeout {A : Type} : MapmyIndia.Http A :=
  MapmyIndia.Rejects
    {| MapmyIndia.message := "timeout of 10000ms exceeded";
       MapmyIndia.responseStatus := None;
       MapmyIndia.hasRequest := true |}.

Definition campus : Polygon :=
  [[[77208 # 1000; 286138 # 10000]; [77210 # 1000; 286138 # 10000];
    [77210 # 1000; 286140 # 10000]; [77208 # 1000; 286140 # 10000]]]%Q.

(** The scenario's session, held in New Delhi inside the campus fence. *)
Definition office : Session.t :=
  {| Session.id := Scenario.sid; Session.name := "Test Session";
     Session.frequency := OneTime;
     Session.startDate := Scenario.today; Session.endDate := None;
     Session.startTime := (11, 0); Session.endTime := (12, 0);
     Session.weeklyDays := [];
     Session.sessionType := SessionType.PHYSICAL;
     Session.city := Some " new delhi"; Session.state := Some "Delhi";
     Session.geofence := Some campus;
     Session.location := Scenario.coordsLocation;
     Session.geolocation := None;
     Session.radius := 100;
     Session.assignedUsers := [Scenario.assigned Mode.PHYSICAL] |}.

Definition latitude : JsNumber := JFinite (286139 # 10000).
Definition longitude : JsNumber := JFinite (77209 # 1000).

(** What the service returns in the scenario: the default confidence score
    and the snapshot of [Provider.connaughtPlace]. *)
Definition attested (g : option GeofenceResult) : LocationVerificationResult.t :=
  {| LocationVerificationResult.isValid := true;
     LocationVerificationResult.confidenceScore := JNum (JFinite (8 # 10));
     LocationVerificationResult.accuracyRadius := JNum (JFinite 20);
     LocationVerificationResult.reverseGeocode :=
       Some {| rg_city := "New Delhi"; rg_state := "Delhi";
               rg_locality := "Connaught Place"; rg_district := "New Delhi";
               rg_pincode := "110001";
               rg_fullAddress := "Janpath, Connaught Place, New Delhi, Delhi, 110001" |};
     LocationVerificationResult.geofenceResult := g |}.

End Provider.

(* ------------------------------------------------------------------ *)
(** ** The listings: getMyAttendance and getUserAttendance

    The two handlers read the collections and change nothing.  A document
    id is an ObjectId, which is always truthy, so [filter(id => id)] keeps
    every id.  What is sent for one record is modelled with the fields that
    the collections of this development carry (the record's own [_id] and
    its timestamps are not among them). *)

(** What [getMyAttendance] sends for one record: the record, with its
    [sessionId] replaced by the session document, or [null]. *)
Module MyRecord.
Record t : Type := mk {
  userId : string;
  sessionId : option Session.t;
  checkInTime : Z;
  locationVerified : bool;
  isLate : bool;
  lateByMinutes : option Z;
  userLocation : JsValue;
  deviceId : JsValue;
  reverseGeocodeSnapshot : option ReverseGeocode;
  confidenceScore : JsValue;
  accuracyRadius : JsValue
}.
End MyRecord.

(** What [getUserAttendance] sends for one record (lines 923-933). *)
Module UserRecord.
Record t : Type := mk {
  userId : string;
  sessionId : option Session.t;
  checkInTime : Z;
  locationVerified : bool;
  userLocation : JsValue;
  deviceId : JsValue
}.
End UserRecord.

(** The queries of the listings, in order. *)
Inductive Query : Type :=
| FindAttendanceOfUser (userId : string)
| FindSessionsIn (ids : list string)
| FindUser (id : string).

Inductive Listing (A : Type) : Type :=
| Sent (records : list A)
| Answered (code : Z) (msg : string).

Arguments Sent {A} records.
Arguments Answered {A} code msg.

(** [.sort({ checkInTime: -1 })]: newest first.  The database leaves the
    order of records with equal check-in time open; here they keep the
    order of the collection. *)
Fixpoint insertNewestFirst (a : Attendance.t) (l : list Attendance.t)
    : list Attendance.t :=
  match l with
  | [] => [a]
  | b :: rest =>
    if Attendance.checkInTime b <=? Attendance.checkInTime a then a :: l
    else b :: insertNewestFirst a rest
  end.

Definition sortNewestFirst (l : list Attendance.t) : list Attendance.t :=
  fold_right insertNewestFirst [] l.

(** [AttendanceCollection.find({ userId }).sort({ checkInTime: -1 })]. *)
Definition findAttendanceOfUser (w : World) (uid : string) : list Attendance.t :=
  sortNewestFirst (filter (fun a => (Attendance.userId a =? uid)%string) (attendance w)).

(** [SessionCollection.find({ _id: { $in: sessionIds } })]. *)
Definition findSessionsIn (w : World) (ids : list string) : list Session.t :=
  filter (fun s => existsb (String.eqb (Session.id s)) ids) (sessions w).

(** A [Map] from id strings to session documents. *)
Definition SessionMap : Type := string -> option Session.t.

Definition mapSet (m : SessionMap) (key : string) (s : Session.t) : SessionMap :=
  fun k => if (k =? key)%string then Some s else m k.

(** [sessions.forEach(session => sessionMap.set(session._id.toString(),
    session))] on a new map. *)
Definition sessionMapOf (l : list Session.t) : SessionMap :=
  fold_left (fun m s => mapSet m (Session.id s) s) l (fun _ => None).

(** The join shared by the two handlers: the records of the user, the
    sessions they name, and the map of these. *)
Definition joinSessions (w : World) (uid : string)
    : list Attendance.t * SessionMap * list Query :=
  let attendanceRecords := findAttendanceOfUser w uid in
  let sessionIds := map Attendance.sessionId attendanceRecords in
  if (0 <? List.length sessionIds)%nat then
    (attendanceRecords, sessionMapOf (findSessionsIn w sessionIds),
     [FindAttendanceOfUser uid; FindSessionsIn sessionIds])
  else (attendanceRecords, sessionMapOf [], [FindAttendanceOfUser uid]).

(** Lines 670-717. *)
Definition getMyAttendance (w : World) (userId : string)
    : Listing MyRecord.t * list Query :=
  let '(attendanceRecords, sessionMap, queries) := joinSessions w userId in
  (Sent (map (fun record =>
                {| MyRecord.userId := Attendance.userId record;
                   MyRecord.sessionId := sessionMap (Attendance.sessionId record);
                   MyRecord.checkInTime := Attendance.checkInTime record;
                   MyRecord.locationVerified := Attendance.locationVerified record;
                   MyRecord.isLate := Attendance.isLate record;
                   MyRecord.lateByMinutes := Attendance.lateByMinutes record;
                   MyRecord.userLocation := Attendance.userLocation record;
                   MyRecord.deviceId := Attendance.deviceId record;
                   MyRecord.reverseGeocodeSnapshot :=
                     Attendance.reverseGeocodeSnapshot record;
                   MyRecord.confidenceScore := Attendance.confidenceScore record;
                   MyRecord.accuracyRadius := Attendance.accuracyRadius record |})
             attendanceRecords),
   queries).

(** Lines 869-944; [userRole] is the caller's role, [userId] the route
    parameter. *)
Definition getUserAttendance (env : Env) (w : World) (userRole userId : string)
    : Listing UserRecord.t * list Query :=
  if negb (userRole =? "Manager")%string && negb (userRole =? "SuperAdmin")%string
     && negb (userRole =? "PLATFORM_OWNER")%string then
    (Answered 403 "Not authorized to view attendance reports", [])
  else if negb (isValidObjectId env userId) then
    (Answered 400 "Invalid User ID", [])
  else
    match findUserById w userId with
    | None => (Answered 404 "User not found", [FindUser userId])
    | Some _ =>
      let '(attendanceRecords, sessionMap, queries) := joinSessions w userId in
      (Sent (map (fun record =>
                    {| UserRecord.userId := Attendance.userId record;
                       UserRecord.sessionId := sessionMap (Attendance.sessionId record);
                       UserRecord.checkInTime := Attendance.checkInTime record;
                       UserRecord.locationVerified := Attendance.locationVerified record;
                       UserRecord.userLocation := Attendance.userLocation record;
                       UserRecord.deviceId := Attendance.deviceId record |})
                 attendanceRecords),
       FindUser userId :: queries)
    end.

(** ** Vocabulary of the listings *)

(** The fields of a [MyRecord] that [getUserAttendance] sends as well. *)
Definition summary (r : MyRecord.t) : UserRecord.t :=
  {| UserRecord.userId := MyRecord.userId r;
     UserRecord.sessionId := MyRecord.sessionId r;
     UserRecord.checkInTime := MyRecord.checkInTime r;
     UserRecord.locationVerified := MyRecord.locationVerified r;
     UserRecord.userLocation := MyRecord.userLocation r;
     UserRecord.deviceId := MyRecord.deviceId r |}.

Definition sent {A : Type} (l : Listing A) : list A :=
  match l with
  | Sent records => records
  | Answered _ _ => []
  end.

(** [v] is what is sent for the stored record [a]. *)
Definition shows (v : MyRecord.t) (a : Attendance.t) : Prop :=
  MyRecord.userId v = Attendance.userId a
  /\ MyRecord.checkInTime v = Attendance.checkInTime a
  /\ MyRecord.locationVerified v = Attendance.locationVerified a
  /\ MyRecord.isLate v = Attendance.isLate a
  /\ MyRecord.lateByMinutes v = Attendance.lateByMinutes a
  /\ MyRecord.userLocation v = Attendance.userLocation a
  /\ MyRecord.deviceId v = Attendance.deviceId a
  /\ MyRecord.reverseGeocodeSnapshot v = Attendance.reverseGeocodeSnapshot a
  /\ MyRecord.confidenceScore v = Attendance.confidenceScore a
  /\ MyRecord.accuracyRadius v = Attendance.accuracyRadius a.

(* ------------------------------------------------------------------ *)
(** * Properties *)

(** ** Arithmetic of the clock *)

Lemma div_by_pos (a : Z) (p : positive) :
  (inject_Z a / inject_Z (Zpos p))%Q = (a * 1 # 1 * p)%Q.
Proof. reflexivity. Qed.

Lemma floorDiv_pos (a : Z) (p : positive) : floorDiv a (Zpos p) = a / Zpos p.
Proof.
  unfold floorDiv. rewrite div_by_pos. unfold Qfloor.
  rewrite Z.mul_1_r, Pos.mul_1_l. reflexivity.
Qed.

Lemma minutes_floor (ms : Z) :
  Qfloor (inject_Z ms / inject_Z (1000 * 60))%Q = ms / 60000.
Proof. exact (floorDiv_pos ms 60000). Qed.

Lemma minutes_positive (ms : Z) :
  Qltb 0 (inject_Z ms / inject_Z (1000 * 60))%Q = (0 <? ms).
Proof.
  change (1000 * 60) with (Zpos 60000). rewrite div_by_pos.
  unfold Qltb, Qle_bool. cbn [Qnum Qden].
  rewrite Z.mul_1_r, Z.mul_1_r, Z.mul_0_l.
  destruct (Z.leb_spec ms 0), (Z.ltb_spec 0 ms); try reflexivity; lia.
Qed.

Lemma minutes_within (ms limit : Z) :
  Qle_bool (inject_Z ms / inject_Z (1000 * 60))%Q (inject_Z limit)
  = (ms <=? limit * 60000).
Proof.
  change (1000 * 60) with (Zpos 60000). rewrite div_by_pos.
  unfold Qle_bool. cbn [Qnum Qden inject_Z].
  rewrite !Z.mul_1_r, Pos.mul_1_l. reflexivity.
Qed.

Lemma minutes_beyond (ms limit : Z) :
  Qltb (inject_Z limit) (inject_Z ms / inject_Z (1000 * 60))%Q
  = (limit * 60000 <? ms).
Proof.
  unfold Qltb. rewrite minutes_within.
  destruct (Z.leb_spec ms (limit * 60000)), (Z.ltb_spec (limit * 60000) ms);
    try reflexivity; lia.
Qed.

(** The lateness block in integer milliseconds. *)
Lemma lateness_ms (ms limit : Z) (strict : bool) :
  lateness ms limit strict =
  if (0 <? ms) && (ms <=? limit * 60000) then Accepted true (Some (ms / 60000))
  else if limit * 60000 <? ms then
    if strict then WindowClosed (ms / 60000) (Z.rem ms 60000 / 1000)
    else Accepted true (Some (ms / 60000))
  else Accepted false None.
Proof.
  unfold lateness.
  rewrite minutes_positive, minutes_within, minutes_beyond, minutes_floor.
  change (1000 * 60) with 60000.
  rewrite (floorDiv_pos (Z.rem ms 60000) 1000). reflexivity.
Qed.

Lemma dayOf_startOfDay (t : Z) : dayOf (startOfDay t) = dayOf t.
Proof.
  unfold startOfDay, dayOf, MS_PER_DAY. apply Z.div_mul. lia.
Qed.

Lemma startOfDay_idem (t : Z) : startOfDay (startOfDay t) = startOfDay t.
Proof. unfold startOfDay at 1. rewrite dayOf_startOfDay. reflexivity. Qed.

(** An instant lies in the day [d] exactly when it lies between the first
    and the last millisecond of that day. *)
Lemma dayOf_window (t d : Z) :
  d * MS_PER_DAY <= t <= d * MS_PER_DAY + (MS_PER_DAY - 1) <-> dayOf t = d.
Proof.
  unfold dayOf, MS_PER_DAY. split.
  - intros H. symmetry. apply (Z.div_unique t 86400000 d (t - d * 86400000)); lia.
  - intros <-.
    pose proof (Z.div_mod t 86400000 ltac:(lia)).
    pose proof (Z.mod_pos_bound t 86400000 ltac:(lia)). lia.
Qed.

Lemma startOfDay_le (a b : Z) : startOfDay a <= startOfDay b <-> dayOf a <= dayOf b.
Proof. unfold startOfDay, MS_PER_DAY. lia. Qed.

Lemma startOfDay_le_endOfDay (a b : Z) :
  startOfDay a <= endOfDay b <-> dayOf a <= dayOf b.
Proof. unfold endOfDay, startOfDay, MS_PER_DAY. lia. Qed.

Lemma startOfDay_eq (a b : Z) : startOfDay a = startOfDay b <-> dayOf a = dayOf b.
Proof. unfold startOfDay, MS_PER_DAY. lia. Qed.

(** ** Reading the outcome of the early stages *)

Lemma includes_In (l : list string) (x : string) : includes l x = true <-> In x l.
Proof.
  unfold includes. rewrite existsb_exists. split.
  - intros [y [Hy He]]. apply String.eqb_eq in He. now subst.
  - intros H. exists x. split; [exact H | apply String.eqb_refl].
Qed.

Lemma validateRequest_refuses env w req r :
  validateRequest env req = Some r -> markAttendance env w req = mkOutcome r [] w.
Proof. intros H. unfold markAttendance. rewrite H. reflexivity. Qed.

Lemma validateRequest_status env req r :
  validateRequest env req = Some r -> status r = 400 \/ status r = 403.
Proof.
  unfold validateRequest. intros H.
  repeat match type of H with
         | context [if ?c then _ else _] => destruct c
         end; inversion H; cbn; auto.
Qed.

Lemma markAttendance_loaded env w req user session :
  loaded env w req user session ->
  markAttendance env w req =
  if negb (isSessionDateToday env session) then
    mkOutcome
      (rejectMsg 400 "Session is not scheduled for today. Please check the session date and try again.")
      (loads req) w
  else
  let tr := loads req ++ [duplicateQuery env req session] in
  match existingAttendance env w req session with
  | Some _ =>
    mkOutcome (rejectMsg 400 "You have already marked attendance for this session.") tr w
  | None =>
  match tooEarly env session with
  | Some r => mkOutcome r tr w
  | None =>
  match lateness (timeDifferenceMs env session) (lateAttendanceLimit env)
                 (isStrictAttendance env) with
  | WindowClosed minutesLate secondsLate =>
    mkOutcome (mkResponse 400 (StrictLate minutesLate secondsLate)) tr w
  | Accepted late lateBy =>
  match findAssignment session (userId req) with
  | None => mkOutcome (rejectMsg 403 "You are not assigned to this session.") tr w
  | Some assignment =>
  let required := isLocationRequired session assignment in
  match locationGate env req session assignment with
  | (GateResponded r, calls) => mkOutcome r (tr ++ calls) w
  | (GateOpen verified result, calls) =>
  match assertAfterGate required verified result with
  | Some r => mkOutcome r (tr ++ calls) w
  | None =>
  match deviceGuard user req with
  | DeviceMismatch => mkOutcome deviceMismatchResponse (tr ++ calls) w
  | CloningDetected => mkOutcome cloningResponse (tr ++ calls) w
  | RegisterDevice user' =>
    commit env req session required verified result late lateBy
           (saveUser w user') (tr ++ calls ++ [SaveUser user'])
  | DeviceMatches =>
    commit env req session required verified result late lateBy w (tr ++ calls)
  end end end end end end end.
Proof.
  intros (Hv & Hu & Hs). unfold markAttendance. rewrite Hv, Hu, Hs. reflexivity.
Qed.

(** ** The schedule resolver *)

Lemma isWithinDateRange_spec env s :
  isWithinDateRange env s = true <-> inDateRange env s.
Proof.
  unfold isWithinDateRange, inDateRange, todayIST.
  rewrite andb_true_iff, Z.leb_le, startOfDay_le.
  destruct (Session.endDate s) as [e|]; cbn [option_map].
  - rewrite Z.leb_le, startOfDay_le_endOfDay. tauto.
  - tauto.
Qed.

Lemma isSessionDateToday_OneTime env s :
  Session.frequency s = OneTime ->
  (isSessionDateToday env s = true
   <-> dayOf (Session.startDate s) = dayOf (nowInIST env)).
Proof.
  intros Hf. unfold isSessionDateToday, todayIST. rewrite Hf.
  rewrite Z.eqb_eq. apply startOfDay_eq.
Qed.

Lemma isSessionDateToday_recurring env s :
  Session.frequency s <> OneTime ->
  isSessionDateToday env s =
  isWithinDateRange env s
  && (if frequency_is_Weekly (Session.frequency s)
         && (0 <? Z.of_nat (List.length (Session.weeklyDays s)))
      then includes (Session.weeklyDays s) (todayDayName env)
      else true).
Proof.
  intros Hf. unfold isSessionDateToday.
  destruct (Session.frequency s); try congruence;
    destruct (isWithinDateRange env s); reflexivity.
Qed.

Lemma weeklyDays_nonempty (l : list string) :
  l <> [] -> (0 <? Z.of_nat (List.length l)) = true.
Proof.
  destruct l; [congruence|]. intros _. apply Z.ltb_lt. cbn [List.length]. lia.
Qed.

(** C6, as the specification words the Weekly case, fails on the code: a
    Weekly session whose [weeklyDays] is empty occurs on every day of its
    date range, although no weekday name is a member of the empty list. *)
Lemma weekly_without_days_occurs_daily :
  let s := Scenario.session Weekly SessionType.PHYSICAL Mode.PHYSICAL (11, 0) []
                            Scenario.coordsLocation in
  Session.frequency s = Weekly
  /\ ~ (isSessionDateToday Scenario.env0 s = true
        <-> inDateRange Scenario.env0 s
            /\ In (todayDayName Scenario.env0) (Session.weeklyDays s)).
Proof.
  cbv zeta. split; [reflexivity|].
  intros [H _]. destruct (H eq_refl) as [_ []].
Qed.

(** C6 (amended).  The schedule resolver decides that a session occurs today
    as follows: a OneTime session iff the day of its [startDate] is today; a
    Daily or Monthly session iff today lies in the range from [startDate] to
    [endDate] (or without end), last day included; a Weekly session with a
    non-empty [weeklyDays] iff today is in that range and the name of
    today's weekday is in [weeklyDays]; a Weekly session with an empty
    [weeklyDays] iff today is in that range.  An attempt that found its user
    and session, for a session not occurring today, is answered 400 "not
    scheduled for today" after the three loads only: no verification call,
    no write, whatever the location and the device are. *)
Theorem schedule_resolver (env : Env) (s : Session.t) :
  (Session.frequency s = OneTime ->
   (isSessionDateToday env s = true
    <-> dayOf (Session.startDate s) = dayOf (nowInIST env)))
  /\ (Session.frequency s = Daily \/ Session.frequency s = Monthly ->
      (isSessionDateToday env s = true <-> inDateRange env s))
  /\ (Session.frequency s = Weekly -> Session.weeklyDays s <> [] ->
      (isSessionDateToday env s = true
       <-> inDateRange env s /\ In (todayDayName env) (Session.weeklyDays s)))
  /\ (Session.frequency s = Weekly -> Session.weeklyDays s = [] ->
      (isSessionDateToday env s = true <-> inDateRange env s))
  /\ (forall w req user,
        loaded env w req user s ->
        isSessionDateToday env s = false ->
        markAttendance env w req =
        mkOutcome
          (rejectMsg 400 "Session is not scheduled for today. Please check the session date and try again.")
          (loads req) w).
Proof.
  split; [| split; [| split; [| split]]].
  - apply isSessionDateToday_OneTime.
  - intros Hf. rewrite isSessionDateToday_recurring by (destruct Hf; congruence).
    rewrite andb_true_iff, isWithinDateRange_spec.
    destruct Hf as [Hf|Hf]; rewrite Hf; cbn [frequency_is_Weekly andb]; tauto.
  - intros Hf Hd. rewrite isSessionDateToday_recurring by congruence.
    apply weeklyDays_nonempty in Hd.
    rewrite andb_true_iff, isWithinDateRange_spec, Hf, Hd.
    cbn [frequency_is_Weekly andb]. rewrite includes_In. tauto.
  - intros Hf Hd. rewrite isSessionDateToday_recurring by congruence.
    rewrite andb_true_iff, isWithinDateRange_spec, Hf, Hd.
    cbn [frequency_is_Weekly andb List.length Z.of_nat Z.ltb Z.compare]. tauto.
  - intros w req user Hl Hn.
    rewrite (markAttendance_loaded _ _ _ _ _ Hl), Hn. reflexivity.
Qed.

(** On the Monday of the scenario: a Weekly session held on Monday and
    Wednesday occurs today; one held on Tuesday and Thursday does not, and
    the attempt is refused after the three loads. *)
Lemma schedule_resolver_witness :
  let monWed := Scenario.session Weekly SessionType.PHYSICAL Mode.PHYSICAL (11, 0)
                                 ["Monday"; "Wednesday"] Scenario.coordsLocation in
  let tueThu := Scenario.session Weekly SessionType.PHYSICAL Mode.PHYSICAL (11, 0)
                                 ["Tuesday"; "Thursday"] Scenario.coordsLocation in
  isSessionDateToday Scenario.env0 monWed = true
  /\ trace (markAttendance Scenario.envRefusing
                           (Scenario.world Scenario.registered tueThu [])
                           Scenario.request)
     = loads Scenario.request.
Proof.
  cbv zeta. split.
  - destruct (schedule_resolver Scenario.env0
                (Scenario.session Weekly SessionType.PHYSICAL Mode.PHYSICAL (11, 0)
                                  ["Monday"; "Wednesday"] Scenario.coordsLocation))
      as (_ & _ & H & _).
    apply (H eq_refl); [discriminate|].
    split; [split; [vm_compute; discriminate | exact I] | left; reflexivity].
  - destruct (schedule_resolver Scenario.envRefusing
                (Scenario.session Weekly SessionType.PHYSICAL Mode.PHYSICAL (11, 0)
                                  ["Tuesday"; "Thursday"] Scenario.coordsLocation))
      as (_ & _ & _ & _ & H).
    rewrite (H (Scenario.world Scenario.registered
                  (Scenario.session Weekly SessionType.PHYSICAL Mode.PHYSICAL (11, 0)
                                    ["Tuesday"; "Thursday"] Scenario.coordsLocation) [])
               Scenario.request Scenario.registered).
    + reflexivity.
    + repeat split.
    + reflexivity.
Defined.

(** ** The duplicate check *)

(** The UTC bounds of the query are exactly today's local day. *)
Lemma today_window env (t : Z) :
  todayStartUTC env <= t <= todayEndUTC env <-> sameLocalDay env t.
Proof.
  unfold todayStartUTC, todayEndUTC, endOfDay, todayIST, sameLocalDay.
  rewrite startOfDay_idem. unfold startOfDay.
  rewrite <- dayOf_window. lia.
Qed.

Lemma duplicateFilter_spec env req s a :
  duplicateFilter env req s a = true <-> duplicateKey env req s a.
Proof.
  unfold duplicateFilter, duplicateKey.
  destruct (Session.frequency s);
    rewrite ?andb_true_iff, ?String.eqb_eq, ?Z.leb_le, <- ?today_window;
    intuition congruence.
Qed.

Lemma find_exists {A : Type} (p : A -> bool) (l : list A) :
  (exists x, In x l /\ p x = true) -> exists y, find p l = Some y.
Proof.
  intros [x [Hin Hp]]. destruct (find p l) as [y|] eqn:E.
  - now exists y.
  - rewrite (find_none _ _ E x Hin) in Hp. discriminate.
Qed.

Ltac no_verify H :=
  unfold loads, duplicateQuery in H; cbn [trace negb] in H;
  rewrite ?in_app_iff in H; cbn [In] in H;
  repeat match type of H with
         | _ \/ _ => destruct H as [H|H]
         end;
  solve [discriminate H | contradiction H].

(** C3.  The duplicate check matches a record by (user, session) for a
    OneTime session, whatever its date, and by (user, session, local
    calendar day) for a recurring session, the day being looked up as the
    window of UTC instants of today's local day.  When a matching record
    exists, the attempt is refused without any call of the location
    verification and without any write; if it got as far as the duplicate
    check, the answer is "already marked", right after the query. *)
Theorem duplicate_check (env : Env) (w : World) (req : Request)
    (session : Session.t) :
  findSessionById w (sessionId req) = Some session ->
  (forall a, duplicateFilter env req session a = true
             <-> duplicateKey env req session a)
  /\ (forall t, todayStartUTC env <= t <= todayEndUTC env <-> sameLocalDay env t)
  /\ ((exists a, In a (attendance w) /\ duplicateKey env req session a) ->
      let out := markAttendance env w req in
      noVerifyCall (trace out)
      /\ final out = w
      /\ status (response out) <> 201
      /\ (forall user,
            loaded env w req user session ->
            isSessionDateToday env session = true ->
            out = mkOutcome
                    (rejectMsg 400 "You have already marked attendance for this session.")
                    (loads req ++ [duplicateQuery env req session]) w)).
Proof.
  intros Hs. split; [|split].
  - intros a. apply duplicateFilter_spec.
  - apply today_window.
  - intros [a [Hin Hk]]. cbv zeta.
    assert (He : exists y, existingAttendance env w req session = Some y).
    { apply find_exists. exists a. split; [exact Hin|].
      now apply duplicateFilter_spec. }
    destruct He as [y He].
    assert (Hm : forall user,
               loaded env w req user session ->
               isSessionDateToday env session = true ->
               markAttendance env w req =
               mkOutcome
                 (rejectMsg 400 "You have already marked attendance for this session.")
                 (loads req ++ [duplicateQuery env req session]) w).
    { intros user Hl Ht.
      rewrite (markAttendance_loaded _ _ _ _ _ Hl), Ht, He. reflexivity. }
    destruct (validateRequest env req) as [r|] eqn:Hv.
    { rewrite (validateRequest_refuses _ _ _ _ Hv).
      pose proof (validateRequest_status _ _ _ Hv) as Hst.
      repeat split; [intros args H; no_verify H | cbn; lia |].
      intros user (Hv' & _). congruence. }
    destruct (findUserById w (userId req)) as [user|] eqn:Hu.
    2:{ repeat split.
        - unfold markAttendance. rewrite Hv, Hu. intros args H. no_verify H.
        - unfold markAttendance. rewrite Hv, Hu. reflexivity.
        - unfold markAttendance. rewrite Hv, Hu. cbn. lia.
        - intros user (_ & Hu' & _). congruence. }
    assert (Hl : loaded env w req user session) by (repeat split; assumption).
    destruct (isSessionDateToday env session) eqn:Ht.
    + rewrite (Hm user Hl eq_refl).
      repeat split; [intros args H; no_verify H | cbn; lia].
    + rewrite (markAttendance_loaded _ _ _ _ _ Hl), Ht.
      repeat split; [intros args H; no_verify H | cbn; lia |].
      intros user' _ Hc. discriminate Hc.
Qed.

Lemma duplicate_check_witness :
  let w := Scenario.world Scenario.registered Scenario.physical [Scenario.earlier 0] in
  response (markAttendance Scenario.envRefusing w Scenario.request)
  = rejectMsg 400 "You have already marked attendance for this session."
  /\ noVerifyCall (trace (markAttendance Scenario.envRefusing w Scenario.request)).
Proof.
  cbv zeta.
  destruct (duplicate_check Scenario.envRefusing
              (Scenario.world Scenario.registered Scenario.physical [Scenario.earlier 0])
              Scenario.request Scenario.physical eq_refl)
    as (_ & _ & H).
  destruct H as (Hn & _ & _ & Hm).
  - exists (Scenario.earlier 0). split; [left; reflexivity|].
    repeat split. intros Hf. exfalso. apply Hf. reflexivity.
  - split; [|exact Hn].
    rewrite (Hm Scenario.registered); [reflexivity | repeat split | reflexivity].
Defined.

(** ** The scan window *)

Lemma markAttendance_scheduled env w req user session :
  scheduled env w req user session ->
  markAttendance env w req =
  let tr := loads req ++ [duplicateQuery env req session] in
  match tooEarly env session with
  | Some r => mkOutcome r tr w
  | None =>
  match lateness (timeDifferenceMs env session) (lateAttendanceLimit env)
                 (isStrictAttendance env) with
  | WindowClosed minutesLate secondsLate =>
    mkOutcome (mkResponse 400 (StrictLate minutesLate secondsLate)) tr w
  | Accepted late lateBy =>
  match findAssignment session (userId req) with
  | None => mkOutcome (rejectMsg 403 "You are not assigned to this session.") tr w
  | Some assignment =>
  let required := isLocationRequired session assignment in
  match locationGate env req session assignment with
  | (GateResponded r, calls) => mkOutcome r (tr ++ calls) w
  | (GateOpen verified result, calls) =>
  match assertAfterGate required verified result with
  | Some r => mkOutcome r (tr ++ calls) w
  | None =>
  match deviceGuard user req with
  | DeviceMismatch => mkOutcome deviceMismatchResponse (tr ++ calls) w
  | CloningDetected => mkOutcome cloningResponse (tr ++ calls) w
  | RegisterDevice user' =>
    commit env req session required verified result late lateBy
           (saveUser w user') (tr ++ calls ++ [SaveUser user'])
  | DeviceMatches =>
    commit env req session required verified result late lateBy w (tr ++ calls)
  end end end end end end.
Proof.
  intros (Hl & Ht & He).
  rewrite (markAttendance_loaded _ _ _ _ _ Hl), Ht, He. reflexivity.
Qed.

Lemma commit_not_tooEarly env req s required verified result late lateBy w tr :
  isTooEarly (body (response
    (commit env req s required verified result late lateBy w tr))) = false.
Proof.
  unfold commit.
  destruct (assertBeforeCreate required verified result) as [r|] eqn:Ea.
  - unfold assertBeforeCreate in Ea.
    repeat match type of Ea with
           | context [match ?x with _ => _ end] => destruct x
           end; inversion Ea; reflexivity.
  - destruct (attendanceData env req required verified result late lateBy)
      as [a|r] eqn:Ed.
    + destruct (updateRoster s (userId req) (markPresent late)); reflexivity.
    + unfold attendanceData in Ed.
      repeat match type of Ed with
             | context [match ?x with _ => _ end] => destruct x
             end; inversion Ed; reflexivity.
Qed.

Lemma locationGate_not_tooEarly env req s assignment r calls :
  locationGate env req s assignment = (GateResponded r, calls) ->
  isTooEarly (body r) = false.
Proof.
  unfold locationGate. intros H.
  repeat match type of H with
         | context [match ?x with _ => _ end] => destruct x
         end; inversion H; reflexivity.
Qed.

(** Past the window stage no response is a TOO_EARLY one. *)
Lemma window_open_not_tooEarly env w req user session :
  scheduled env w req user session ->
  tooEarly env session = None ->
  isTooEarly (body (response (markAttendance env w req))) = false.
Proof.
  intros Hs Hw. rewrite (markAttendance_scheduled _ _ _ _ _ Hs), Hw. cbv zeta.
  destruct (lateness _ _ _); [|reflexivity].
  destruct (findAssignment _ _) as [assignment|]; [|reflexivity].
  destruct (locationGate env req session assignment) as [[r|verified result] calls] eqn:Eg.
  - exact (locationGate_not_tooEarly _ _ _ _ _ _ Eg).
  - destruct (assertAfterGate _ _ _) as [r|] eqn:Ea.
    + unfold assertAfterGate in Ea.
      repeat match type of Ea with
             | context [match ?x with _ => _ end] => destruct x
             end; inversion Ea; reflexivity.
    + destruct (deviceGuard user req); try reflexivity; apply commit_not_tooEarly.
Qed.

(** C5.  The scan window opens two hours before the session starts.  An
    attempt before that instant is answered TOO_EARLY with the whole hours
    and the remaining whole minutes until the window opens and the clock
    readings of the session start and of the window start; no verification
    call is made and nothing is written.  At the instant the window opens,
    and from then on, the attempt is not answered TOO_EARLY. *)
Theorem scan_window (env : Env) (w : World) (req : Request)
    (user : User.t) (session : Session.t) :
  scheduled env w req user session ->
  scanWindowStart env session = sessionStartDateTime env session - 2 * MS_PER_HOUR
  /\ (nowInIST env < scanWindowStart env session ->
      let remaining := scanWindowStart env session - nowInIST env in
      markAttendance env w req =
      mkOutcome
        (mkResponse 400
           (TooEarly (toLocaleTimeString (sessionStartDateTime env session))
                     (toLocaleTimeString (scanWindowStart env session))
                     (remaining / MS_PER_HOUR)
                     (remaining mod MS_PER_HOUR / MS_PER_MINUTE)))
        (loads req ++ [duplicateQuery env req session]) w)
  /\ (scanWindowStart env session <= nowInIST env ->
      forall start open h m,
        body (response (markAttendance env w req)) <> TooEarly start open h m).
Proof.
  intros Hs. split; [reflexivity|split].
  - intros Hlt. cbv zeta.
    rewrite (markAttendance_scheduled _ _ _ _ _ Hs). cbv zeta.
    unfold tooEarly. apply Z.ltb_lt in Hlt as Hb. rewrite Hb.
    change (1000 * 60 * 60) with (Zpos 3600000).
    change (1000 * 60) with (Zpos 60000).
    rewrite !floorDiv_pos.
    rewrite Z.rem_mod_nonneg by lia. reflexivity.
  - intros Hle start open h m Hb.
    assert (Hw : tooEarly env session = None).
    { unfold tooEarly.
      destruct (Z.ltb_spec (nowInIST env) (scanWindowStart env session));
        [lia | reflexivity]. }
    pose proof (window_open_not_tooEarly _ _ _ _ _ Hs Hw) as Hn.
    rewrite Hb in Hn. discriminate.
Qed.

Lemma scan_window_witness :
  let late := Scenario.session OneTime SessionType.PHYSICAL Mode.PHYSICAL (13, 0) []
                               Scenario.coordsLocation in
  let onTheDot := Scenario.session OneTime SessionType.PHYSICAL Mode.PHYSICAL (12, 0) []
                                   Scenario.coordsLocation in
  body (response (markAttendance Scenario.env0
                    (Scenario.world Scenario.registered late []) Scenario.request))
  = TooEarly (mkClockTime 1 0 true) (mkClockTime 11 0 false) 1 0
  /\ nowInIST Scenario.env0 = scanWindowStart Scenario.env0 onTheDot
  /\ isTooEarly (body (response (markAttendance Scenario.env0
                    (Scenario.world Scenario.registered onTheDot []) Scenario.request)))
     = false.
Proof.
  cbv zeta. split; [|split].
  - destruct (scan_window Scenario.env0
                (Scenario.world Scenario.registered
                   (Scenario.session OneTime SessionType.PHYSICAL Mode.PHYSICAL (13, 0) []
                                     Scenario.coordsLocation) [])
                Scenario.request Scenario.registered
                (Scenario.session OneTime SessionType.PHYSICAL Mode.PHYSICAL (13, 0) []
                                  Scenario.coordsLocation))
      as (_ & H & _).
    + repeat split.
    + rewrite H; [reflexivity | vm_compute; reflexivity].
  - reflexivity.
  - destruct (scan_window Scenario.env0
                (Scenario.world Scenario.registered
                   (Scenario.session OneTime SessionType.PHYSICAL Mode.PHYSICAL (12, 0) []
                                     Scenario.coordsLocation) [])
                Scenario.request Scenario.registered
                (Scenario.session OneTime SessionType.PHYSICAL Mode.PHYSICAL (12, 0) []
                                  Scenario.coordsLocation))
      as (_ & _ & H).
    + repeat split.
    + assert (Hopen : scanWindowStart Scenario.env0
                        (Scenario.session OneTime SessionType.PHYSICAL Mode.PHYSICAL
                                          (12, 0) [] Scenario.coordsLocation)
                      <= nowInIST Scenario.env0)
        by (vm_compute; discriminate).
      specialize (H Hopen).
      destruct (body (response (markAttendance _ _ _))) eqn:E; try reflexivity.
      exfalso. exact (H _ _ _ _ eq_refl).
Defined.

(** ** The location gate *)

Lemma isLocationRequired_spec (s : Session.t) (assignment : Assignment.t) :
  isLocationRequired s assignment = true
  <-> Session.sessionType s = SessionType.PHYSICAL
      \/ (Session.sessionType s = SessionType.HYBRID
          /\ Assignment.mode assignment = Mode.PHYSICAL).
Proof.
  unfold isLocationRequired.
  destruct (Session.sessionType s), (Assignment.mode assignment);
    split; intros H; try reflexivity; try discriminate; auto;
    destruct H as [H|[H1 H2]]; discriminate.
Qed.

(** The gate lets an attempt through in two ways only: verification was
    required and [verifyLocation], called on the coordinates and accuracy of
    this request, resolved to a valid and complete result; or verification
    was not required and no call was made. *)
Lemma locationGate_open env req s assignment verified result calls :
  locationGate env req s assignment = (GateOpen verified result, calls) ->
  verified = true
  /\ ((isLocationRequired s assignment = true
       /\ calls = [VerifyLocationCall (verifyArgs req s)]
       /\ exists r, result = Some r
            /\ verifyLocation env (verifyArgs req s) = Resolved (Some r)
            /\ LocationVerificationResult.isValid r = true
            /\ verificationDataPresent r = true)
      \/ (isLocationRequired s assignment = false
          /\ calls = [] /\ result = None)).
Proof.
  unfold locationGate. intros H.
  destruct (isLocationRequired s assignment).
  - destruct (locationDataMissing req); [discriminate|].
    destruct (verifyLocation env (verifyArgs req s)) as [[r|]|m]; try discriminate.
    destruct (LocationVerificationResult.isValid r) eqn:Ev; [|discriminate].
    destruct (verificationDataPresent r) eqn:Ed; [|discriminate].
    cbn in H. inversion H; subst. split; [reflexivity|]. left.
    repeat split. exists r. repeat split; assumption.
  - inversion H; subst. split; [reflexivity|]. right. repeat split.
Qed.

(** When the gate answers by itself, the answer is a refusal. *)
Lemma locationGate_responded env req s assignment r calls :
  locationGate env req s assignment = (GateResponded r, calls) ->
  isLocationRequired s assignment = true
  /\ (status r = 403 \/ status r = 500)
  /\ (calls = [] \/ calls = [VerifyLocationCall (verifyArgs req s)]).
Proof.
  unfold locationGate. intros H.
  destruct (isLocationRequired s assignment); [|discriminate].
  split; [reflexivity|].
  repeat match type of H with
         | context [match ?x with _ => _ end] => destruct x
         end; inversion H; subst; cbn; auto.
Qed.

(** ** Commit *)

Lemma commit_after_gate env req session assignment result calls late lateBy w tr :
  findAssignment session (userId req) = Some assignment ->
  locationGate env req session assignment = (GateOpen true result, calls) ->
  commit env req session (isLocationRequired session assignment) true result
         late lateBy w tr
  = created env req session assignment result late lateBy w tr.
Proof.
  intros Ha Hg. apply locationGate_open in Hg as [_ Hg].
  unfold commit, created, assertBeforeCreate, attendanceData, updateRoster, rosterAfter.
  rewrite Ha.
  destruct Hg as [(Hr & _ & r & -> & _ & Hv & Hd) | (Hr & _ & ->)];
    rewrite Hr; cbn [negb]; rewrite ?Hv, ?Hd; reflexivity.
Qed.

Lemma assertAfterGate_open env req session assignment result calls :
  locationGate env req session assignment = (GateOpen true result, calls) ->
  assertAfterGate (isLocationRequired session assignment) true result = None.
Proof.
  intros Hg. apply locationGate_open in Hg as [_ Hg]. unfold assertAfterGate.
  destruct Hg as [(Hr & _ & r & -> & _) | (Hr & _ & ->)]; rewrite Hr; reflexivity.
Qed.

(** What [markAttendance] does with a cleared attempt: only device binding
    stands between it and the record. *)
Lemma markAttendance_cleared env w req user session late lateBy assignment result calls :
  cleared env w req user session late lateBy assignment result calls ->
  markAttendance env w req =
  let tr := (loads req ++ [duplicateQuery env req session]) ++ calls in
  match deviceGuard user req with
  | DeviceMismatch => mkOutcome deviceMismatchResponse tr w
  | CloningDetected => mkOutcome cloningResponse tr w
  | RegisterDevice user' =>
    created env req session assignment result late lateBy
            (saveUser w user') (tr ++ [SaveUser user'])
  | DeviceMatches =>
    created env req session assignment result late lateBy w tr
  end.
Proof.
  intros (Hs & Hw & Hl & Ha & Hg).
  rewrite (markAttendance_scheduled _ _ _ _ _ Hs), Hw, Hl, Ha. cbv zeta.
  rewrite Hg, (assertAfterGate_open _ _ _ _ _ _ Hg).
  destruct (deviceGuard user req); try reflexivity.
  - rewrite (commit_after_gate _ _ _ _ _ _ _ _ _ _ Ha Hg).
    rewrite app_assoc. reflexivity.
  - apply (commit_after_gate _ _ _ _ _ _ _ _ _ _ Ha Hg).
Qed.

Ltac in_cases H :=
  unfold created, loads, duplicateQuery in H; cbn [trace negb] in H;
  rewrite ?in_app_iff in H; cbn [In] in H;
  repeat match type of H with
         | _ \/ _ => destruct H as [H|H]
         end.

Ltac not_saved H :=
  in_cases H; solve [discriminate H | contradiction H].

(** ** Every way [markAttendance] can end *)

Lemma tooEarly_status env s r : tooEarly env s = Some r -> status r = 400.
Proof.
  unfold tooEarly. destruct (nowInIST env <? scanWindowStart env s); intros H;
    inversion H; reflexivity.
Qed.

Ltac refuse :=
  let a := fresh in
  let H := fresh in
  split; [reflexivity | split; [intros a H; not_saved H | cbn; lia]].

(** [markAttendance] either refuses, or the attempt was cleared and its
    device is the registered one or gets registered. *)
Lemma markAttendance_outcome env w req :
  refused w (markAttendance env w req)
  \/ exists user session late lateBy assignment result calls,
       cleared env w req user session late lateBy assignment result calls
       /\ (deviceGuard user req = DeviceMatches
           \/ exists user', deviceGuard user req = RegisterDevice user').
Proof.
  destruct (validateRequest env req) as [r|] eqn:Hv.
  { left. unfold markAttendance. rewrite Hv.
    apply validateRequest_status in Hv.
    split; [reflexivity | split; [intros a H; not_saved H | cbn; lia]]. }
  destruct (findUserById w (userId req)) as [user|] eqn:Hu;
    [|left; unfold markAttendance; rewrite Hv, Hu; refuse].
  destruct (findSessionById w (sessionId req)) as [session|] eqn:Hs;
    [|left; unfold markAttendance; rewrite Hv, Hu, Hs; refuse].
  assert (Hl : loaded env w req user session) by (repeat split; assumption).
  destruct (isSessionDateToday env session) eqn:Ht;
    [|left; rewrite (markAttendance_loaded _ _ _ _ _ Hl), Ht; refuse].
  destruct (existingAttendance env w req session) eqn:He;
    [left; rewrite (markAttendance_loaded _ _ _ _ _ Hl), Ht, He; refuse|].
  assert (Hsch : scheduled env w req user session) by (repeat split; assumption).
  rewrite (markAttendance_scheduled _ _ _ _ _ Hsch). cbv zeta.
  destruct (tooEarly env session) as [r|] eqn:Hw.
  { left. apply tooEarly_status in Hw.
    split; [reflexivity | split; [intros a H; not_saved H | cbn; lia]]. }
  destruct (lateness _ _ _) as [late lateBy|] eqn:Hlate; [|left; refuse].
  destruct (findAssignment session (userId req)) as [assignment|] eqn:Ha;
    [|left; refuse].
  destruct (locationGate env req session assignment)
    as [[r|verified result] calls] eqn:Hg.
  { left. apply locationGate_responded in Hg as (_ & Hst & Hcalls).
    split; [reflexivity | split].
    - intros a H. destruct Hcalls as [-> | ->]; not_saved H.
    - cbn. lia. }
  pose proof (locationGate_open _ _ _ _ _ _ _ Hg) as [-> Hopen].
  rewrite (assertAfterGate_open _ _ _ _ _ _ Hg).
  assert (Hc : cleared env w req user session late lateBy assignment result calls)
    by (repeat split; assumption).
  assert (Hcalls : forall x, ~ In (SaveAttendance x) calls).
  { intros x Hx.
    destruct Hopen as [(_ & -> & _) | (_ & -> & _)]; not_saved Hx. }
  destruct (deviceGuard user req) as [user'| | |] eqn:Hd.
  - right. exists user, session, late, lateBy, assignment, result, calls.
    split; [exact Hc | right; now exists user'].
  - left. split; [reflexivity | split; [|cbn; lia]].
    intros a H. in_cases H; try discriminate H; try contradiction H.
    exact (Hcalls _ H).
  - left. split; [reflexivity | split; [|cbn; lia]].
    intros a H. in_cases H; try discriminate H; try contradiction H.
    exact (Hcalls _ H).
  - right. exists user, session, late, lateBy, assignment, result, calls.
    split; [exact Hc | now left].
Qed.

Lemma loaded_functional env w req user session user' session' :
  loaded env w req user session -> loaded env w req user' session' ->
  user' = user /\ session' = session.
Proof.
  intros (_ & Hu & Hs) (_ & Hu' & Hs'). split; congruence.
Qed.

(** The trace of a cleared attempt that is not stopped by device binding. *)
Lemma created_trace env req session assignment result late lateBy w tr a :
  In (SaveAttendance a)
     (trace (created env req session assignment result late lateBy w tr)) ->
  In (SaveAttendance a) tr \/ a = recordOf env req result late lateBy.
Proof.
  unfold created. cbn [trace]. rewrite !in_app_iff. cbn [In].
  intros [[H|[H|[]]]|[H|[]]]; auto; try discriminate H.
  right. now inversion H.
Qed.

(** Conversely, an attendance record is written only by a cleared attempt
    whose device is the registered one or gets registered. *)
Lemma markAttendance_saved env w req a :
  In (SaveAttendance a) (trace (markAttendance env w req)) ->
  exists user session late lateBy assignment result calls,
    cleared env w req user session late lateBy assignment result calls
    /\ a = recordOf env req result late lateBy
    /\ (deviceGuard user req = DeviceMatches
        \/ exists user', deviceGuard user req = RegisterDevice user').
Proof.
  intros H.
  destruct (markAttendance_outcome env w req)
    as [(_ & Hn & _) | (user & session & late & lateBy & assignment & result
                        & calls & Hc & Hd)].
  { exfalso. exact (Hn _ H). }
  exists user, session, late, lateBy, assignment, result, calls.
  split; [exact Hc | split; [|exact Hd]].
  assert (Hcalls : forall x, ~ In (SaveAttendance x) calls).
  { destruct Hc as (_ & _ & _ & _ & Hg).
    apply locationGate_open in Hg as [_ Hopen]. intros x Hx.
    destruct Hopen as [(_ & -> & _) | (_ & -> & _)]; not_saved Hx. }
  rewrite (markAttendance_cleared _ _ _ _ _ _ _ _ _ _ Hc) in H. cbv zeta in H.
  destruct Hd as [Hd | [user' Hd]]; rewrite Hd in H;
    apply created_trace in H as [H|H]; try exact H; exfalso;
    in_cases H; try discriminate H; try contradiction H;
    exact (Hcalls _ H).
Qed.

(** ** Lateness *)

Lemma late_attempt_not_early env s :
  0 <= nowInIST env - sessionStartDateTime env s -> tooEarly env s = None.
Proof.
  intros H. unfold tooEarly, scanWindowStart, EARLY_WINDOW_HOURS.
  destruct (Z.ltb_spec (nowInIST env) (sessionStartDateTime env s - 2 * 60 * 60 * 1000));
    [lia | reflexivity].
Qed.

Lemma saved_lateness env w req user session a :
  scheduled env w req user session ->
  In (SaveAttendance a) (trace (markAttendance env w req)) ->
  lateness (timeDifferenceMs env session) (lateAttendanceLimit env)
           (isStrictAttendance env)
  = Accepted (Attendance.isLate a) (Attendance.lateByMinutes a).
Proof.
  intros (Hl & _) H.
  apply markAttendance_saved in H
    as (user' & session' & late & lateBy & assignment & result & calls
        & ((Hl' & _) & _ & Hlate & _) & -> & _).
  destruct (loaded_functional _ _ _ _ _ _ _ Hl Hl') as [_ ->]. exact Hlate.
Qed.

Lemma commit_not_strictLate env req s required verified result late lateBy w tr :
  isStrictLate (body (response
    (commit env req s required verified result late lateBy w tr))) = false.
Proof.
  unfold commit.
  destruct (assertBeforeCreate required verified result) as [r|] eqn:Ea.
  - unfold assertBeforeCreate in Ea.
    repeat match type of Ea with
           | context [match ?x with _ => _ end] => destruct x
           end; inversion Ea; reflexivity.
  - destruct (attendanceData env req required verified result late lateBy)
      as [a|r] eqn:Ed.
    + cbv zeta. destruct (updateRoster s (userId req) (markPresent late)); reflexivity.
    + unfold attendanceData in Ed.
      repeat match type of Ed with
             | context [match ?x with _ => _ end] => destruct x
             end; inversion Ed; reflexivity.
Qed.

Lemma locationGate_not_strictLate env req s assignment r calls :
  locationGate env req s assignment = (GateResponded r, calls) ->
  isStrictLate (body r) = false.
Proof.
  unfold locationGate. intros H.
  repeat match type of H with
         | context [match ?x with _ => _ end] => destruct x
         end; inversion H; reflexivity.
Qed.

(** An attempt that the lateness block accepts is not answered with the
    strict-mode refusal. *)
Lemma accepted_not_strictLate env w req user session l lb :
  scheduled env w req user session ->
  lateness (timeDifferenceMs env session) (lateAttendanceLimit env)
           (isStrictAttendance env) = Accepted l lb ->
  isStrictLate (body (response (markAttendance env w req))) = false.
Proof.
  intros Hs Hl. rewrite (markAttendance_scheduled _ _ _ _ _ Hs). cbv zeta.
  destruct (tooEarly env session) as [r|] eqn:Hw.
  { unfold tooEarly in Hw. destruct (_ <? _); inversion Hw; reflexivity. }
  rewrite Hl.
  destruct (findAssignment _ _) as [assignment|]; [|reflexivity].
  destruct (locationGate env req session assignment) as [[r|verified result] calls] eqn:Eg.
  - exact (locationGate_not_strictLate _ _ _ _ _ _ Eg).
  - destruct (assertAfterGate _ _ _) as [r|] eqn:Ea.
    + unfold assertAfterGate in Ea.
      repeat match type of Ea with
             | context [match ?x with _ => _ end] => destruct x
             end; inversion Ea; reflexivity.
    + destruct (deviceGuard user req); try reflexivity; apply commit_not_strictLate.
Qed.

(** An attempt that the lateness block accepts, inside the window, and that
    the later stages let through is answered 201 with the record that
    carries the marking of the lateness block, and the record is stored. *)
Lemma accepted_created env w req user session l lb result :
  scheduled env w req user session ->
  tooEarly env session = None ->
  lateness (timeDifferenceMs env session) (lateAttendanceLimit env)
           (isStrictAttendance env) = Accepted l lb ->
  laterStagesPass env req user session result ->
  response (markAttendance env w req)
  = mkResponse 201 (Created (recordOf env req result l lb))
  /\ In (recordOf env req result l lb) (attendance (final (markAttendance env w req))).
Proof.
  intros Hs Hw Hl (assignment & calls & Ha & Hg & Hd).
  assert (Hc : cleared env w req user session l lb assignment result calls)
    by (split; [exact Hs | split; [exact Hw | split; [exact Hl | split; assumption]]]).
  rewrite (markAttendance_cleared _ _ _ _ _ _ _ _ _ _ Hc). cbv zeta.
  destruct Hd as [-> | [user' ->]]; unfold created; cbn [response final];
    (split; [reflexivity|]);
    unfold saveSession, insertAttendance; cbn [attendance];
    apply in_or_app; right; left; reflexivity.
Qed.

(** C4.  With [late] the time elapsed since the session start: when
    [0 < late <= limit] the attempt passes marked late, with the whole
    minutes of [late]; when [late > limit] under strict mode it is refused
    with the whole minutes and the residual seconds of [late]; when
    [late > limit] without strict mode it passes marked late, with the whole
    minutes of [late]; and when [late <= 0], in particular at the session
    start itself, it passes on time.  The second and the last case are for a
    late limit that is a non-negative number of minutes.  To pass is meant
    of the handler: the answer of [markAttendance] is not the strict-mode
    refusal, and whenever the stages that follow let the attempt through
    (the user is on the roster, the location gate opens, the device is the
    registered one or gets registered, the schema accepts the record) and
    the scan window is open, the answer is the 201 of the record that
    carries exactly that marking, and the record is in the collection.  A
    record that is stored in any run carries exactly that marking. *)
Theorem lateness_classification (env : Env) (w : World) (req : Request)
    (user : User.t) (session : Session.t) :
  scheduled env w req user session ->
  let late := nowInIST env - sessionStartDateTime env session in
  let limit := lateAttendanceLimit env * MS_PER_MINUTE in
  let out := markAttendance env w req in
  (0 < late <= limit ->
   lateness late (lateAttendanceLimit env) (isStrictAttendance env)
   = Accepted true (Some (late / MS_PER_MINUTE))
   /\ (forall a, In (SaveAttendance a) (trace out) ->
         Attendance.isLate a = true
         /\ Attendance.lateByMinutes a = Some (late / MS_PER_MINUTE))
   /\ (forall m s, body (response out) <> StrictLate m s)
   /\ (forall result,
         laterStagesPass env req user session result ->
         storable (recordOf env req result true (Some (late / MS_PER_MINUTE))) = true ->
         response out
         = mkResponse 201
             (Created (recordOf env req result true (Some (late / MS_PER_MINUTE))))
         /\ In (recordOf env req result true (Some (late / MS_PER_MINUTE)))
               (attendance (final out))))
  /\ (0 <= lateAttendanceLimit env ->
      limit < late -> isStrictAttendance env = true ->
      out = mkOutcome
              (mkResponse 400
                 (StrictLate (late / MS_PER_MINUTE)
                             (late mod MS_PER_MINUTE / 1000)))
              (loads req ++ [duplicateQuery env req session]) w)
  /\ (limit < late -> isStrictAttendance env = false ->
      lateness late (lateAttendanceLimit env) (isStrictAttendance env)
      = Accepted true (Some (late / MS_PER_MINUTE))
      /\ (forall a, In (SaveAttendance a) (trace out) ->
            Attendance.isLate a = true
            /\ Attendance.lateByMinutes a = Some (late / MS_PER_MINUTE))
      /\ (forall m s, body (response out) <> StrictLate m s)
      /\ (forall result,
            scanWindowStart env session <= nowInIST env ->
            laterStagesPass env req user session result ->
            storable (recordOf env req result true (Some (late / MS_PER_MINUTE))) = true ->
            response out
            = mkResponse 201
                (Created (recordOf env req result true (Some (late / MS_PER_MINUTE))))
            /\ In (recordOf env req result true (Some (late / MS_PER_MINUTE)))
                  (attendance (final out))))
  /\ (0 <= lateAttendanceLimit env ->
      late <= 0 ->
      lateness late (lateAttendanceLimit env) (isStrictAttendance env)
      = Accepted false None
      /\ (forall a, In (SaveAttendance a) (trace out) ->
            Attendance.isLate a = false /\ Attendance.lateByMinutes a = None)
      /\ (forall m s, body (response out) <> StrictLate m s)
      /\ (forall result,
            scanWindowStart env session <= nowInIST env ->
            laterStagesPass env req user session result ->
            storable (recordOf env req result false None) = true ->
            response out = mkResponse 201 (Created (recordOf env req result false None))
            /\ In (recordOf env req result false None) (attendance (final out)))).
Proof.
  intros Hs. cbv zeta. unfold MS_PER_MINUTE.
  assert (Hrec : forall l lb,
             lateness (nowInIST env - sessionStartDateTime env session)
                      (lateAttendanceLimit env) (isStrictAttendance env)
             = Accepted l lb ->
             forall a, In (SaveAttendance a) (trace (markAttendance env w req)) ->
                       Attendance.isLate a = l /\ Attendance.lateByMinutes a = lb).
  { intros l lb Hl a Ha. pose proof (saved_lateness _ _ _ _ _ _ Hs Ha) as E.
    unfold timeDifferenceMs in E. rewrite Hl in E. inversion E. split; reflexivity. }
  assert (Hnot : forall l lb,
             lateness (nowInIST env - sessionStartDateTime env session)
                      (lateAttendanceLimit env) (isStrictAttendance env)
             = Accepted l lb ->
             forall m s, body (response (markAttendance env w req)) <> StrictLate m s).
  { intros l lb Hl m s Hb.
    pose proof (accepted_not_strictLate _ _ _ _ _ _ _ Hs Hl) as Hn.
    rewrite Hb in Hn. discriminate Hn. }
  assert (Hopen : scanWindowStart env session <= nowInIST env ->
                  tooEarly env session = None).
  { intros Hle. unfold tooEarly.
    destruct (Z.ltb_spec (nowInIST env) (scanWindowStart env session));
      [lia | reflexivity]. }
  assert (Hpass : forall l lb result,
             lateness (nowInIST env - sessionStartDateTime env session)
                      (lateAttendanceLimit env) (isStrictAttendance env)
             = Accepted l lb ->
             tooEarly env session = None ->
             laterStagesPass env req user session result ->
             response (markAttendance env w req)
             = mkResponse 201 (Created (recordOf env req result l lb))
             /\ In (recordOf env req result l lb)
                   (attendance (final (markAttendance env w req)))).
  { intros l lb result Hl Hw Hlater.
    exact (accepted_created _ _ _ _ _ _ _ _ Hs Hw Hl Hlater). }
  split; [|split; [|split]].
  - intros [H1 H2].
    assert (E : lateness (nowInIST env - sessionStartDateTime env session)
                         (lateAttendanceLimit env) (isStrictAttendance env)
                = Accepted true
                    (Some ((nowInIST env - sessionStartDateTime env session) / 60000))).
    { rewrite lateness_ms.
      apply Z.ltb_lt in H1. apply Z.leb_le in H2. rewrite H1, H2. reflexivity. }
    split; [exact E|]. split; [exact (Hrec _ _ E)|]. split; [exact (Hnot _ _ E)|].
    intros result Hlater _.
    apply (Hpass _ _ _ E); [|exact Hlater].
    apply late_attempt_not_early. lia.
  - intros Hlimit H Hstrict.
    rewrite (markAttendance_scheduled _ _ _ _ _ Hs). cbv zeta.
    rewrite late_attempt_not_early by lia.
    unfold timeDifferenceMs. rewrite lateness_ms, Hstrict.
    destruct (Z.leb_spec (nowInIST env - sessionStartDateTime env session)
                         (lateAttendanceLimit env * 60000)); [lia|].
    rewrite andb_false_r. apply Z.ltb_lt in H. rewrite H.
    rewrite Z.rem_mod_nonneg by lia. reflexivity.
  - intros H Hstrict.
    assert (E : lateness (nowInIST env - sessionStartDateTime env session)
                         (lateAttendanceLimit env) (isStrictAttendance env)
                = Accepted true
                    (Some ((nowInIST env - sessionStartDateTime env session) / 60000))).
    { rewrite lateness_ms, Hstrict.
      destruct (Z.leb_spec (nowInIST env - sessionStartDateTime env session)
                           (lateAttendanceLimit env * 60000)); [lia|].
      rewrite andb_false_r. apply Z.ltb_lt in H. rewrite H. reflexivity. }
    split; [exact E|]. split; [exact (Hrec _ _ E)|]. split; [exact (Hnot _ _ E)|].
    intros result Hle Hlater _.
    exact (Hpass _ _ _ E (Hopen Hle) Hlater).
  - intros Hlimit H.
    assert (E : lateness (nowInIST env - sessionStartDateTime env session)
                         (lateAttendanceLimit env) (isStrictAttendance env)
                = Accepted false None).
    { rewrite lateness_ms.
      destruct (Z.ltb_spec 0 (nowInIST env - sessionStartDateTime env session)); [lia|].
      destruct (Z.ltb_spec (lateAttendanceLimit env * 60000)
                           (nowInIST env - sessionStartDateTime env session)); [lia|].
      reflexivity. }
    split; [exact E|]. split; [exact (Hrec _ _ E)|]. split; [exact (Hnot _ _ E)|].
    intros result Hle Hlater _.
    exact (Hpass _ _ _ E (Hopen Hle) Hlater).
Qed.

(** At 10:00 IST, with a limit of 30 minutes.  A session that started at
    09:45 is checked in to, 15 minutes late; one that started at 09:00 is
    refused under strict mode with 60 minutes and 0 seconds, and checked in
    to, 60 minutes late, without strict mode; one that starts at 10:00 is
    checked in to on time, under strict mode as well. *)
Lemma lateness_classification_witness :
  let at_ (h m : Z) := Scenario.session OneTime SessionType.PHYSICAL Mode.PHYSICAL
                                        (h, m) [] Scenario.coordsLocation in
  let strictEnv := Scenario.env (SettingsDoc 30 (Some true))
                                (Resolved (Some Scenario.verified)) in
  response (markAttendance Scenario.env0
              (Scenario.world Scenario.registered (at_ 9 45) []) Scenario.request)
  = mkResponse 201
      (Created (recordOf Scenario.env0 Scenario.request (Some Scenario.verified)
                         true (Some 15)))
  /\ response (markAttendance strictEnv
                 (Scenario.world Scenario.registered (at_ 9 0) []) Scenario.request)
     = mkResponse 400 (StrictLate 60 0)
  /\ response (markAttendance Scenario.env0
                 (Scenario.world Scenario.registered (at_ 9 0) []) Scenario.request)
     = mkResponse 201
         (Created (recordOf Scenario.env0 Scenario.request (Some Scenario.verified)
                            true (Some 60)))
  /\ response (markAttendance strictEnv
                 (Scenario.world Scenario.registered (at_ 10 0) []) Scenario.request)
     = mkResponse 201
         (Created (recordOf strictEnv Scenario.request (Some Scenario.verified)
                            false None)).
Proof.
  cbv zeta. split; [|split; [|split]].
  - destruct (lateness_classification Scenario.env0
                (Scenario.world Scenario.registered
                   (Scenario.session OneTime SessionType.PHYSICAL Mode.PHYSICAL (9, 45) []
                                     Scenario.coordsLocation) [])
                Scenario.request Scenario.registered
                (Scenario.session OneTime SessionType.PHYSICAL Mode.PHYSICAL (9, 45) []
                                  Scenario.coordsLocation))
      as (H & _).
    + repeat split.
    + destruct H as (_ & _ & _ & H);
        [split; [vm_compute; reflexivity | vm_compute; discriminate]|].
      destruct (H (Some Scenario.verified)) as [Hr _]; [|reflexivity|exact Hr].
      exists (Scenario.assigned Mode.PHYSICAL). eexists.
      split; [reflexivity|]. split; [reflexivity|]. left. reflexivity.
  - destruct (lateness_classification
                (Scenario.env (SettingsDoc 30 (Some true))
                              (Resolved (Some Scenario.verified)))
                (Scenario.world Scenario.registered
                   (Scenario.session OneTime SessionType.PHYSICAL Mode.PHYSICAL (9, 0) []
                                     Scenario.coordsLocation) [])
                Scenario.request Scenario.registered
                (Scenario.session OneTime SessionType.PHYSICAL Mode.PHYSICAL (9, 0) []
                                  Scenario.coordsLocation))
      as (_ & H & _).
    + repeat split.
    + rewrite H; [reflexivity | vm_compute; discriminate
                  | vm_compute; reflexivity | reflexivity].
  - destruct (lateness_classification Scenario.env0
                (Scenario.world Scenario.registered
                   (Scenario.session OneTime SessionType.PHYSICAL Mode.PHYSICAL (9, 0) []
                                     Scenario.coordsLocation) [])
                Scenario.request Scenario.registered
                (Scenario.session OneTime SessionType.PHYSICAL Mode.PHYSICAL (9, 0) []
                                  Scenario.coordsLocation))
      as (_ & _ & H & _).
    + repeat split.
    + destruct H as (_ & _ & _ & H); [vm_compute; reflexivity | reflexivity |].
      destruct (H (Some Scenario.verified)) as [Hr _];
        [vm_compute; discriminate | | reflexivity | exact Hr].
      exists (Scenario.assigned Mode.PHYSICAL). eexists.
      split; [reflexivity|]. split; [reflexivity|]. left. reflexivity.
  - destruct (lateness_classification
                (Scenario.env (SettingsDoc 30 (Some true))
                              (Resolved (Some Scenario.verified)))
                (Scenario.world Scenario.registered
                   (Scenario.session OneTime SessionType.PHYSICAL Mode.PHYSICAL (10, 0) []
                                     Scenario.coordsLocation) [])
                Scenario.request Scenario.registered
                (Scenario.session OneTime SessionType.PHYSICAL Mode.PHYSICAL (10, 0) []
                                  Scenario.coordsLocation))
      as (_ & _ & _ & H).
    + repeat split.
    + destruct H as (_ & _ & _ & H);
        [vm_compute; discriminate | vm_compute; discriminate |].
      destruct (H (Some Scenario.verified)) as [Hr _];
        [vm_compute; discriminate | | reflexivity | exact Hr].
      exists (Scenario.assigned Mode.PHYSICAL). eexists.
      split; [reflexivity|]. split; [reflexivity|]. left. reflexivity.
Defined.

(** ** The hard gate on location verification *)

Lemma forceMarkAttendance_no_verify env w req :
  noVerifyCall (trace (forceMarkAttendance env w req)).
Proof.
  unfold forceMarkAttendance, forceFinish, forceLoads.
  repeat match goal with
         | |- context [if ?c then _ else _] => destruct c
         | |- context [match ?x with _ => _ end] => destruct x
         end;
    intros args H; cbn [trace] in H; rewrite ?in_app_iff in H; cbn [In] in H;
    repeat match type of H with
           | _ \/ _ => destruct H as [H|H]
           end;
    solve [discriminate H | contradiction H].
Qed.

(** Whatever [forceMarkAttendance] writes is marked as verified. *)
Lemma forceMarkAttendance_marks_verified env w req a :
  In (SaveAttendance a) (trace (forceMarkAttendance env w req)) ->
  Attendance.locationVerified a = true.
Proof.
  unfold forceMarkAttendance, forceFinish, forceLoads.
  repeat match goal with
         | |- context [if ?c then _ else _] => destruct c
         | |- context [match ?x with _ => _ end] => destruct x
         end;
    intros H; cbn [trace] in H; rewrite ?in_app_iff in H; cbn [In] in H;
    repeat match type of H with
           | _ \/ _ => destruct H as [H|H]
           end;
    try discriminate H; try contradiction H;
    inversion H; reflexivity.
Qed.

(** C1, as stated for every attendance record, fails on the code: for a
    PHYSICAL session with a PHYSICAL-mode user, [forceMarkAttendance] stores
    a record with [locationVerified = true] although [verifyLocation] is
    never called (and here would refuse any coordinates). *)
Lemma force_mark_bypasses_verification :
  let w := Scenario.world Scenario.registered Scenario.physical [] in
  let out := forceMarkAttendance Scenario.envRefusing w (Scenario.forceRequest "Present") in
  Session.sessionType Scenario.physical = SessionType.PHYSICAL
  /\ findAssignment Scenario.physical Scenario.uid = Some (Scenario.assigned Mode.PHYSICAL)
  /\ attendance (final out)
     = [forcedAttendance Scenario.envRefusing (Scenario.forceRequest "Present")]
  /\ ~ verifiedByContract Scenario.envRefusing out.
Proof.
  cbv zeta. repeat split.
  intros H.
  destruct (H (forcedAttendance Scenario.envRefusing (Scenario.forceRequest "Present")))
    as (args & result & Hin & _).
  - cbn. auto.
  - reflexivity.
  - exact (forceMarkAttendance_no_verify _ _ _ _ Hin).
Qed.

(** C1 (amended).  In [markAttendance], for a PHYSICAL session, and for a
    HYBRID session with a user assigned in PHYSICAL mode: an attendance
    record is written only after [verifyLocation] was called with the
    latitude, longitude and accuracy of this very request and resolved to a
    result with [isValid = true]; the record has [locationVerified = true]
    and carries the snapshot of that result.  When that call does not
    resolve to a valid result the attempt is refused and nothing is
    written, so [locationVerified = false] is never stored. *)
Theorem location_hard_gate (env : Env) (w : World) (req : Request)
    (session : Session.t) (assignment : Assignment.t) :
  findSessionById w (sessionId req) = Some session ->
  findAssignment session (userId req) = Some assignment ->
  Session.sessionType session = SessionType.PHYSICAL
  \/ (Session.sessionType session = SessionType.HYBRID
      /\ Assignment.mode assignment = Mode.PHYSICAL) ->
  let out := markAttendance env w req in
  let args :=
    {| v_latitude := get (userLocation req) "latitude";
       v_longitude := get (userLocation req) "longitude";
       v_accuracyRadius := accuracy req;
       v_sessionCity := Session.city session;
       v_sessionState := Session.state session;
       v_geofencePolygon := Session.geofence session |} in
  verifiedByContract env out
  /\ (forall a,
        In (SaveAttendance a) (trace out) ->
        Attendance.locationVerified a = true
        /\ In (VerifyLocationCall args) (trace out)
        /\ exists result,
             verifyLocation env args = Resolved (Some result)
             /\ LocationVerificationResult.isValid result = true
             /\ Attendance.reverseGeocodeSnapshot a
                = LocationVerificationResult.reverseGeocode result
             /\ Attendance.confidenceScore a
                = LocationVerificationResult.confidenceScore result)
  /\ ((forall result, verifyLocation env args = Resolved (Some result) ->
                      LocationVerificationResult.isValid result = false) ->
      refused w out).
Proof.
  intros Hs Ha Htype. cbv zeta.
  apply isLocationRequired_spec in Htype.
  fold (verifyArgs req session).
  assert (Hmain : forall a,
    In (SaveAttendance a) (trace (markAttendance env w req)) ->
    Attendance.locationVerified a = true
    /\ In (VerifyLocationCall (verifyArgs req session)) (trace (markAttendance env w req))
    /\ exists result,
         verifyLocation env (verifyArgs req session) = Resolved (Some result)
         /\ LocationVerificationResult.isValid result = true
         /\ Attendance.reverseGeocodeSnapshot a
            = LocationVerificationResult.reverseGeocode result
         /\ Attendance.confidenceScore a
            = LocationVerificationResult.confidenceScore result).
  { intros a H.
    apply markAttendance_saved in H
      as (user & session' & late & lateBy & assignment' & result & calls
          & Hc & -> & Hd).
    pose proof Hc as (((_ & _ & Hs') & _) & _ & _ & Ha' & Hg).
    rewrite Hs in Hs'. inversion Hs'; subst session'.
    rewrite Ha in Ha'. inversion Ha'; subst assignment'.
    apply locationGate_open in Hg
      as [_ [(_ & -> & r & -> & Hv & Hvalid & _) | (Hr & _)]];
      [|congruence].
    split; [reflexivity|]. split.
    - rewrite (markAttendance_cleared _ _ _ _ _ _ _ _ _ _ Hc). cbv zeta.
      destruct Hd as [-> | [user' ->]]; unfold created; cbn [trace];
        rewrite !in_app_iff; cbn [In]; auto 10.
    - exists r. repeat split; assumption. }
  split; [|split].
  - intros a H _. destruct (Hmain a H) as (_ & Hin & r & Hv & Hvalid & _).
    exists (verifyArgs req session), r. repeat split; assumption.
  - exact Hmain.
  - intros Hbad.
    destruct (markAttendance_outcome env w req)
      as [Hr | (user & session' & late & lateBy & assignment' & result & calls
                & Hc & _)]; [exact Hr|].
    exfalso.
    destruct Hc as (((_ & _ & Hs') & _) & _ & _ & Ha' & Hg).
    rewrite Hs in Hs'. inversion Hs'; subst session'.
    rewrite Ha in Ha'. inversion Ha'; subst assignment'.
    apply locationGate_open in Hg
      as [_ [(_ & _ & r & _ & Hv & Hvalid & _) | (Hr & _)]];
      [|congruence].
    rewrite (Hbad r Hv) in Hvalid. discriminate.
Qed.

(** A verified check-in to a PHYSICAL session, and the same attempt when
    the provider refuses. *)
Lemma location_hard_gate_witness :
  let w := Scenario.world Scenario.registered Scenario.physical [] in
  status (response (markAttendance Scenario.env0 w Scenario.request)) = 201
  /\ verifiedByContract Scenario.env0 (markAttendance Scenario.env0 w Scenario.request)
  /\ refused w (markAttendance Scenario.envRefusing w Scenario.request).
Proof.
  cbv zeta. split; [reflexivity|]. split.
  - destruct (location_hard_gate Scenario.env0
                (Scenario.world Scenario.registered Scenario.physical [])
                Scenario.request Scenario.physical (Scenario.assigned Mode.PHYSICAL)
                eq_refl eq_refl (or_introl eq_refl))
      as (H & _ & _).
    exact H.
  - destruct (location_hard_gate Scenario.envRefusing
                (Scenario.world Scenario.registered Scenario.physical [])
                Scenario.request Scenario.physical (Scenario.assigned Mode.PHYSICAL)
                eq_refl eq_refl (or_introl eq_refl))
      as (_ & _ & H).
    apply H. intros result Hv. vm_compute in Hv. discriminate Hv.
Defined.

(** When verification is not required, [markAttendance] stores
    [locationVerified = true] by policy and calls no verification. *)
Lemma remote_never_verified env w req session assignment :
  findSessionById w (sessionId req) = Some session ->
  findAssignment session (userId req) = Some assignment ->
  isLocationRequired session assignment = false ->
  noVerifyCall (trace (markAttendance env w req))
  /\ forall a, In (SaveAttendance a) (trace (markAttendance env w req)) ->
               Attendance.locationVerified a = true.
Proof.
  intros Hs Ha Hr. split.
  - intros args H. unfold markAttendance in H. rewrite Hs in H.
    destruct (validateRequest env req); [not_saved H|].
    destruct (findUserById w (userId req)) as [user|]; [|not_saved H].
    destruct (isSessionDateToday env session); cbn [negb] in H; [|not_saved H].
    cbv zeta in H.
    destruct (existingAttendance env w req session); [not_saved H|].
    destruct (tooEarly env session) eqn:Hw.
    { unfold tooEarly in Hw. destruct (_ <? _); inversion Hw; subst. not_saved H. }
    destruct (lateness _ _ _); [|not_saved H].
    rewrite Ha in H. unfold locationGate in H. rewrite Hr in H.
    unfold assertAfterGate, commit, assertBeforeCreate, attendanceData, updateRoster in H.
    rewrite ?Hr, ?Ha in H. cbn [andb] in H.
    destruct (deviceGuard user req); not_saved H.
  - intros a H.
    apply markAttendance_saved in H
      as (u & s' & l & lb & a' & r & c & _ & -> & _). reflexivity.
Qed.

(** ** The session's own location *)

(** C2 at its failing input.  A PHYSICAL session whose descriptor is a link
    without resolved coordinates: the attempt is not refused with
    SESSION_LOCATION_NOT_CONFIGURED; [verifyLocation] is called and the
    record is created. *)
Theorem unconfigured_location_not_checked :
  let s := Scenario.session OneTime SessionType.PHYSICAL Mode.PHYSICAL (11, 0) []
                            Scenario.linkWithoutCoordinates in
  let out := markAttendance Scenario.env0 (Scenario.world Scenario.registered s [])
                            Scenario.request in
  Session.location s = Scenario.linkWithoutCoordinates
  /\ Session.geolocation s = None
  /\ status (response out) = 201
  /\ reasonOf (response out) <> Some "SESSION_LOCATION_NOT_CONFIGURED"
  /\ In (VerifyLocationCall (verifyArgs Scenario.request s)) (trace out)
  /\ attendance (final out)
     = [recordOf Scenario.env0 Scenario.request (Some Scenario.verified) false None].
Proof.
  cbv zeta. split; [reflexivity|]. split; [reflexivity|].
  split; [reflexivity|]. split; [discriminate|].
  split; [|reflexivity].
  vm_compute. do 4 right. left. reflexivity.
Qed.

(** ** Validation of the raw location payload *)

Lemma is_type_true (v : JsValue) (t : JsType) : is_type v t = true <-> typeof v = t.
Proof.
  unfold is_type. destruct (typeof v), t; cbn; split; congruence.
Qed.

Lemma is_type_false (v : JsValue) (t : JsType) : is_type v t = false <-> typeof v <> t.
Proof.
  rewrite <- is_type_true. destruct (is_type v t); split; congruence.
Qed.

Lemma validateRequest_payload env req :
  locationPresent req ->
  validateRequest env req =
  if negb (is_type (get (userLocation req) "latitude") TNumber)
     || negb (is_type (get (userLocation req) "longitude") TNumber) then
    Some (reject 400 "Invalid location coordinates. Please enable GPS and try again."
                 "INVALID_LOCATION_COORDS")
  else if strict_eq (get (userLocation req) "latitude") zero
          && strict_eq (get (userLocation req) "longitude") zero then
    Some (reject 400 "Invalid location detected. Please ensure GPS is enabled and try again."
                 "INVALID_LOCATION_ZERO")
  else if negb (is_type (accuracy req) TNumber)
          || isNaN (number_of (accuracy req))
          || strict_eq (accuracy req) JUndefined
          || strict_eq (accuracy req) JNull then
    Some (reject 400 "GPS accuracy is required. Please enable high-accuracy GPS and try again."
                 "MISSING_ACCURACY")
  else if num_leb (number_of (accuracy req)) (JFinite 0)
          || num_gtb (number_of (accuracy req)) (JFinite 1000) then
    Some (reject 400 "Invalid GPS accuracy data. Please enable high-accuracy GPS and try again."
                 "INVALID_ACCURACY")
  else if (role req =? "PLATFORM_OWNER")%string then
    Some (rejectMsg 403 "Forbidden: Platform Owner cannot mark their own attendance")
  else if negb (isValidObjectId env (sessionId req)) then
    Some (rejectMsg 400 "Invalid Session ID. Please scan a valid QR code.")
  else None.
Proof.
  intros (He & Hd & Hu & props & Hl). unfold validateRequest.
  rewrite He, Hd, Hu, Hl. reflexivity.
Qed.

Lemma Qgt_1000 (q : Q) : (1000 < q)%Q -> Qle_bool q 1000 = false.
Proof.
  intros H. destruct (Qle_bool q 1000) eqn:E; [|reflexivity].
  apply Qle_bool_iff in E. exfalso. exact (Qlt_not_le _ _ H E).
Qed.

Lemma Qpos_not_le (q : Q) : (0 < q)%Q -> Qle_bool q 0 = false.
Proof.
  intros H. destruct (Qle_bool q 0) eqn:E; [|reflexivity].
  apply Qle_bool_iff in E. exfalso. exact (Qlt_not_le _ _ H E).
Qed.

Lemma commit_no_validation_code env req s required verified result late lateBy w tr :
  hasValidationCode (response
    (commit env req s required verified result late lateBy w tr)) = false.
Proof.
  unfold commit.
  destruct (assertBeforeCreate required verified result) as [r|] eqn:Ea.
  - unfold assertBeforeCreate in Ea.
    repeat match type of Ea with
           | context [match ?x with _ => _ end] => destruct x
           end; inversion Ea; reflexivity.
  - destruct (attendanceData env req required verified result late lateBy)
      as [a|r] eqn:Ed.
    + destruct (updateRoster s (userId req) (markPresent late)); reflexivity.
    + unfold attendanceData in Ed.
      repeat match type of Ed with
             | context [match ?x with _ => _ end] => destruct x
             end; inversion Ed; reflexivity.
Qed.

Lemma validated_no_validation_code env w req :
  validateRequest env req = None ->
  hasValidationCode (response (markAttendance env w req)) = false.
Proof.
  intros Hv. unfold markAttendance. rewrite Hv.
  destruct (findUserById w (userId req)) as [user|]; [|reflexivity].
  destruct (findSessionById w (sessionId req)) as [session|]; [|reflexivity].
  destruct (isSessionDateToday env session); cbn [negb]; [|reflexivity].
  cbv zeta.
  destruct (existingAttendance env w req session); [reflexivity|].
  destruct (tooEarly env session) as [r|] eqn:Hw.
  { unfold tooEarly in Hw. destruct (_ <? _); inversion Hw; reflexivity. }
  destruct (lateness _ _ _); [|reflexivity].
  destruct (findAssignment _ _) as [assignment|]; [|reflexivity].
  destruct (locationGate env req session assignment)
    as [[r|verified result] calls] eqn:Hg.
  - unfold locationGate in Hg.
    repeat match type of Hg with
           | context [match ?x with _ => _ end] => destruct x
           end; inversion Hg; reflexivity.
  - destruct (assertAfterGate _ _ _) as [r|] eqn:Ea.
    + unfold assertAfterGate in Ea.
      repeat match type of Ea with
             | context [match ?x with _ => _ end] => destruct x
             end; inversion Ea; reflexivity.
    + destruct (deviceGuard user req); try reflexivity;
        apply commit_no_validation_code.
Qed.

(** C8.  For a request that carries a location object, and before anything
    is loaded or called: a latitude or longitude that is not a number is
    refused as INVALID_LOCATION_COORDS; coordinates (0, 0) as
    INVALID_LOCATION_ZERO; then an accuracy that is absent, not a number or
    NaN as MISSING_ACCURACY; and an accuracy [<= 0] or [> 1000] as
    INVALID_ACCURACY.  An accuracy in the interval from above 0 to 1000,
    1000 included, passes these checks. *)
Theorem payload_validation (env : Env) (w : World) (req : Request) :
  locationPresent req ->
  let latitude := get (userLocation req) "latitude" in
  let longitude := get (userLocation req) "longitude" in
  let out := markAttendance env w req in
  (typeof latitude <> TNumber \/ typeof longitude <> TNumber ->
   rejectedAtOnce w out "INVALID_LOCATION_COORDS")
  /\ (forall x y, latitude = JNum (JFinite x) -> longitude = JNum (JFinite y) ->
                  (x == 0)%Q -> (y == 0)%Q ->
                  rejectedAtOnce w out "INVALID_LOCATION_ZERO")
  /\ (forall a b, latitude = JNum a -> longitude = JNum b ->
                  num_is_zero a && num_is_zero b = false ->
        (typeof (accuracy req) <> TNumber \/ accuracy req = JNum JNaN ->
         rejectedAtOnce w out "MISSING_ACCURACY")
        /\ (forall q, accuracy req = JNum (JFinite q) ->
                      (q <= 0)%Q \/ (1000 < q)%Q ->
                      rejectedAtOnce w out "INVALID_ACCURACY")
        /\ (forall q, accuracy req = JNum (JFinite q) ->
                      (0 < q)%Q /\ (q <= 1000)%Q ->
                      reasonOf (response out) <> Some "INVALID_ACCURACY"
                      /\ ((role req =? "PLATFORM_OWNER")%string = false ->
                          isValidObjectId env (sessionId req) = true ->
                          validateRequest env req = None))).
Proof.
  intros Hp. cbv zeta.
  pose proof (validateRequest_payload env req Hp) as Hv.
  split; [|split].
  - intros H.
    assert (E : negb (is_type (get (userLocation req) "latitude") TNumber)
                || negb (is_type (get (userLocation req) "longitude") TNumber) = true).
    { destruct H as [H|H]; apply is_type_false in H; rewrite H;
        [reflexivity | apply orb_true_r]. }
    rewrite E in Hv. rewrite (validateRequest_refuses _ _ _ _ Hv). repeat split.
  - intros x y Hx Hy Hx0 Hy0. rewrite Hx, Hy in Hv. cbn in Hv.
    apply Qeq_bool_iff in Hx0, Hy0. rewrite Hx0, Hy0 in Hv. cbn in Hv.
    rewrite (validateRequest_refuses _ _ _ _ Hv). repeat split.
  - intros a b Ha Hb Hz. rewrite Ha, Hb in Hv.
    cbn [is_type typeof JsType_eqb negb orb] in Hv.
    assert (Ez : strict_eq (JNum a) zero && strict_eq (JNum b) zero = false).
    { destruct a as [| |x], b as [| |y]; try reflexivity; exact Hz. }
    rewrite Ez in Hv. clear Ez.
    split; [|split].
    + intros H.
      assert (E : negb (is_type (accuracy req) TNumber)
                  || isNaN (number_of (accuracy req))
                  || strict_eq (accuracy req) JUndefined
                  || strict_eq (accuracy req) JNull = true).
      { destruct H as [H|H]; [apply is_type_false in H|]; rewrite H; reflexivity. }
      rewrite E in Hv. rewrite (validateRequest_refuses _ _ _ _ Hv). repeat split.
    + intros q Hq Hrange. rewrite Hq in Hv. cbn in Hv.
      assert (E : Qle_bool q 0 || negb (Qle_bool q 1000) = true).
      { destruct Hrange as [H|H].
        - apply Qle_bool_iff in H. rewrite H. reflexivity.
        - rewrite (Qgt_1000 _ H). apply orb_true_r. }
      rewrite E in Hv. rewrite (validateRequest_refuses _ _ _ _ Hv). repeat split.
    + intros q Hq [Hpos Hmax]. rewrite Hq in Hv. cbn in Hv.
      apply Qle_bool_iff in Hmax. rewrite (Qpos_not_le _ Hpos), Hmax in Hv.
      cbn [negb orb] in Hv. split.
      * destruct (role req =? "PLATFORM_OWNER")%string eqn:Er.
        { rewrite (validateRequest_refuses _ _ _ _ Hv). cbn. discriminate. }
        destruct (isValidObjectId env (sessionId req)) eqn:Ei; cbn [negb] in Hv.
        2:{ rewrite (validateRequest_refuses _ _ _ _ Hv). cbn. discriminate. }
        intros Hr. pose proof (validated_no_validation_code env w req Hv) as Hn.
        unfold hasValidationCode in Hn. rewrite Hr in Hn. discriminate Hn.
      * intros Er Ei. rewrite Er, Ei in Hv. exact Hv.
Qed.

(** Accuracy exactly 1000 passes; 1001 and (0, 0) do not. *)
Lemma payload_validation_witness :
  let w := Scenario.world Scenario.registered Scenario.physical [] in
  validateRequest Scenario.env0 (Scenario.withAccuracy (JNum (JFinite 1000))) = None
  /\ rejectedAtOnce w
       (markAttendance Scenario.env0 w (Scenario.withAccuracy (JNum (JFinite 1001))))
       "INVALID_ACCURACY"
  /\ rejectedAtOnce w
       (markAttendance Scenario.env0 w (Scenario.withLocation Scenario.nullIsland))
       "INVALID_LOCATION_ZERO".
Proof.
  cbv zeta. split; [|split].
  - destruct (payload_validation Scenario.env0
                (Scenario.world Scenario.registered Scenario.physical [])
                (Scenario.withAccuracy (JNum (JFinite 1000))))
      as (_ & _ & H).
    + repeat split. eexists. reflexivity.
    + destruct (H _ _ eq_refl eq_refl eq_refl) as (_ & _ & Hpass).
      destruct (Hpass 1000%Q eq_refl) as [_ Hnone].
      * split; [reflexivity | discriminate].
      * apply Hnone; reflexivity.
  - destruct (payload_validation Scenario.env0
                (Scenario.world Scenario.registered Scenario.physical [])
                (Scenario.withAccuracy (JNum (JFinite 1001))))
      as (_ & _ & H).
    + repeat split. eexists. reflexivity.
    + destruct (H _ _ eq_refl eq_refl eq_refl) as (_ & Hbad & _).
      apply (Hbad 1001%Q eq_refl). right. reflexivity.
  - destruct (payload_validation Scenario.env0
                (Scenario.world Scenario.registered Scenario.physical [])
                (Scenario.withLocation Scenario.nullIsland))
      as (_ & H & _).
    + repeat split. eexists. reflexivity.
    + apply (H 0%Q 0%Q); reflexivity.
Defined.

Lemma rawLocationInvalid_refused env req :
  rawLocationInvalid req ->
  exists r, validateRequest env req = Some r
            /\ status r = 400
            /\ (validationErrors req = [] ->
                missing_string (deviceId req) = false ->
                missing_string (userAgent req) = false ->
                exists code, reasonOf r = Some code /\ In code locationCodes).
Proof.
  intros H. unfold validateRequest.
  destruct (validationErrors req) as [|e errs]; cbn [negb].
  2:{ eexists. split; [reflexivity|]. split; [reflexivity|]. discriminate. }
  destruct (missing_string (deviceId req)).
  { eexists. split; [reflexivity|]. split; [reflexivity|]. discriminate. }
  destruct (missing_string (userAgent req)).
  { eexists. split; [reflexivity|]. split; [reflexivity|]. discriminate. }
  destruct (negb (truthy (userLocation req))
            || negb (is_type (userLocation req) TObject)) eqn:E3.
  { eexists. split; [reflexivity|]. split; [reflexivity|].
    intros _ _ _. eexists. split; [reflexivity|]. cbn. auto. }
  destruct (negb (is_type (get (userLocation req) "latitude") TNumber)
            || negb (is_type (get (userLocation req) "longitude") TNumber)) eqn:E4.
  { eexists. split; [reflexivity|]. split; [reflexivity|].
    intros _ _ _. eexists. split; [reflexivity|]. cbn. auto. }
  destruct (strict_eq (get (userLocation req) "latitude") zero
            && strict_eq (get (userLocation req) "longitude") zero) eqn:E5.
  { eexists. split; [reflexivity|]. split; [reflexivity|].
    intros _ _ _. eexists. split; [reflexivity|]. cbn. auto. }
  destruct (negb (is_type (accuracy req) TNumber)
            || isNaN (number_of (accuracy req))
            || strict_eq (accuracy req) JUndefined
            || strict_eq (accuracy req) JNull) eqn:E6.
  { eexists. split; [reflexivity|]. split; [reflexivity|].
    intros _ _ _. eexists. split; [reflexivity|]. cbn. auto 6. }
  destruct (num_leb (number_of (accuracy req)) (JFinite 0)
            || num_gtb (number_of (accuracy req)) (JFinite 1000)) eqn:E7.
  { eexists. split; [reflexivity|]. split; [reflexivity|].
    intros _ _ _. eexists. split; [reflexivity|]. cbn. auto 6. }
  exfalso.
  apply orb_false_iff in E4 as [E4a E4b].
  apply negb_false_iff in E4a, E4b.
  destruct H as [H|[H|[H|[H|[H|[H|H]]]]]].
  - destruct (userLocation req) as [ | | b | n | s | props];
      cbn in E3; rewrite ?orb_true_r in E3; try discriminate E3.
    exact (H props eq_refl).
  - apply is_type_false in H. congruence.
  - apply is_type_false in H. congruence.
  - destruct H as (x & y & Hx & Hy & Hx0 & Hy0).
    rewrite Hx, Hy in E5. cbn in E5.
    apply Qeq_bool_iff in Hx0, Hy0. rewrite Hx0, Hy0 in E5. discriminate E5.
  - apply is_type_false in H. rewrite H in E6. discriminate E6.
  - rewrite H in E6. discriminate E6.
  - destruct H as (q & Hq & Hr). rewrite Hq in E7. cbn in E7.
    destruct Hr as [Hr|Hr].
    + apply Qle_bool_iff in Hr. rewrite Hr in E7. discriminate E7.
    + rewrite (Qgt_1000 _ Hr) in E7. rewrite orb_true_r in E7. discriminate E7.
Qed.

(** C10.  Whatever the session and the user are, also when location
    verification would not be required, an attempt whose raw location
    payload is unusable is answered 400 before settings, user or session are
    loaded: nothing is read, called or written.  When the device identifier
    and the user agent are in order, the reason is one of the five location
    codes. *)
Theorem raw_location_checked_first (env : Env) (w : World) (req : Request) :
  rawLocationInvalid req ->
  let out := markAttendance env w req in
  status (response out) = 400
  /\ trace out = []
  /\ final out = w
  /\ (validationErrors req = [] ->
      missing_string (deviceId req) = false ->
      missing_string (userAgent req) = false ->
      exists code, reasonOf (response out) = Some code /\ In code locationCodes).
Proof.
  intros H. cbv zeta.
  destruct (rawLocationInvalid_refused env req H) as (r & Hv & Hs & Hc).
  rewrite (validateRequest_refuses _ _ _ _ Hv). cbn [response trace final].
  repeat split; assumption.
Qed.

(** A REMOTE session, for which location verification is not required: a
    request without accuracy is refused all the same, before any load. *)
Lemma raw_location_checked_first_witness :
  let remote := Scenario.session OneTime SessionType.REMOTE Mode.REMOTE (11, 0) [] None in
  let w := Scenario.world Scenario.registered remote [] in
  let out := markAttendance Scenario.env0 w (Scenario.withAccuracy JUndefined) in
  isLocationRequired remote (Scenario.assigned Mode.REMOTE) = false
  /\ status (response out) = 400
  /\ reasonOf (response out) = Some "MISSING_ACCURACY"
  /\ trace out = [].
Proof.
  cbv zeta. split; [reflexivity|].
  destruct (raw_location_checked_first Scenario.env0
              (Scenario.world Scenario.registered
                 (Scenario.session OneTime SessionType.REMOTE Mode.REMOTE (11, 0) [] None) [])
              (Scenario.withAccuracy JUndefined))
    as (Hs & Ht & _ & _).
  - right. right. right. right. left. discriminate.
  - split; [exact Hs | split; [reflexivity | exact Ht]].
Defined.

(** ** Organisation settings *)

(** C9.  When the settings lookup throws or finds nothing, the late limit
    is 30 minutes and strict mode is off, and the whole attempt is decided
    exactly as with a settings document holding these defaults: the
    unavailability of settings is no ground for refusal. *)
Theorem settings_defaults (env : Env) (w : World) (req : Request) :
  findSettings env = SettingsThrows \/ findSettings env = SettingsNone ->
  lateAttendanceLimit env = 30
  /\ isStrictAttendance env = false
  /\ markAttendance env w req
     = markAttendance (withSettings env (SettingsDoc 30 (Some false))) w req.
Proof.
  intros H. destruct env as [now settings verify valid]. cbn in H.
  destruct H as [-> | ->]; repeat split.
Qed.

Lemma settings_defaults_witness :
  let down := Scenario.env SettingsThrows (Resolved (Some Scenario.verified)) in
  let w := Scenario.world Scenario.registered Scenario.physical [] in
  lateAttendanceLimit down = 30
  /\ isStrictAttendance down = false
  /\ status (response (markAttendance down w Scenario.request)) = 201.
Proof.
  cbv zeta.
  destruct (settings_defaults
              (Scenario.env SettingsThrows (Resolved (Some Scenario.verified)))
              (Scenario.world Scenario.registered Scenario.physical [])
              Scenario.request (or_introl eq_refl))
    as (Hl & Hs & Hm).
  split; [exact Hl | split; [exact Hs|]]. rewrite Hm. reflexivity.
Defined.

(** ** Device binding *)

Lemma strict_eq_string (d : string) (v : JsValue) :
  strict_eq (JString d) v = true <-> v = JString d.
Proof.
  destruct v as [ | | b | n | s | props]; cbn; split; intros H;
    try discriminate H.
  - apply String.eqb_eq in H. now subst.
  - inversion H. apply String.eqb_refl.
Qed.

Lemma strict_eq_string_false (d : string) (v : JsValue) :
  v <> JString d -> strict_eq (JString d) v = false.
Proof.
  intros H. destruct (strict_eq (JString d) v) eqn:E; [|reflexivity].
  apply strict_eq_string in E. contradiction.
Qed.

Lemma truthy_string (d : string) : d <> "" -> truthy (JString d) = true.
Proof.
  intros H. cbn. destruct (String.eqb_spec d ""); [contradiction | reflexivity].
Qed.

Lemma find_replaceFirst {A : Type} (p q : A -> bool) (x y : A) (l : list A) :
  find p l = Some y ->
  (forall z, q z = p z) ->
  p x = true ->
  find p (replaceFirst q x l) = Some x.
Proof.
  intros Hf Hq Hx. induction l as [|z l IH]; [discriminate Hf|].
  cbn in *. rewrite Hq. destruct (p z) eqn:Ez.
  - cbn. rewrite Hx. reflexivity.
  - cbn. rewrite Ez. apply IH, Hf.
Qed.

Lemma findUserById_registered env w req user session assignment result late lateBy tr :
  findUserById w (userId req) = Some user ->
  findUserById
    (final (created env req session assignment result late lateBy
                    (saveUser w (registeredAs user req)) tr))
    (userId req)
  = Some (registeredAs user req).
Proof.
  intros Hu. unfold findUserById, created, saveSession, insertAttendance, saveUser.
  cbn [final users].
  pose proof (find_some _ _ Hu) as [_ Hid]. apply String.eqb_eq in Hid.
  apply (find_replaceFirst _ _ _ user); [exact Hu | |].
  - intros z. cbn [registeredAs User.id]. rewrite Hid. reflexivity.
  - cbn [registeredAs User.id]. rewrite Hid. apply String.eqb_refl.
Qed.

(** C7.  For the user of the request:
    - a presented device identifier that differs from the registered one is
      always refused, whatever the schedule and the location are, and no
      record is written;
    and for an attempt that passed every earlier stage:
    - with no registered device, the presented device identifier and user
      agent are stored as the registered identity and the record is created;
    - with a different registered device, the answer is the device mismatch;
    - with the registered device and a recorded user agent that differs from
      the presented one, the answer is the cloning alert;
    - with the registered device and no recorded user agent, the user agent
      is not compared and the record is created. *)
Theorem device_binding (env : Env) (w : World) (req : Request) (user : User.t) :
  findUserById w (userId req) = Some user ->
  let out := markAttendance env w req in
  (forall registered,
      User.registeredDeviceId user = JString registered -> registered <> "" ->
      deviceId req <> JString registered ->
      refused w out)
  /\ (forall session late lateBy assignment result calls,
        cleared env w req user session late lateBy assignment result calls ->
        let tr := (loads req ++ [duplicateQuery env req session]) ++ calls in
        (truthy (User.registeredDeviceId user) = false ->
         out = created env req session assignment result late lateBy
                       (saveUser w (registeredAs user req))
                       (tr ++ [SaveUser (registeredAs user req)])
         /\ status (response out) = 201
         /\ findUserById (final out) (userId req) = Some (registeredAs user req))
        /\ (forall registered,
              User.registeredDeviceId user = JString registered -> registered <> "" ->
              deviceId req <> JString registered ->
              out = mkOutcome deviceMismatchResponse tr w)
        /\ (forall registered agent,
              User.registeredDeviceId user = JString registered -> registered <> "" ->
              deviceId req = JString registered ->
              User.registeredUserAgent user = JString agent -> agent <> "" ->
              userAgent req <> JString agent ->
              out = mkOutcome cloningResponse tr w)
        /\ (forall registered,
              User.registeredDeviceId user = JString registered -> registered <> "" ->
              deviceId req = JString registered ->
              truthy (User.registeredUserAgent user) = false ->
              out = created env req session assignment result late lateBy w tr
              /\ status (response out) = 201)).
Proof.
  intros Hu. cbv zeta. split.
  - intros registered Hreg Hne Hdiff.
    destruct (markAttendance_outcome env w req)
      as [Hr | (user' & session & late & lateBy & assignment & result & calls
                & Hc & Hd)]; [exact Hr|].
    exfalso.
    destruct Hc as (((_ & Hu' & _) & _) & _).
    rewrite Hu in Hu'. inversion Hu'; subst user'.
    unfold deviceGuard in Hd.
    rewrite Hreg, (truthy_string _ Hne), (strict_eq_string_false _ _ Hdiff) in Hd.
    cbn in Hd. destruct Hd as [Hd | [u Hd]]; discriminate Hd.
  - intros session late lateBy assignment result calls Hc.
    pose proof (markAttendance_cleared _ _ _ _ _ _ _ _ _ _ Hc) as Hm.
    cbv zeta in Hm. unfold deviceGuard in Hm.
    split; [|split; [|split]].
    + intros Hfirst. rewrite Hfirst in Hm. cbn [negb] in Hm.
      fold (registeredAs user req) in Hm.
      split; [exact Hm|]. rewrite Hm.
      split; [reflexivity|]. apply findUserById_registered, Hu.
    + intros registered Hreg Hne Hdiff.
      rewrite Hreg, (truthy_string _ Hne), (strict_eq_string_false _ _ Hdiff) in Hm.
      exact Hm.
    + intros registered agent Hreg Hne Hsame Hagent Hane Hdiff.
      rewrite Hreg, (truthy_string _ Hne), Hsame in Hm.
      rewrite (proj2 (strict_eq_string registered (JString registered)) eq_refl) in Hm.
      rewrite Hagent, (truthy_string _ Hane), (strict_eq_string_false _ _ Hdiff) in Hm.
      exact Hm.
    + intros registered Hreg Hne Hsame Hnone.
      rewrite Hreg, (truthy_string _ Hne), Hsame in Hm.
      rewrite (proj2 (strict_eq_string registered (JString registered)) eq_refl) in Hm.
      rewrite Hnone in Hm. cbn [negb andb] in Hm.
      split; [exact Hm|]. rewrite Hm. reflexivity.
Qed.

(** A newcomer gets registered and checked in; a user registered on another
    device is refused even though schedule and location are in order. *)
Lemma device_binding_witness :
  let w1 := Scenario.world Scenario.newcomer Scenario.physical [] in
  let w2 := Scenario.world (Scenario.user (JString "other-device") JUndefined)
                           Scenario.physical [] in
  findUserById (final (markAttendance Scenario.env0 w1 Scenario.request)) Scenario.uid
  = Some Scenario.registered
  /\ refused w2 (markAttendance Scenario.env0 w2 Scenario.request).
Proof.
  cbv zeta. split.
  - destruct (device_binding Scenario.env0
                (Scenario.world Scenario.newcomer Scenario.physical [])
                Scenario.request Scenario.newcomer eq_refl)
      as (_ & H).
    destruct (H Scenario.physical false None (Scenario.assigned Mode.PHYSICAL)
                (Some Scenario.verified)
                [VerifyLocationCall (verifyArgs Scenario.request Scenario.physical)])
      as (Hfirst & _).
    + repeat split.
    + destruct (Hfirst eq_refl) as (_ & _ & Hfound). exact Hfound.
  - destruct (device_binding Scenario.env0
                (Scenario.world (Scenario.user (JString "other-device") JUndefined)
                                Scenario.physical [])
                Scenario.request
                (Scenario.user (JString "other-device") JUndefined) eq_refl)
      as (H & _).
    apply (H "other-device"); [reflexivity | discriminate | discriminate].
Defined.

(* ------------------------------------------------------------------ *)
(** * Further properties of [markAttendance] *)

Lemma validateRequest_reason env req r :
  validateRequest env req = Some r ->
  match reasonOf r with
  | Some code => In code validationCodes
  | None => True
  end.
Proof.
  unfold validateRequest. intros H.
  repeat match type of H with
         | context [if ?c then _ else _] => destruct c
         end; inversion H; cbn; auto 10.
Qed.

Lemma validated_location_data env req :
  validateRequest env req = None -> locationDataMissing req = false.
Proof.
  unfold validateRequest, locationDataMissing. intros H.
  destruct (negb match validationErrors req with [] => true | _ => false end);
    [discriminate H|].
  destruct (missing_string (deviceId req)); [discriminate H|].
  destruct (missing_string (userAgent req)); [discriminate H|].
  destruct (negb (truthy (userLocation req))) eqn:Et; [discriminate H|].
  cbn [orb] in H |- *.
  destruct (negb (is_type (userLocation req) TObject)); [discriminate H|].
  destruct (negb (is_type (get (userLocation req) "latitude") TNumber)
            || negb (is_type (get (userLocation req) "longitude") TNumber));
    [discriminate H | reflexivity].
Qed.

(** With usable location data the gate answers by itself only through the
    inner [catch]. *)
Lemma locationGate_responded_caught env req s assignment r calls :
  locationDataMissing req = false ->
  locationGate env req s assignment = (GateResponded r, calls) ->
  calls = [VerifyLocationCall (verifyArgs req s)]
  /\ exists message, r = verificationFailed message.
Proof.
  intros Hd. unfold locationGate. rewrite Hd. intros H.
  repeat match type of H with
         | context [match ?x with _ => _ end] => destruct x
         end; inversion H; subst; split; try reflexivity; eexists; reflexivity.
Qed.

Lemma verificationFailed_answer message :
  status (verificationFailed message) = 403
  /\ reasonOf (verificationFailed message) = Some "MAPMYINDIA_VERIFICATION_FAILED".
Proof. split; reflexivity. Qed.

(** X1.  [markAttendance] answers 201, 400, 403 or 404 only, and a reason
    code, when there is one, is a validation code or
    MAPMYINDIA_VERIFICATION_FAILED: the answers of its defensive assertions
    (500, LOCATION_VERIFICATION_FAILED, MISSING_VERIFICATION_RESULT,
    LOCATION_NOT_VERIFIED, INVALID_VERIFICATION_RESULT,
    INCOMPLETE_VERIFICATION_DATA, INTERNAL_ERROR) cannot occur. *)
Theorem assertions_never_fire (env : Env) (w : World) (req : Request) :
  let r := response (markAttendance env w req) in
  In (status r) [201; 400; 403; 404]
  /\ (forall code, reasonOf r = Some code -> In code answerCodes).
Proof.
  cbv zeta.
  destruct (validateRequest env req) as [r|] eqn:Hv.
  { rewrite (validateRequest_refuses _ _ _ _ Hv). cbn [response].
    pose proof (validateRequest_status _ _ _ Hv) as Hs.
    pose proof (validateRequest_reason _ _ _ Hv) as Hr.
    split.
    - cbn. destruct Hs as [-> | ->]; auto.
    - intros code Hc. rewrite Hc in Hr. unfold answerCodes.
      apply in_or_app. now left. }
  pose proof (validated_location_data _ _ Hv) as Hd.
  unfold markAttendance. rewrite Hv.
  destruct (findUserById w (userId req)) as [user|];
    [|split; [cbn; auto | discriminate]].
  destruct (findSessionById w (sessionId req)) as [session|];
    [|split; [cbn; auto | discriminate]].
  destruct (isSessionDateToday env session); cbn [negb];
    [|split; [cbn; auto | discriminate]].
  cbv zeta.
  destruct (existingAttendance env w req session);
    [split; [cbn; auto | discriminate]|].
  destruct (tooEarly env session) as [r|] eqn:Hw.
  { unfold tooEarly in Hw. destruct (_ <? _); inversion Hw; subst.
    split; [cbn; auto | discriminate]. }
  destruct (lateness _ _ _); [|split; [cbn; auto | discriminate]].
  destruct (findAssignment _ _) as [assignment|] eqn:Ha;
    [|split; [cbn; auto | discriminate]].
  destruct (locationGate env req session assignment)
    as [[r|verified result] calls] eqn:Hg.
  - destruct (locationGate_responded_caught _ _ _ _ _ _ Hd Hg) as (_ & m & ->).
    split; [cbn; auto|].
    intros code Hc. cbn in Hc. inversion Hc. unfold answerCodes.
    apply in_or_app. right. now left.
  - pose proof (locationGate_open _ _ _ _ _ _ _ Hg) as [-> _].
    rewrite (assertAfterGate_open _ _ _ _ _ _ Hg).
    destruct (deviceGuard user req);
      rewrite ?(commit_after_gate _ _ _ _ _ _ _ _ _ _ Ha Hg);
      (split; [cbn; auto | discriminate]).
Qed.

Lemma validateRequest_ext env env' req :
  isValidObjectId env' (sessionId req) = isValidObjectId env (sessionId req) ->
  validateRequest env' req = validateRequest env req.
Proof. intros H. unfold validateRequest. rewrite H. reflexivity. Qed.

Lemma missing_string_false (v : JsValue) :
  missing_string v = false ->
  exists s, v = JString s /\ s <> "" /\ trim_is_empty s = false.
Proof.
  unfold missing_string. intros H.
  destruct v as [ | | b | n | s | props]; cbn in H;
    rewrite ?orb_true_r in H; try discriminate H.
  exists s. split; [reflexivity|].
  destruct (String.eqb_spec s ""); [discriminate H|].
  split; [assumption|]. destruct (trim_is_empty s); [discriminate H | reflexivity].
Qed.

(** What a request that passes validation looks like. *)
Lemma validateRequest_passed env req :
  validateRequest env req = None ->
  validationErrors req = []
  /\ (exists d, deviceId req = JString d /\ d <> "" /\ trim_is_empty d = false)
  /\ (exists u, userAgent req = JString u /\ u <> "" /\ trim_is_empty u = false)
  /\ (exists props, userLocation req = JObject props)
  /\ (exists x y, get (userLocation req) "latitude" = JNum x
                  /\ get (userLocation req) "longitude" = JNum y
                  /\ num_is_zero x && num_is_zero y = false)
  /\ (exists q, accuracy req = JNum (JFinite q) /\ (0 < q)%Q /\ (q <= 1000)%Q)
  /\ role req <> "PLATFORM_OWNER"
  /\ isValidObjectId env (sessionId req) = true.
Proof.
  unfold validateRequest. intros H.
  destruct (validationErrors req); cbn [negb] in H; [|discriminate H].
  destruct (missing_string (deviceId req)) eqn:Ed; [discriminate H|].
  destruct (missing_string (userAgent req)) eqn:Eu; [discriminate H|].
  destruct (negb (truthy (userLocation req))
            || negb (is_type (userLocation req) TObject)) eqn:El; [discriminate H|].
  destruct (negb (is_type (get (userLocation req) "latitude") TNumber)
            || negb (is_type (get (userLocation req) "longitude") TNumber)) eqn:Ec;
    [discriminate H|].
  destruct (strict_eq (get (userLocation req) "latitude") zero
            && strict_eq (get (userLocation req) "longitude") zero) eqn:Ez;
    [discriminate H|].
  destruct (negb (is_type (accuracy req) TNumber)
            || isNaN (number_of (accuracy req))
            || strict_eq (accuracy req) JUndefined
            || strict_eq (accuracy req) JNull) eqn:Ea; [discriminate H|].
  destruct (num_leb (number_of (accuracy req)) (JFinite 0)
            || num_gtb (number_of (accuracy req)) (JFinite 1000)) eqn:Er;
    [discriminate H|].
  destruct (String.eqb_spec (role req) "PLATFORM_OWNER") as [|Hrole];
    [discriminate H|].
  destruct (isValidObjectId env (sessionId req)) eqn:Ei; [|discriminate H].
  split; [reflexivity|].
  split; [exact (missing_string_false _ Ed)|].
  split; [exact (missing_string_false _ Eu)|].
  split.
  { destruct (userLocation req) as [ | | b | n | s | props];
      cbn in El; rewrite ?orb_true_r in El; try discriminate El.
    now exists props. }
  split.
  { destruct (get (userLocation req) "latitude") as [ | | b | x | s | p];
      try discriminate Ec.
    destruct (get (userLocation req) "longitude") as [ | | b | y | s | p];
      try discriminate Ec.
    exists x, y. split; [reflexivity|]. split; [reflexivity|].
    destruct x as [| |x], y as [| |y]; try reflexivity; exact Ez. }
  split.
  { destruct (accuracy req) as [ | | b | n | s | p]; try discriminate Ea.
    destruct n as [ | neg | q]; [discriminate Ea | destruct neg; discriminate Er |].
    exists q. split; [reflexivity|]. cbn in Er.
    apply orb_false_iff in Er as [E0 E1]. apply negb_false_iff in E1.
    split.
    - apply Qnot_le_lt. intros Hle. apply Qle_bool_iff in Hle. congruence.
    - now apply Qle_bool_iff. }
  split; [exact Hrole | reflexivity].
Qed.

(** A 201 comes from a cleared attempt only. *)
Lemma created_inv env w req :
  status (response (markAttendance env w req)) = 201 ->
  exists user session late lateBy assignment result calls,
    cleared env w req user session late lateBy assignment result calls
    /\ ((deviceGuard user req = DeviceMatches
         /\ markAttendance env w req
            = created env req session assignment result late lateBy w
                ((loads req ++ [duplicateQuery env req session]) ++ calls))
        \/ (exists user',
              deviceGuard user req = RegisterDevice user'
              /\ markAttendance env w req
                 = created env req session assignment result late lateBy
                     (saveUser w user')
                     (((loads req ++ [duplicateQuery env req session]) ++ calls)
                        ++ [SaveUser user']))).
Proof.
  intros H.
  destruct (markAttendance_outcome env w req)
    as [(_ & _ & Hn) | (user & session & late & lateBy & assignment & result
                        & calls & Hc & Hd)]; [contradiction|].
  exists user, session, late, lateBy, assignment, result, calls.
  split; [exact Hc|].
  pose proof (markAttendance_cleared _ _ _ _ _ _ _ _ _ _ Hc) as Hm.
  cbv zeta in Hm.
  destruct Hd as [Hd | [user' Hd]]; rewrite Hd in Hm.
  - left. split; assumption.
  - right. exists user'. split; assumption.
Qed.

Lemma find_replaceFirst_other {A : Type} (p q : A -> bool) (x : A) (l : list A) :
  (forall z, q z = true -> p z = false) ->
  p x = false ->
  find p (replaceFirst q x l) = find p l.
Proof.
  intros Hq Hx. induction l as [|z l IH]; [reflexivity|].
  cbn. destruct (q z) eqn:Ez.
  - cbn. rewrite Hx, (Hq z Ez). reflexivity.
  - cbn. rewrite IH. reflexivity.
Qed.

Lemma deviceGuard_registers user req user' :
  deviceGuard user req = RegisterDevice user' -> user' = registeredAs user req.
Proof.
  unfold deviceGuard. intros H.
  repeat match type of H with
         | context [if ?c then _ else _] => destruct c
         end; inversion H; reflexivity.
Qed.

(** The collections after a successful check-in that started from [w]:
    [w0] is [w], or [w] with the user's device registered. *)
Lemma created_lookups env req session assignment result late lateBy w w0 tr user user0 :
  findUserById w (userId req) = Some user ->
  findSessionById w (sessionId req) = Some session ->
  (w0 = w /\ user0 = user
   \/ w0 = saveUser w (registeredAs user req) /\ user0 = registeredAs user req) ->
  let w1 := final (created env req session assignment result late lateBy w0 tr) in
  findUserById w1 (userId req) = Some user0
  /\ findSessionById w1 (sessionId req)
     = Some (rosterAfter session assignment (userId req) late)
  /\ attendance w1 = attendance w ++ [recordOf env req result late lateBy]
  /\ (forall uid', uid' <> userId req -> findUserById w1 uid' = findUserById w uid')
  /\ (forall sid', sid' <> sessionId req ->
                   findSessionById w1 sid' = findSessionById w sid').
Proof.
  intros Hu Hs Hw0. cbv zeta.
  pose proof (find_some _ _ Hu) as [_ Huid]. apply String.eqb_eq in Huid.
  pose proof (find_some _ _ Hs) as [_ Hsid]. apply String.eqb_eq in Hsid.
  assert (Hsess : forall w', sessions w' = sessions w ->
            find (fun s => (Session.id s =? sessionId req)%string)
                 (replaceFirst
                    (fun v => (Session.id v
                                =? Session.id (rosterAfter session assignment
                                                           (userId req) late))%string)
                    (rosterAfter session assignment (userId req) late) (sessions w'))
            = Some (rosterAfter session assignment (userId req) late)).
  { intros w' ->. apply (find_replaceFirst _ _ _ session); [exact Hs | |].
    - intros z. cbn. rewrite Hsid. reflexivity.
    - cbn. rewrite Hsid. apply String.eqb_refl. }
  assert (Hsother : forall w' sid', sessions w' = sessions w -> sid' <> sessionId req ->
            find (fun s => (Session.id s =? sid')%string)
                 (replaceFirst
                    (fun v => (Session.id v
                                =? Session.id (rosterAfter session assignment
                                                           (userId req) late))%string)
                    (rosterAfter session assignment (userId req) late) (sessions w'))
            = find (fun s => (Session.id s =? sid')%string) (sessions w)).
  { intros w' sid' -> Hne. apply find_replaceFirst_other.
    - intros z Hz. cbn in Hz. apply String.eqb_eq in Hz.
      apply String.eqb_neq. congruence.
    - cbn. apply String.eqb_neq. congruence. }
  unfold findUserById, findSessionById, created, saveSession, insertAttendance.
  cbn [final users sessions attendance].
  destruct Hw0 as [[-> ->] | [-> ->]].
  - split; [exact Hu|]. split; [now apply Hsess|]. split; [reflexivity|].
    split; [reflexivity|]. intros sid' Hne. now apply Hsother.
  - unfold saveUser. cbn [users sessions attendance].
    split.
    { apply (find_replaceFirst _ _ _ user); [exact Hu | |].
      - intros z. cbn. rewrite Huid. reflexivity.
      - cbn. rewrite Huid. apply String.eqb_refl. }
    split; [now apply (Hsess (saveUser w (registeredAs user req)))|].
    split; [reflexivity|]. split.
    + intros uid' Hne. apply find_replaceFirst_other.
      * intros z Hz. cbn in Hz. apply String.eqb_eq in Hz.
        apply String.eqb_neq. congruence.
      * cbn. apply String.eqb_neq. congruence.
    + intros sid' Hne. now apply (Hsother (saveUser w (registeredAs user req))).
Qed.

(** A successful run, its collections afterwards. *)
Lemma created_world env w req :
  status (response (markAttendance env w req)) = 201 ->
  exists user user0 session late lateBy assignment result calls,
    cleared env w req user session late lateBy assignment result calls
    /\ body (response (markAttendance env w req))
       = Created (recordOf env req result late lateBy)
    /\ (deviceGuard user req = DeviceMatches /\ user0 = user
        \/ deviceGuard user req = RegisterDevice (registeredAs user req)
           /\ user0 = registeredAs user req)
    /\ findUserById (final (markAttendance env w req)) (userId req) = Some user0
    /\ findSessionById (final (markAttendance env w req)) (sessionId req)
       = Some (rosterAfter session assignment (userId req) late)
    /\ attendance (final (markAttendance env w req))
       = attendance w ++ [recordOf env req result late lateBy]
    /\ (forall uid', uid' <> userId req ->
          findUserById (final (markAttendance env w req)) uid' = findUserById w uid')
    /\ (forall sid', sid' <> sessionId req ->
          findSessionById (final (markAttendance env w req)) sid'
          = findSessionById w sid').
Proof.
  intros H.
  destruct (created_inv env w req H)
    as (user & session & late & lateBy & assignment & result & calls & Hc & Hd).
  pose proof Hc as (((_ & Hu & Hs) & _) & _).
  destruct Hd as [[Hd Hm] | (user' & Hd & Hm)].
  - exists user, user, session, late, lateBy, assignment, result, calls.
    rewrite Hm.
    destruct (created_lookups env req session assignment result late lateBy w w
                ((loads req ++ [duplicateQuery env req session]) ++ calls)
                user user Hu Hs (or_introl (conj eq_refl eq_refl)))
      as (H1 & H2 & H3 & H4 & H5).
    split; [exact Hc|]. split; [reflexivity|]. split; [left; now split|].
    repeat split; assumption.
  - pose proof (deviceGuard_registers _ _ _ Hd). subst user'.
    exists user, (registeredAs user req), session, late, lateBy, assignment,
      result, calls.
    rewrite Hm.
    destruct (created_lookups env req session assignment result late lateBy w
                (saveUser w (registeredAs user req))
                (((loads req ++ [duplicateQuery env req session]) ++ calls)
                   ++ [SaveUser (registeredAs user req)])
                user (registeredAs user req) Hu Hs
                (or_intror (conj eq_refl eq_refl)))
      as (H1 & H2 & H3 & H4 & H5).
    split; [exact Hc|]. split; [reflexivity|]. split; [right; now split|].
    repeat split; assumption.
Qed.

Lemma isSessionDateToday_same_day env env' s :
  dayOf (nowInIST env') = dayOf (nowInIST env) ->
  isSessionDateToday env' s = isSessionDateToday env s.
Proof.
  intros H.
  unfold isSessionDateToday, isWithinDateRange, todayDayName, todayIST, getDay,
    startOfDay.
  rewrite H. reflexivity.
Qed.

(** X2.  A check-in that succeeded is not accepted twice: the same request,
    sent again at any instant of the same local day, finds the stored record
    and is answered "already marked" right after the duplicate query, with no
    verification call and nothing written. *)
Theorem repeated_attempt_is_duplicate (env env' : Env) (w : World) (req : Request) :
  status (response (markAttendance env w req)) = 201 ->
  isValidObjectId env' (sessionId req) = true ->
  dayOf (nowInIST env') = dayOf (nowInIST env) ->
  let w1 := final (markAttendance env w req) in
  exists session',
    findSessionById w1 (sessionId req) = Some session'
    /\ markAttendance env' w1 req
       = mkOutcome (rejectMsg 400 "You have already marked attendance for this session.")
                   (loads req ++ [duplicateQuery env' req session']) w1.
Proof.
  intros Hok Hid Hday. cbv zeta.
  destruct (created_world env w req Hok)
    as (user & user0 & session & late & lateBy & assignment & result & calls
        & Hc & _ & _ & Hu1 & Hs1 & Ha1 & _).
  pose proof Hc as (((Hv & _ & _) & Ht & _) & _).
  exists (rosterAfter session assignment (userId req) late).
  split; [exact Hs1|].
  assert (Hl : loaded env' (final (markAttendance env w req)) req user0
                      (rosterAfter session assignment (userId req) late)).
  { split; [|split; assumption].
    rewrite (validateRequest_ext env env'); [exact Hv|].
    destruct (validateRequest_passed _ _ Hv) as (_ & _ & _ & _ & _ & _ & _ & Hi).
    congruence. }
  rewrite (markAttendance_loaded _ _ _ _ _ Hl).
  rewrite (isSessionDateToday_same_day env env' _ Hday).
  change (isSessionDateToday env (rosterAfter session assignment (userId req) late))
    with (isSessionDateToday env session).
  rewrite Ht. cbn [negb]. cbv zeta.
  destruct (find_exists
              (duplicateFilter env' req (rosterAfter session assignment (userId req) late))
              (attendance (final (markAttendance env w req)))) as [y Hy].
  { exists (recordOf env req result late lateBy). split.
    - rewrite Ha1. apply in_or_app. right. now left.
    - apply duplicateFilter_spec. repeat split. intros _.
      unfold sameLocalDay. cbn [recordOf Attendance.checkInTime].
      symmetry. exact Hday. }
  unfold existingAttendance. rewrite Hy. reflexivity.
Qed.

(** The scenario's check-in at 10:00 IST, repeated at 23:00 IST of that
    day. *)
Lemma repeated_attempt_is_duplicate_witness :
  let w := Scenario.world Scenario.registered Scenario.physical [] in
  let later := {| nowUTC := Scenario.now + 13 * MS_PER_HOUR;
                  findSettings := SettingsNone;
                  verifyLocation := fun _ => Threw None;
                  isValidObjectId := fun _ => true |} in
  status (response (markAttendance later
                      (final (markAttendance Scenario.env0 w Scenario.request))
                      Scenario.request)) = 400.
Proof.
  cbv zeta.
  destruct (repeated_attempt_is_duplicate Scenario.env0
              {| nowUTC := Scenario.now + 13 * MS_PER_HOUR;
                 findSettings := SettingsNone;
                 verifyLocation := fun _ => Threw None;
                 isValidObjectId := fun _ => true |}
              (Scenario.world Scenario.registered Scenario.physical [])
              Scenario.request)
    as (s' & _ & Hm).
  - reflexivity.
  - reflexivity.
  - reflexivity.
  - rewrite Hm. reflexivity.
Defined.

(** X3.  [markAttendance] touches nothing but its own.  In a run in which
    every record handed to [save()] is one that the Attendance schema
    accepts (database operations succeeding), either it refuses and leaves
    the collections as they were, or it answers 201 and then the attendance
    collection has grown by exactly the new record of this user, this session
    and this instant, while every other user document and every other
    session document is what it was.  (A record with NaN on a Number path is
    refused by the schema after the device may have been registered; of such
    a run nothing is said here.) *)
Theorem check_in_frame (env : Env) (w : World) (req : Request) :
  savesAccepted (trace (markAttendance env w req)) = true ->
  let out := markAttendance env w req in
  refused w out
  \/ exists a,
       response out = mkResponse 201 (Created a)
       /\ storable a = true
       /\ attendance (final out) = attendance w ++ [a]
       /\ Attendance.userId a = userId req
       /\ Attendance.sessionId a = sessionId req
       /\ Attendance.checkInTime a = nowUTC env
       /\ (forall uid', uid' <> userId req ->
             findUserById (final out) uid' = findUserById w uid')
       /\ (forall sid', sid' <> sessionId req ->
             findSessionById (final out) sid' = findSessionById w sid').
Proof.
  intros Hsave. cbv zeta.
  destruct (markAttendance_outcome env w req)
    as [Hr | (user & session & late & lateBy & assignment & result & calls
              & Hc & Hd)]; [now left|].
  right.
  assert (Hok : status (response (markAttendance env w req)) = 201).
  { rewrite (markAttendance_cleared _ _ _ _ _ _ _ _ _ _ Hc). cbv zeta.
    destruct Hd as [-> | [user' ->]]; reflexivity. }
  destruct (created_world env w req Hok)
    as (u & u0 & s & l & lb & asg & res & cs & Hc' & Hb & Hd' & _ & _ & Ha & Hu & Hs).
  exists (recordOf env req res l lb).
  split.
  { destruct (response (markAttendance env w req)) as [st b]. cbn in *. congruence. }
  split.
  { unfold savesAccepted in Hsave. rewrite forallb_forall in Hsave.
    apply (Hsave (SaveAttendance (recordOf env req res l lb))).
    rewrite (markAttendance_cleared _ _ _ _ _ _ _ _ _ _ Hc'). cbv zeta.
    destruct Hd' as [[-> _] | [-> _]]; unfold created; cbn [trace];
      rewrite !in_app_iff; cbn [In]; auto. }
  repeat split; assumption.
Qed.

(** The scenario's check-in: one record, of the scenario's user. *)
Lemma check_in_frame_witness :
  exists a,
    attendance (final (markAttendance Scenario.env0
                         (Scenario.world Scenario.registered Scenario.physical [])
                         Scenario.request))
    = [a]
    /\ Attendance.userId a = Scenario.uid.
Proof.
  assert (Hs : savesAccepted
                 (trace (markAttendance Scenario.env0
                           (Scenario.world Scenario.registered Scenario.physical [])
                           Scenario.request)) = true)
    by (vm_compute; reflexivity).
  destruct (check_in_frame Scenario.env0
              (Scenario.world Scenario.registered Scenario.physical [])
              Scenario.request Hs)
    as [(_ & _ & Hn) | (a & _ & _ & Ha & Hu & _)].
  - exfalso. apply Hn. reflexivity.
  - exists a. split; [exact Ha | exact Hu].
Defined.

(** X4.  After a 201 the stored session carries the check-in on its roster:
    the entry of the user reads Present, it is late when the check-in was
    late (and stays late if it was so before), the mode is kept, and every
    other entry of the roster is unchanged. *)
Theorem roster_follows_check_in (env : Env) (w : World) (req : Request) :
  status (response (markAttendance env w req)) = 201 ->
  exists session assignment a session',
    findSessionById w (sessionId req) = Some session
    /\ findAssignment session (userId req) = Some assignment
    /\ body (response (markAttendance env w req)) = Created a
    /\ findSessionById (final (markAttendance env w req)) (sessionId req)
       = Some session'
    /\ findAssignment session' (userId req)
       = Some {| Assignment.userId := Assignment.userId assignment;
                 Assignment.mode := Assignment.mode assignment;
                 Assignment.attendanceStatus := "Present";
                 Assignment.isLate :=
                   Attendance.isLate a || Assignment.isLate assignment |}
    /\ (forall uid', uid' <> userId req ->
          findAssignment session' uid' = findAssignment session uid')
    /\ Session.frequency session' = Session.frequency session
    /\ Session.sessionType session' = Session.sessionType session
    /\ List.length (Session.assignedUsers session')
       = List.length (Session.assignedUsers session).
Proof.
  intros Hok.
  destruct (created_world env w req Hok)
    as (user & user0 & session & late & lateBy & assignment & result & calls
        & Hc & Hb & _ & _ & Hs1 & _).
  pose proof Hc as (((_ & _ & Hs) & _) & _ & _ & Ha & _).
  exists session, assignment, (recordOf env req result late lateBy),
    (rosterAfter session assignment (userId req) late).
  pose proof (find_some _ _ Ha) as [_ Hid]. apply String.eqb_eq in Hid.
  split; [exact Hs|]. split; [exact Ha|]. split; [exact Hb|].
  split; [exact Hs1|]. split.
  { unfold findAssignment, rosterAfter. cbn [withAssignedUsers Session.assignedUsers].
    rewrite (find_replaceFirst _ _ (markPresent late assignment) assignment);
      [destruct late; reflexivity | exact Ha | reflexivity |].
    cbn. rewrite Hid. apply String.eqb_refl. }
  split.
  { intros uid' Hne. unfold findAssignment, rosterAfter.
    cbn [withAssignedUsers Session.assignedUsers].
    apply find_replaceFirst_other.
    - intros z Hz. apply String.eqb_eq in Hz. apply String.eqb_neq. congruence.
    - cbn. apply String.eqb_neq. congruence. }
  split; [reflexivity|]. split; [reflexivity|].
  unfold rosterAfter. cbn [withAssignedUsers Session.assignedUsers].
  generalize (markPresent late assignment).
  induction (Session.assignedUsers session) as [|z l IH]; intros x; [reflexivity|].
  cbn. destruct (Assignment.userId z =? userId req)%string; cbn; [reflexivity|].
  now rewrite IH.
Qed.

(** A late check-in of the scenario: the roster entry becomes Present and
    late. *)
Lemma roster_follows_check_in_witness :
  let nine := Scenario.session OneTime SessionType.PHYSICAL Mode.PHYSICAL (9, 0) []
                               Scenario.coordsLocation in
  let out := markAttendance Scenario.env0
               (Scenario.world Scenario.registered nine []) Scenario.request in
  exists session',
    findSessionById (final out) Scenario.sid = Some session'
    /\ option_map Assignment.attendanceStatus (findAssignment session' Scenario.uid)
       = Some "Present"
    /\ option_map Assignment.isLate (findAssignment session' Scenario.uid)
       = Some true.
Proof.
  cbv zeta.
  destruct (roster_follows_check_in Scenario.env0
              (Scenario.world Scenario.registered
                 (Scenario.session OneTime SessionType.PHYSICAL Mode.PHYSICAL (9, 0) []
                                   Scenario.coordsLocation) [])
              Scenario.request eq_refl)
    as (session & assignment & a & session' & Hs & Ha & Hb & Hs' & Ha' & _).
  exists session'. split; [exact Hs'|].
  vm_compute in Hb. inversion Hb; subst a. clear Hb.
  change (userId Scenario.request) with Scenario.uid in Ha'.
  rewrite Ha'. split; reflexivity.
Defined.

(** X5.  When verification is required and [verifyLocation] throws, the
    attempt is answered 403 with reason MAPMYINDIA_VERIFICATION_FAILED and
    the message of the error, word for word; an error without message, or
    with an empty one, gives the standard message.  The call is the last
    operation: nothing is written. *)
Theorem verification_failure_is_reported (env : Env) (w : World) (req : Request)
    (user : User.t) (session : Session.t) (late : bool) (lateBy : option Z)
    (assignment : Assignment.t) (message : option string) :
  scheduled env w req user session ->
  tooEarly env session = None ->
  lateness (timeDifferenceMs env session) (lateAttendanceLimit env)
           (isStrictAttendance env) = Accepted late lateBy ->
  findAssignment session (userId req) = Some assignment ->
  isLocationRequired session assignment = true ->
  verifyLocation env (verifyArgs req session) = Threw message ->
  let text :=
    match message with
    | Some "" | None => "Unable to verify location at this time. Attendance not marked."
    | Some m => m
    end in
  markAttendance env w req
  = mkOutcome (reject 403 text "MAPMYINDIA_VERIFICATION_FAILED")
              ((loads req ++ [duplicateQuery env req session])
                 ++ [VerifyLocationCall (verifyArgs req session)])
              w.
Proof.
  intros Hs Hw Hl Ha Hr Hthrow. cbv zeta.
  pose proof Hs as ((Hv & _) & _).
  rewrite (markAttendance_scheduled _ _ _ _ _ Hs), Hw, Hl, Ha. cbv zeta.
  unfold locationGate.
  rewrite Hr, (validated_location_data _ _ Hv), Hthrow.
  unfold verificationFailed.
  destruct message as [m|]; [|reflexivity].
  destruct m; reflexivity.
Qed.

Lemma verification_failure_is_reported_witness :
  response (markAttendance Scenario.envRefusing
              (Scenario.world Scenario.registered Scenario.physical [])
              Scenario.request)
  = reject 403 "Location verification failed." "MAPMYINDIA_VERIFICATION_FAILED".
Proof.
  rewrite (verification_failure_is_reported Scenario.envRefusing
             (Scenario.world Scenario.registered Scenario.physical [])
             Scenario.request Scenario.registered Scenario.physical false None
             (Scenario.assigned Mode.PHYSICAL)
             (Some "Location verification failed.")).
  - reflexivity.
  - repeat split.
  - reflexivity.
  - reflexivity.
  - reflexivity.
  - reflexivity.
  - reflexivity.
Defined.

(** X6.  A user who is not on the roster of the session never checks in:
    the attempt is refused, nothing is written, and the location
    verification is not called; when the attempt gets as far as the roster,
    the answer is 403 "not assigned". *)
Theorem unassigned_user_is_refused (env : Env) (w : World) (req : Request)
    (session : Session.t) :
  findSessionById w (sessionId req) = Some session ->
  findAssignment session (userId req) = None ->
  let out := markAttendance env w req in
  refused w out
  /\ noVerifyCall (trace out)
  /\ (forall user late lateBy,
        scheduled env w req user session ->
        tooEarly env session = None ->
        lateness (timeDifferenceMs env session) (lateAttendanceLimit env)
                 (isStrictAttendance env) = Accepted late lateBy ->
        response out = rejectMsg 403 "You are not assigned to this session.").
Proof.
  intros Hs Ha. cbv zeta. split; [|split].
  - destruct (markAttendance_outcome env w req)
      as [Hr | (user & session' & late & lateBy & assignment & result & calls
                & Hc & _)]; [exact Hr|].
    exfalso. destruct Hc as (((_ & _ & Hs') & _) & _ & _ & Ha' & _).
    congruence.
  - intros args H. unfold markAttendance in H. rewrite Hs in H.
    destruct (validateRequest env req); [not_saved H|].
    destruct (findUserById w (userId req)) as [user|]; [|not_saved H].
    destruct (isSessionDateToday env session); cbn [negb] in H; [|not_saved H].
    cbv zeta in H.
    destruct (existingAttendance env w req session); [not_saved H|].
    destruct (tooEarly env session) eqn:Hw.
    { unfold tooEarly in Hw. destruct (_ <? _); inversion Hw; subst. not_saved H. }
    destruct (lateness _ _ _); [|not_saved H].
    rewrite Ha in H. not_saved H.
  - intros user late lateBy Hsch Hw Hl.
    rewrite (markAttendance_scheduled _ _ _ _ _ Hsch), Hw, Hl, Ha. reflexivity.
Qed.

(** The scenario's user against a session whose roster is empty. *)
Lemma unassigned_user_is_refused_witness :
  let s := withAssignedUsers Scenario.physical [] in
  let w := Scenario.world Scenario.registered s [] in
  response (markAttendance Scenario.env0 w Scenario.request)
  = rejectMsg 403 "You are not assigned to this session.".
Proof.
  cbv zeta.
  destruct (unassigned_user_is_refused Scenario.env0
              (Scenario.world Scenario.registered
                 (withAssignedUsers Scenario.physical []) [])
              Scenario.request (withAssignedUsers Scenario.physical [])
              eq_refl eq_refl)
    as (_ & _ & H).
  apply (H Scenario.registered false None).
  - repeat split.
  - reflexivity.
  - reflexivity.
Defined.

(** X7.  The first device is binding.  After the first successful check-in
    of a user without registered device, the user document holds the
    presented device identifier and user agent, and any later attempt of
    that user that presents another device identifier is refused, whatever
    its time, session, location and user agent are, and writes nothing. *)
Theorem first_device_is_binding (env env' : Env) (w : World) (req req' : Request)
    (user : User.t) :
  findUserById w (userId req) = Some user ->
  truthy (User.registeredDeviceId user) = false ->
  status (response (markAttendance env w req)) = 201 ->
  userId req' = userId req ->
  deviceId req' <> deviceId req ->
  let w1 := final (markAttendance env w req) in
  findUserById w1 (userId req) = Some (registeredAs user req)
  /\ refused w1 (markAttendance env' w1 req').
Proof.
  intros Hu Hnew Hok Hsame Hdiff. cbv zeta.
  destruct (created_world env w req Hok)
    as (user1 & user0 & session & late & lateBy & assignment & result & calls
        & Hc & _ & Hu0 & Hu1 & _).
  pose proof Hc as (((Hv & Hu' & _) & _) & _).
  rewrite Hu in Hu'. inversion Hu'; subst user1. clear Hu'.
  destruct Hu0 as [[Hd _] | [_ ->]].
  { exfalso. unfold deviceGuard in Hd. rewrite Hnew in Hd. discriminate Hd. }
  split; [exact Hu1|].
  destruct (markAttendance_outcome env' (final (markAttendance env w req)) req')
    as [Hr | (user' & session' & late' & lateBy' & assignment' & result' & calls'
              & Hc' & Hd')]; [exact Hr|].
  exfalso.
  destruct Hc' as (((_ & Hu' & _) & _) & _).
  rewrite Hsame, Hu1 in Hu'. inversion Hu'; subst user'. clear Hu'.
  destruct (validateRequest_passed _ _ Hv) as (_ & (d & Hdev & Hne & _) & _).
  unfold deviceGuard in Hd'. cbn [registeredAs User.registeredDeviceId] in Hd'.
  rewrite Hdev, (truthy_string _ Hne) in Hd'. cbn [negb] in Hd'.
  rewrite strict_eq_string_false in Hd' by congruence.
  cbn [negb] in Hd'. destruct Hd' as [Hd' | [u Hd']]; discriminate Hd'.
Qed.

(** The newcomer of the scenario checks in from "device123"; the next day's
    attempt from "device456" is refused. *)
Lemma first_device_is_binding_witness :
  let w := Scenario.world Scenario.newcomer Scenario.physical [] in
  let w1 := final (markAttendance Scenario.env0 w Scenario.request) in
  let other :=
    {| validationErrors := [];
       userId := Scenario.uid;
       role := "User";
       sessionId := Scenario.sid;
       userLocation := Scenario.delhi;
       deviceId := JString "device456";
       userAgent := JString "Mozilla/5.0";
       accuracy := JNum (JFinite 20) |} in
  refused w1 (markAttendance Scenario.env0 w1 other).
Proof.
  cbv zeta.
  apply (first_device_is_binding Scenario.env0 Scenario.env0
           (Scenario.world Scenario.newcomer Scenario.physical [])
           Scenario.request _ Scenario.newcomer).
  - reflexivity.
  - reflexivity.
  - reflexivity.
  - reflexivity.
  - discriminate.
Defined.

(** X8.  For a REMOTE session, and for a HYBRID session with a user
    assigned in REMOTE mode, [markAttendance] never calls the location
    verification; a record it stores is marked [locationVerified = true] by
    policy and carries no verification snapshot. *)
Theorem remote_check_in_by_policy (env : Env) (w : World) (req : Request)
    (session : Session.t) (assignment : Assignment.t) :
  findSessionById w (sessionId req) = Some session ->
  findAssignment session (userId req) = Some assignment ->
  Session.sessionType session = SessionType.REMOTE
  \/ (Session.sessionType session = SessionType.HYBRID
      /\ Assignment.mode assignment = Mode.REMOTE) ->
  let out := markAttendance env w req in
  noVerifyCall (trace out)
  /\ (forall a, In (SaveAttendance a) (trace out) ->
        Attendance.locationVerified a = true
        /\ Attendance.reverseGeocodeSnapshot a = None
        /\ Attendance.confidenceScore a = JUndefined
        /\ Attendance.accuracyRadius a = JUndefined).
Proof.
  intros Hs Ha Htype. cbv zeta.
  assert (Hr : isLocationRequired session assignment = false).
  { unfold isLocationRequired.
    destruct Htype as [-> | [-> ->]]; reflexivity. }
  split; [exact (proj1 (remote_never_verified env w req session assignment Hs Ha Hr))|].
  intros a H.
  apply markAttendance_saved in H
    as (user & session' & late & lateBy & assignment' & result & calls
        & Hc & -> & _).
  destruct Hc as (((_ & _ & Hs') & _) & _ & _ & Ha' & Hg).
  rewrite Hs in Hs'. inversion Hs'; subst session'.
  rewrite Ha in Ha'. inversion Ha'; subst assignment'.
  apply locationGate_open in Hg as [_ [(Hr' & _) | (_ & _ & ->)]]; [congruence|].
  repeat split.
Qed.

Lemma remote_check_in_by_policy_witness :
  let remote := Scenario.session OneTime SessionType.REMOTE Mode.REMOTE (11, 0) [] None in
  let out := markAttendance Scenario.envRefusing
               (Scenario.world Scenario.registered remote []) Scenario.request in
  status (response out) = 201 /\ noVerifyCall (trace out).
Proof.
  cbv zeta. split; [reflexivity|].
  destruct (remote_check_in_by_policy Scenario.envRefusing
              (Scenario.world Scenario.registered
                 (Scenario.session OneTime SessionType.REMOTE Mode.REMOTE (11, 0) [] None)
                 [])
              Scenario.request
              (Scenario.session OneTime SessionType.REMOTE Mode.REMOTE (11, 0) [] None)
              (Scenario.assigned Mode.REMOTE) eq_refl eq_refl (or_introl eq_refl))
    as (H & _).
  exact H.
Defined.

(** White space beyond ASCII is white space: a device id of two no-break
    spaces (U+00A0), or of a line separator (U+2028) and a space, is refused
    as missing. *)
Lemma blank_beyond_ascii (env : Env) (w : World) (req : Request) :
  validationErrors req = [] ->
  deviceId req = JString (noBreakSpace ++ noBreakSpace)
  \/ deviceId req = JString (lineSeparator ++ " ") ->
  markAttendance env w req
  = mkOutcome (reject 400 "Device ID is required. Please refresh the page and try again."
                      "MISSING_DEVICE_ID") [] w.
Proof.
  intros He [Hd | Hd]; unfold markAttendance, validateRequest; rewrite He, Hd;
    reflexivity.
Qed.

(** X9.  Every attendance record that [markAttendance] stores stems from a
    well-formed request: it is the record of the requesting user and session
    at the instant of the request, its device identifier is a string that is
    not blank (white space being that of [String.prototype.trim], beyond
    ASCII as well), its location holds the two coordinates of the request
    and nothing else, two numbers that are not both zero, it is marked
    verified, and it has a number of minutes late exactly when it is marked
    late, that number being the whole minutes elapsed since the session
    start. *)
Theorem stored_record_well_formed (env : Env) (w : World) (req : Request)
    (a : Attendance.t) :
  In (SaveAttendance a) (trace (markAttendance env w req)) ->
  Attendance.userId a = userId req
  /\ Attendance.sessionId a = sessionId req
  /\ Attendance.checkInTime a = nowUTC env
  /\ Attendance.locationVerified a = true
  /\ (exists d, Attendance.deviceId a = JString d /\ trim_is_empty d = false)
  /\ (exists x y, get (Attendance.userLocation a) "latitude" = JNum x
                  /\ get (Attendance.userLocation a) "longitude" = JNum y
                  /\ num_is_zero x && num_is_zero y = false
                  /\ get (userLocation req) "latitude" = JNum x
                  /\ get (userLocation req) "longitude" = JNum y
                  /\ Attendance.userLocation a
                     = JObject [("latitude", JNum x); ("longitude", JNum y)])
  /\ (exists session,
        findSessionById w (sessionId req) = Some session
        /\ Attendance.lateByMinutes a
           = if Attendance.isLate a
             then Some (timeDifferenceMs env session / MS_PER_MINUTE)
             else None).
Proof.
  intros H.
  apply markAttendance_saved in H
    as (user & session & late & lateBy & assignment & result & calls
        & Hc & -> & _).
  destruct Hc as (((Hv & _ & Hs) & _) & _ & Hl & _).
  destruct (validateRequest_passed _ _ Hv)
    as (_ & (d & Hd & _ & Hd') & _ & _ & (x & y & Hx & Hy & Hz) & _).
  split; [reflexivity|]. split; [reflexivity|]. split; [reflexivity|].
  split; [reflexivity|].
  split; [exists d; split; assumption|].
  split.
  { exists x, y. cbn [recordOf Attendance.userLocation]. unfold storedLocation.
    rewrite Hx, Hy. repeat split; try reflexivity. exact Hz. }
  exists session. split; [exact Hs|].
  cbn [recordOf Attendance.lateByMinutes Attendance.isLate].
  rewrite lateness_ms in Hl. unfold MS_PER_MINUTE.
  repeat match type of Hl with
         | context [if ?c then _ else _] => destruct c
         end; inversion Hl; reflexivity.
Qed.

(** The scenario's request, sent with one more key in its location: the
    record keeps the two coordinates. *)
Lemma stored_record_well_formed_witness :
  let spoofed :=
    Scenario.withLocation
      (JObject [("latitude", JNum (JFinite (286139 # 10000)));
                ("longitude", JNum (JFinite (77209 # 1000)));
                ("mocked", JBoolean true)]) in
  let out := markAttendance Scenario.env0
               (Scenario.world Scenario.registered Scenario.physical []) spoofed in
  exists a, In (SaveAttendance a) (trace out)
            /\ Attendance.userLocation a = Scenario.delhi
            /\ Attendance.userId a = Scenario.uid.
Proof.
  cbv zeta.
  exists (recordOf Scenario.env0
            (Scenario.withLocation
               (JObject [("latitude", JNum (JFinite (286139 # 10000)));
                         ("longitude", JNum (JFinite (77209 # 1000)));
                         ("mocked", JBoolean true)]))
            (Some Scenario.verified) false None).
  assert (Hin : In (SaveAttendance
                      (recordOf Scenario.env0
                         (Scenario.withLocation
                            (JObject [("latitude", JNum (JFinite (286139 # 10000)));
                                      ("longitude", JNum (JFinite (77209 # 1000)));
                                      ("mocked", JBoolean true)]))
                         (Some Scenario.verified) false None))
                   (trace (markAttendance Scenario.env0
                             (Scenario.world Scenario.registered Scenario.physical [])
                             (Scenario.withLocation
                                (JObject [("latitude", JNum (JFinite (286139 # 10000)));
                                          ("longitude", JNum (JFinite (77209 # 1000)));
                                          ("mocked", JBoolean true)])))))
    by (vm_compute; do 5 right; left; reflexivity).
  split; [exact Hin|].
  destruct (stored_record_well_formed _ _ _ _ Hin)
    as (Hu & _ & _ & _ & _ & (x & y & _ & _ & _ & Hx & Hy & Hloc) & _).
  split; [|exact Hu].
  rewrite Hloc. inversion Hx. inversion Hy. reflexivity.
Defined.

(* ------------------------------------------------------------------ *)
(** * Properties of [forceMarkAttendance] *)

(** The run of a force-mark that passed its checks. *)
Lemma forceMarkAttendance_passed env w req user session :
  f_validationErrors req = [] ->
  f_role req = "PLATFORM_OWNER" ->
  isValidObjectId env (f_sessionId req) = true ->
  isValidObjectId env (f_userId req) = true ->
  f_status req = "Present" \/ f_status req = "Absent" ->
  findUserById w (f_userId req) = Some user ->
  findSessionById w (f_sessionId req) = Some session ->
  forceMarkAttendance env w req =
  let same := sameUserAndSession (f_userId req) (f_sessionId req) in
  if (f_status req =? "Present")%string then
    let query := FindAttendance (f_userId req) (f_sessionId req) None in
    match find same (attendance w) with
    | Some existing =>
      forceFinish req session
        (withAttendance w (replaceFirst same (forceVerified existing) (attendance w)))
        (forceLoads req ++ [query; SaveAttendance (forceVerified existing)])
    | None =>
      forceFinish req session
        (insertAttendance w (forcedAttendance env req))
        (forceLoads req ++ [query; SaveAttendance (forcedAttendance env req)])
    end
  else
    forceFinish req session
      (withAttendance w (removeFirst same (attendance w)))
      (forceLoads req ++ [DeleteAttendance (f_userId req) (f_sessionId req)]).
Proof.
  intros He Hr Hs Hu Hst Hfu Hfs. unfold forceMarkAttendance.
  rewrite He, Hr, Hs, Hu, Hfu, Hfs. cbn [negb].
  destruct Hst as [-> | ->]; reflexivity.
Qed.

Lemma forceFinish_status req session w tr :
  status (response (forceFinish req session w tr)) = 200.
Proof.
  unfold forceFinish. destruct (updateRoster _ _ _); reflexivity.
Qed.

(** X10.  [forceMarkAttendance] answers 200 only to a Platform Owner whose
    request names a valid session id and user id of an existing session and
    user and a status Present or Absent, and then writes one audit log entry;
    every other request is answered 400, 403 or 404 and leaves the
    collections untouched, with no write and no audit log entry. *)
Theorem force_mark_only_by_owner (env : Env) (w : World) (req : ForceRequest) :
  let out := forceMarkAttendance env w req in
  (status (response out) = 200 ->
   f_role req = "PLATFORM_OWNER"
   /\ isValidObjectId env (f_sessionId req) = true
   /\ isValidObjectId env (f_userId req) = true
   /\ (f_status req = "Present" \/ f_status req = "Absent")
   /\ (exists user, findUserById w (f_userId req) = Some user)
   /\ (exists session, findSessionById w (f_sessionId req) = Some session)
   /\ In (AuditLogCreate "FORCE_ATTENDANCE_CORRECTION" (f_userId req)
                         (f_sessionId req) (f_status req)) (trace out))
  /\ (status (response out) <> 200 ->
      In (status (response out)) [400; 403; 404]
      /\ final out = w
      /\ forall e, In e (trace out) -> isWrite e = false /\ isAuditLog e = false).
Proof.
  cbv zeta. unfold forceMarkAttendance.
  destruct (f_validationErrors req); cbn [negb].
  2:{ split; [discriminate|]. intros _. cbn. split; [auto|]. split; [reflexivity|].
      intros e []. }
  destruct (String.eqb_spec (f_role req) "PLATFORM_OWNER") as [Hr|Hr]; cbn [negb].
  2:{ split; [discriminate|]. intros _. cbn. split; [auto|]. split; [reflexivity|].
      intros e []. }
  destruct (isValidObjectId env (f_sessionId req)) eqn:Hs; cbn [negb].
  2:{ split; [discriminate|]. intros _. cbn. split; [auto|]. split; [reflexivity|].
      intros e []. }
  destruct (isValidObjectId env (f_userId req)) eqn:Hu; cbn [negb].
  2:{ split; [discriminate|]. intros _. cbn. split; [auto|]. split; [reflexivity|].
      intros e []. }
  destruct (String.eqb_spec (f_status req) "Present") as [Hp|Hp]; cbn [negb andb].
  - destruct (findUserById w (f_userId req)) as [user|].
    2:{ split; [discriminate|]. intros _. cbn. split; [auto|]. split; [reflexivity|].
        intros e [<-|[<-|[]]]; split; reflexivity. }
    destruct (findSessionById w (f_sessionId req)) as [session|].
    2:{ split; [discriminate|]. intros _. cbn. split; [auto|]. split; [reflexivity|].
        intros e [<-|[<-|[]]]; split; reflexivity. }
    split.
    + intros _. repeat split; auto; try (eexists; reflexivity).
      unfold forceFinish.
      destruct (find _ _); destruct (updateRoster _ _ _); cbn [trace];
        rewrite !in_app_iff; cbn [In]; auto 10.
    + intros H. exfalso. apply H.
      destruct (find _ _); apply forceFinish_status.
  - destruct (String.eqb_spec (f_status req) "Absent") as [Ha|Ha]; cbn [negb].
    2:{ split; [discriminate|]. intros _. cbn. split; [auto|]. split; [reflexivity|].
        intros e []. }
    destruct (findUserById w (f_userId req)) as [user|].
    2:{ split; [discriminate|]. intros _. cbn. split; [auto|]. split; [reflexivity|].
        intros e [<-|[<-|[]]]; split; reflexivity. }
    destruct (findSessionById w (f_sessionId req)) as [session|].
    2:{ split; [discriminate|]. intros _. cbn. split; [auto|]. split; [reflexivity|].
        intros e [<-|[<-|[]]]; split; reflexivity. }
    split.
    + intros _. repeat split; auto; try (eexists; reflexivity).
      unfold forceFinish.
      destruct (updateRoster _ _ _); cbn [trace];
        rewrite !in_app_iff; cbn [In]; auto 10.
    + intros H. exfalso. apply H. apply forceFinish_status.
Qed.

Lemma forceMarkAttendance_inv env w req :
  status (response (forceMarkAttendance env w req)) = 200 ->
  exists user session,
    f_validationErrors req = []
    /\ f_role req = "PLATFORM_OWNER"
    /\ isValidObjectId env (f_sessionId req) = true
    /\ isValidObjectId env (f_userId req) = true
    /\ (f_status req = "Present" \/ f_status req = "Absent")
    /\ findUserById w (f_userId req) = Some user
    /\ findSessionById w (f_sessionId req) = Some session.
Proof.
  unfold forceMarkAttendance.
  destruct (f_validationErrors req); cbn [negb]; [|discriminate].
  destruct (String.eqb_spec (f_role req) "PLATFORM_OWNER") as [Hr|Hr]; cbn [negb];
    [|discriminate].
  destruct (isValidObjectId env (f_sessionId req)) eqn:Hs; cbn [negb]; [|discriminate].
  destruct (isValidObjectId env (f_userId req)) eqn:Hu; cbn [negb]; [|discriminate].
  destruct (String.eqb_spec (f_status req) "Present") as [Hp|Hp]; cbn [negb andb].
  - destruct (findUserById w (f_userId req)) as [user|]; [|discriminate].
    destruct (findSessionById w (f_sessionId req)) as [session|]; [|discriminate].
    intros _. exists user, session. repeat split; auto.
  - destruct (String.eqb_spec (f_status req) "Absent") as [Ha|Ha]; cbn [negb];
      [|discriminate].
    destruct (findUserById w (f_userId req)) as [user|]; [|discriminate].
    destruct (findSessionById w (f_sessionId req)) as [session|]; [|discriminate].
    intros _. exists user, session. repeat split; auto.
Qed.

Lemma forceFinish_attendance req session w tr :
  attendance (final (forceFinish req session w tr)) = attendance w.
Proof.
  unfold forceFinish. destruct (updateRoster _ _ _); reflexivity.
Qed.

Lemma forceFinish_users req session w tr :
  users (final (forceFinish req session w tr)) = users w.
Proof.
  unfold forceFinish. destruct (updateRoster _ _ _); reflexivity.
Qed.

(** The attendance collection after a force-mark that was answered 200. *)
Lemma forceMarkAttendance_attendance env w req :
  status (response (forceMarkAttendance env w req)) = 200 ->
  let same := sameUserAndSession (f_userId req) (f_sessionId req) in
  attendance (final (forceMarkAttendance env w req)) =
  if (f_status req =? "Present")%string then
    match find same (attendance w) with
    | Some existing => replaceFirst same (forceVerified existing) (attendance w)
    | None => attendance w ++ [forcedAttendance env req]
    end
  else removeFirst same (attendance w).
Proof.
  intros H. cbv zeta.
  destruct (forceMarkAttendance_inv env w req H)
    as (user & session & He & Hr & Hs & Hu & Hst & Hfu & Hfs).
  rewrite (forceMarkAttendance_passed env w req user session He Hr Hs Hu Hst Hfu Hfs).
  cbv zeta.
  destruct (f_status req =? "Present")%string.
  - destruct (find _ (attendance w)); apply forceFinish_attendance.
  - apply forceFinish_attendance.
Qed.

Lemma replaceFirst_self {A : Type} (p : A -> bool) (x : A) (l : list A) :
  find p l = Some x -> replaceFirst p x l = l.
Proof.
  induction l as [|z l IH]; [discriminate|].
  cbn. destruct (p z).
  - intros H. inversion H. reflexivity.
  - intros H. rewrite (IH H). reflexivity.
Qed.

Lemma filter_replaceFirst {A : Type} (p : A -> bool) (x : A) (l : list A) :
  p x = true ->
  List.length (filter p (replaceFirst p x l)) = List.length (filter p l).
Proof.
  intros Hx. induction l as [|z l IH]; [reflexivity|].
  cbn. destruct (p z) eqn:Ez.
  - cbn. rewrite Hx. reflexivity.
  - cbn. rewrite Ez. exact IH.
Qed.

Lemma filter_no_match {A : Type} (p : A -> bool) (l : list A) :
  find p l = None -> filter p l = [].
Proof.
  induction l as [|z l IH]; [reflexivity|].
  cbn. destruct (p z); [discriminate | exact IH].
Qed.

Lemma filter_has_match {A : Type} (p : A -> bool) (l : list A) (x : A) :
  find p l = Some x -> (1 <= List.length (filter p l))%nat.
Proof.
  induction l as [|z l IH]; [discriminate|].
  cbn. destruct (p z); cbn; [lia | exact IH].
Qed.

Lemma removeFirst_appended {A : Type} (p : A -> bool) (l : list A) (x : A) :
  find p l = None -> p x = true -> removeFirst p (l ++ [x]) = l.
Proof.
  intros Hl Hx. induction l as [|z l IH]; cbn.
  - rewrite Hx. reflexivity.
  - cbn in Hl. destruct (p z); [discriminate|]. rewrite (IH Hl). reflexivity.
Qed.

Lemma find_appended {A : Type} (p : A -> bool) (l : list A) (x : A) :
  find p l = None -> p x = true -> find p (l ++ [x]) = Some x.
Proof.
  intros Hl Hx. induction l as [|z l IH]; cbn.
  - rewrite Hx. reflexivity.
  - cbn in Hl. destruct (p z); [discriminate | exact (IH Hl)].
Qed.

Lemma filter_removeFirst {A : Type} (p : A -> bool) (l : list A) :
  List.length (filter p (removeFirst p l)) = Nat.pred (List.length (filter p l)).
Proof.
  induction l as [|z l IH]; [reflexivity|].
  cbn. destruct (p z) eqn:Ez; cbn.
  - reflexivity.
  - rewrite Ez. exact IH.
Qed.

Lemma sameUserAndSession_forceVerified uid sid a :
  sameUserAndSession uid sid (forceVerified a) = sameUserAndSession uid sid a.
Proof. reflexivity. Qed.

Lemma forceVerified_idempotent a : forceVerified (forceVerified a) = forceVerified a.
Proof. reflexivity. Qed.

(** X11.  A force-mark Present that is answered 200 leaves the user with a
    record for the session that is verified and on time, and it never adds a
    second one: the user's records for the session are as many as before,
    or one when there was none.  Forcing Present again, at any time, changes
    nothing more in the attendance collection. *)
Theorem force_present_is_idempotent (env env' : Env) (w : World) (req : ForceRequest) :
  f_status req = "Present" ->
  status (response (forceMarkAttendance env w req)) = 200 ->
  isValidObjectId env' (f_sessionId req) = true ->
  isValidObjectId env' (f_userId req) = true ->
  let w1 := final (forceMarkAttendance env w req) in
  (exists a, find (sameUserAndSession (f_userId req) (f_sessionId req)) (attendance w1)
             = Some a
             /\ Attendance.locationVerified a = true
             /\ Attendance.isLate a = false
             /\ Attendance.lateByMinutes a = None)
  /\ List.length (recordsOf (f_userId req) (f_sessionId req) (attendance w1))
     = Nat.max 1 (List.length (recordsOf (f_userId req) (f_sessionId req) (attendance w)))
  /\ status (response (forceMarkAttendance env' w1 req)) = 200
  /\ attendance (final (forceMarkAttendance env' w1 req)) = attendance w1.
Proof.
  intros Hp Hok Hs' Hu'. cbv zeta.
  pose proof (forceMarkAttendance_attendance env w req Hok) as Ha.
  cbv zeta in Ha. rewrite Hp in Ha. cbn [String.eqb Ascii.eqb Bool.eqb] in Ha.
  destruct (forceMarkAttendance_inv env w req Hok)
    as (user & session & He & Hr & Hs & Hu & Hst & Hfu & Hfs).
  assert (Hkey : sameUserAndSession (f_userId req) (f_sessionId req)
                                    (forcedAttendance env req) = true).
  { unfold sameUserAndSession. cbn. now rewrite !String.eqb_refl. }
  assert (Hfirst : exists a,
             find (sameUserAndSession (f_userId req) (f_sessionId req))
                  (attendance (final (forceMarkAttendance env w req))) = Some a
             /\ forceVerified a = a).
  { rewrite Ha.
    destruct (find (sameUserAndSession (f_userId req) (f_sessionId req)) (attendance w))
      as [e|] eqn:Ef.
    - exists (forceVerified e). split; [|reflexivity].
      apply (find_replaceFirst _ _ _ e); [exact Ef | reflexivity |].
      rewrite sameUserAndSession_forceVerified.
      exact (proj2 (find_some _ _ Ef)).
    - exists (forcedAttendance env req). split; [|reflexivity].
      apply find_appended; assumption. }
  destruct Hfirst as (a & Hfind & Hfix).
  split.
  { exists a. split; [exact Hfind|]. rewrite <- Hfix. repeat split. }
  split.
  { unfold recordsOf. rewrite Ha.
    destruct (find (sameUserAndSession (f_userId req) (f_sessionId req)) (attendance w))
      as [e|] eqn:Ef.
    - rewrite filter_replaceFirst
        by (rewrite sameUserAndSession_forceVerified; exact (proj2 (find_some _ _ Ef))).
      pose proof (filter_has_match _ _ _ Ef). lia.
    - rewrite filter_app, (filter_no_match _ _ Ef). cbn. rewrite Hkey. reflexivity. }
  assert (Hfu1 : findUserById (final (forceMarkAttendance env w req)) (f_userId req)
                 = Some user).
  { unfold findUserById.
    rewrite (forceMarkAttendance_passed env w req user session) by auto.
    cbv zeta. rewrite Hp. cbn [String.eqb Ascii.eqb Bool.eqb].
    destruct (find _ (attendance w)); rewrite forceFinish_users; exact Hfu. }
  assert (Hfs1 : exists session1,
             findSessionById (final (forceMarkAttendance env w req)) (f_sessionId req)
             = Some session1).
  { rewrite (forceMarkAttendance_passed env w req user session) by auto.
    cbv zeta. rewrite Hp. cbn [String.eqb Ascii.eqb Bool.eqb].
    pose proof (find_some _ _ Hfs) as [_ Hid]. apply String.eqb_eq in Hid.
    unfold forceFinish, findSessionById.
    destruct (find _ (attendance w));
      destruct (updateRoster session (f_userId req) (setRoster (f_status req)))
        as [s'|] eqn:Er; cbn [final sessions saveSession withAttendance insertAttendance];
      try (eexists; exact Hfs).
    all: exists s'; unfold updateRoster in Er;
      destruct (findAssignment session (f_userId req)); inversion Er; subst s';
      apply (find_replaceFirst _ _ _ session); [exact Hfs | | ];
      [intros z; cbn; rewrite Hid; reflexivity
      | cbn; rewrite Hid; apply String.eqb_refl]. }
  destruct Hfs1 as [session1 Hfs1].
  pose proof (forceMarkAttendance_passed env' _ req user session1 He Hr Hs' Hu' Hst
                                         Hfu1 Hfs1) as Hm.
  cbv zeta in Hm. rewrite Hp in Hm. cbn [String.eqb Ascii.eqb Bool.eqb] in Hm.
  rewrite Hfind, Hfix in Hm.
  rewrite Hm. split; [apply forceFinish_status|].
  rewrite forceFinish_attendance. cbn [attendance withAttendance].
  apply replaceFirst_self, Hfind.
Qed.

Lemma force_present_is_idempotent_witness :
  let w := Scenario.world Scenario.registered Scenario.physical [] in
  let w1 := final (forceMarkAttendance Scenario.env0 w (Scenario.forceRequest "Present")) in
  List.length (attendance w1) = 1%nat
  /\ attendance (final (forceMarkAttendance Scenario.envRefusing w1
                          (Scenario.forceRequest "Present")))
     = attendance w1.
Proof.
  cbv zeta.
  destruct (force_present_is_idempotent Scenario.env0 Scenario.envRefusing
              (Scenario.world Scenario.registered Scenario.physical [])
              (Scenario.forceRequest "Present") eq_refl eq_refl eq_refl eq_refl)
    as (_ & _ & _ & H).
  split; [reflexivity | exact H].
Defined.

Lemma forceMarkAttendance_lookups env w req :
  status (response (forceMarkAttendance env w req)) = 200 ->
  exists user session session1,
    findUserById w (f_userId req) = Some user
    /\ findSessionById w (f_sessionId req) = Some session
    /\ findUserById (final (forceMarkAttendance env w req)) (f_userId req) = Some user
    /\ findSessionById (final (forceMarkAttendance env w req)) (f_sessionId req)
       = Some session1
    /\ Session.frequency session1 = Session.frequency session
    /\ (forall a, findAssignment session (f_userId req) = Some a ->
          findAssignment session1 (f_userId req) = Some (setRoster (f_status req) a)).
Proof.
  intros Hok.
  destruct (forceMarkAttendance_inv env w req Hok)
    as (user & session & He & Hr & Hs & Hu & Hst & Hfu & Hfs).
  pose proof (find_some _ _ Hfs) as [_ Hid]. apply String.eqb_eq in Hid.
  assert (Hfin : forall w0 tr,
             users w0 = users w -> sessions w0 = sessions w ->
             exists session1,
               findUserById (final (forceFinish req session w0 tr)) (f_userId req)
               = Some user
               /\ findSessionById (final (forceFinish req session w0 tr)) (f_sessionId req)
                  = Some session1
               /\ Session.frequency session1 = Session.frequency session
               /\ (forall a, findAssignment session (f_userId req) = Some a ->
                     findAssignment session1 (f_userId req)
                     = Some (setRoster (f_status req) a))).
  { intros w0 tr Hus Hss. unfold forceFinish, updateRoster.
    destruct (findAssignment session (f_userId req)) as [a|] eqn:Ea.
    - eexists. cbn [final]. unfold findUserById, findSessionById, saveSession.
      cbn [users sessions]. rewrite Hus, Hss.
      split; [exact Hfu|]. split.
      + apply (find_replaceFirst _ _ _ session); [exact Hfs | |].
        * intros z. cbn. rewrite Hid. reflexivity.
        * cbn. rewrite Hid. apply String.eqb_refl.
      + split; [reflexivity|]. intros a' Ha'. inversion Ha'; subst a'.
        unfold findAssignment. cbn [withAssignedUsers Session.assignedUsers].
        apply (find_replaceFirst _ _ _ a); [exact Ea | reflexivity |].
        cbn. exact (proj2 (find_some _ _ Ea)).
    - exists session. cbn [final]. unfold findUserById, findSessionById.
      rewrite Hus, Hss. split; [exact Hfu|]. split; [exact Hfs|].
      split; [reflexivity | discriminate]. }
  rewrite (forceMarkAttendance_passed env w req user session He Hr Hs Hu Hst Hfu Hfs).
  cbv zeta.
  destruct (f_status req =? "Present")%string.
  - destruct (find _ (attendance w)).
    + destruct (Hfin (withAttendance w
                        (replaceFirst (sameUserAndSession (f_userId req) (f_sessionId req))
                                      (forceVerified t) (attendance w)))
                     (forceLoads req
                        ++ [FindAttendance (f_userId req) (f_sessionId req) None;
                            SaveAttendance (forceVerified t)]) eq_refl eq_refl)
        as (s1 & H1 & H2 & H3 & H4).
      exists user, session, s1. repeat split; assumption.
    + destruct (Hfin (insertAttendance w (forcedAttendance env req))
                     (forceLoads req
                        ++ [FindAttendance (f_userId req) (f_sessionId req) None;
                            SaveAttendance (forcedAttendance env req)]) eq_refl eq_refl)
        as (s1 & H1 & H2 & H3 & H4).
      exists user, session, s1. repeat split; assumption.
  - destruct (Hfin (withAttendance w
                      (removeFirst (sameUserAndSession (f_userId req) (f_sessionId req))
                                   (attendance w)))
                   (forceLoads req ++ [DeleteAttendance (f_userId req) (f_sessionId req)])
                   eq_refl eq_refl)
      as (s1 & H1 & H2 & H3 & H4).
    exists user, session, s1. repeat split; assumption.
Qed.

Lemma filter_removeFirst_other {A : Type} (p q : A -> bool) (l : list A) :
  (forall z, p z = true -> q z = false) ->
  filter q (removeFirst p l) = filter q l.
Proof.
  intros H. induction l as [|z l IH]; [reflexivity|].
  cbn. destruct (p z) eqn:Ez.
  - rewrite (H z Ez). reflexivity.
  - cbn. rewrite IH. reflexivity.
Qed.

Lemma sameUserAndSession_key uid sid uid' sid' z :
  (uid', sid') <> (uid, sid) ->
  sameUserAndSession uid sid z = true -> sameUserAndSession uid' sid' z = false.
Proof.
  unfold sameUserAndSession. intros Hne Hz.
  apply andb_true_iff in Hz as [Hu Hs].
  apply String.eqb_eq in Hu, Hs.
  destruct (String.eqb_spec (Attendance.userId z) uid');
    destruct (String.eqb_spec (Attendance.sessionId z) sid'); try reflexivity.
  exfalso. apply Hne. congruence.
Qed.

(** X12.  A force-mark Absent that is answered 200 deletes exactly one
    attendance record of the user for the session, the first one, when there
    is one, and none otherwise; the records of every other user or session
    are untouched, and the roster entry of the user, when there is one,
    reads Absent and not late. *)
Theorem force_absent_removes_one (env : Env) (w : World) (req : ForceRequest) :
  f_status req = "Absent" ->
  status (response (forceMarkAttendance env w req)) = 200 ->
  let w1 := final (forceMarkAttendance env w req) in
  List.length (recordsOf (f_userId req) (f_sessionId req) (attendance w1))
  = Nat.pred (List.length (recordsOf (f_userId req) (f_sessionId req) (attendance w)))
  /\ (forall uid' sid', (uid', sid') <> (f_userId req, f_sessionId req) ->
        recordsOf uid' sid' (attendance w1) = recordsOf uid' sid' (attendance w))
  /\ (exists session session1,
        findSessionById w (f_sessionId req) = Some session
        /\ findSessionById w1 (f_sessionId req) = Some session1
        /\ forall a, findAssignment session (f_userId req) = Some a ->
             findAssignment session1 (f_userId req)
             = Some {| Assignment.userId := Assignment.userId a;
                       Assignment.mode := Assignment.mode a;
                       Assignment.attendanceStatus := "Absent";
                       Assignment.isLate := false |}).
Proof.
  intros Hst Hok. cbv zeta.
  pose proof (forceMarkAttendance_attendance env w req Hok) as Ha.
  cbv zeta in Ha. rewrite Hst in Ha. cbn [String.eqb Ascii.eqb Bool.eqb] in Ha.
  split; [|split].
  - unfold recordsOf. rewrite Ha. apply filter_removeFirst.
  - intros uid' sid' Hne. unfold recordsOf. rewrite Ha.
    apply filter_removeFirst_other. intros z. now apply sameUserAndSession_key.
  - destruct (forceMarkAttendance_lookups env w req Hok)
      as (user & session & session1 & _ & Hs & _ & Hs1 & _ & Hr).
    exists session, session1. split; [exact Hs|]. split; [exact Hs1|].
    intros a Hfa. rewrite (Hr a Hfa). unfold setRoster. rewrite Hst. reflexivity.
Qed.

(** Of two records of the user for the session, one is left. *)
Lemma force_absent_removes_one_witness :
  let w := Scenario.world Scenario.registered Scenario.physical
                          [Scenario.earlier 0; Scenario.earlier 1] in
  List.length
    (recordsOf Scenario.uid Scenario.sid
       (attendance
          (final (forceMarkAttendance Scenario.env0 w (Scenario.forceRequest "Absent")))))
  = 1%nat.
Proof.
  cbv zeta.
  destruct (force_absent_removes_one Scenario.env0
              (Scenario.world Scenario.registered Scenario.physical
                              [Scenario.earlier 0; Scenario.earlier 1])
              (Scenario.forceRequest "Absent") eq_refl eq_refl)
    as (H & _ & _).
  exact H.
Defined.

(** X13.  Present, then Absent, is a round trip: when the user had no
    record for the session, forcing Present and then forcing Absent (at any
    later time) gives back the attendance collection as it was. *)
Theorem force_present_then_absent (env env' : Env) (w : World)
    (present absent : ForceRequest) :
  f_status present = "Present" ->
  f_status absent = "Absent" ->
  f_userId absent = f_userId present ->
  f_sessionId absent = f_sessionId present ->
  f_validationErrors absent = [] ->
  f_role absent = "PLATFORM_OWNER" ->
  isValidObjectId env' (f_sessionId absent) = true ->
  isValidObjectId env' (f_userId absent) = true ->
  recordsOf (f_userId present) (f_sessionId present) (attendance w) = [] ->
  status (response (forceMarkAttendance env w present)) = 200 ->
  let w1 := final (forceMarkAttendance env w present) in
  attendance w1 = attendance w ++ [forcedAttendance env present]
  /\ status (response (forceMarkAttendance env' w1 absent)) = 200
  /\ attendance (final (forceMarkAttendance env' w1 absent)) = attendance w.
Proof.
  intros Hp Ha Hu Hs He Hr Hvs Hvu Hnone Hok. cbv zeta.
  assert (Hfind : find (sameUserAndSession (f_userId present) (f_sessionId present))
                       (attendance w) = None).
  { destruct (find _ (attendance w)) as [e|] eqn:Ef; [|reflexivity].
    pose proof (filter_has_match _ _ _ Ef) as Hlen.
    unfold recordsOf in Hnone. rewrite Hnone in Hlen. cbn in Hlen. lia. }
  pose proof (forceMarkAttendance_attendance env w present Hok) as Hatt.
  cbv zeta in Hatt. rewrite Hp, Hfind in Hatt.
  cbn [String.eqb Ascii.eqb Bool.eqb] in Hatt.
  split; [exact Hatt|].
  destruct (forceMarkAttendance_lookups env w present Hok)
    as (user & session & session1 & _ & _ & Hu1 & Hs1 & _).
  rewrite <- Hu in Hu1. rewrite <- Hs in Hs1.
  pose proof (forceMarkAttendance_passed env' _ absent user session1 He Hr Hvs Hvu
                                         (or_intror Ha) Hu1 Hs1) as Hm.
  cbv zeta in Hm. rewrite Ha in Hm. cbn [String.eqb Ascii.eqb Bool.eqb] in Hm.
  rewrite Hm. split; [apply forceFinish_status|].
  rewrite forceFinish_attendance. cbn [attendance withAttendance].
  rewrite Hatt, Hu, Hs. apply removeFirst_appended; [exact Hfind|].
  unfold sameUserAndSession. cbn. now rewrite !String.eqb_refl.
Qed.

Lemma force_present_then_absent_witness :
  let w := Scenario.world Scenario.registered Scenario.physical [] in
  attendance
    (final (forceMarkAttendance Scenario.envRefusing
              (final (forceMarkAttendance Scenario.env0 w (Scenario.forceRequest "Present")))
              (Scenario.forceRequest "Absent")))
  = [].
Proof.
  cbv zeta.
  destruct (force_present_then_absent Scenario.env0 Scenario.envRefusing
              (Scenario.world Scenario.registered Scenario.physical [])
              (Scenario.forceRequest "Present") (Scenario.forceRequest "Absent")
              eq_refl eq_refl eq_refl eq_refl eq_refl eq_refl eq_refl eq_refl
              eq_refl eq_refl)
    as (_ & _ & H).
  exact H.
Defined.

(** A record matching the duplicate key stops the attempt on every path. *)
Lemma duplicate_refused env w req session :
  findSessionById w (sessionId req) = Some session ->
  (exists a, In a (attendance w) /\ duplicateKey env req session a) ->
  refused w (markAttendance env w req)
  /\ noVerifyCall (trace (markAttendance env w req)).
Proof.
  intros Hs [a [Hin Hk]].
  assert (He : exists y, existingAttendance env w req session = Some y).
  { apply find_exists. exists a. split; [exact Hin|].
    now apply duplicateFilter_spec. }
  destruct He as [y He]. split.
  - destruct (markAttendance_outcome env w req)
      as [Hr | (user & session' & late & lateBy & assignment & result & calls
                & Hc & _)]; [exact Hr|].
    exfalso. destruct Hc as (((_ & _ & Hs') & _ & He') & _).
    rewrite Hs in Hs'. inversion Hs'; subst session'. congruence.
  - intros args H. unfold markAttendance in H. rewrite Hs in H.
    destruct (validateRequest env req); [not_saved H|].
    destruct (findUserById w (userId req)) as [user|]; [|not_saved H].
    destruct (isSessionDateToday env session); cbn [negb] in H; [|not_saved H].
    cbv zeta in H. rewrite He in H. not_saved H.
Qed.

(** X14.  Forced presence counts as a check-in.  After a force-mark Present
    that was answered 200, an attempt of that user to mark attendance for
    that session is refused without any verification call and without any
    write: always for a OneTime session, and, for a recurring session whose
    user had no record yet, on the local day of the force-mark. *)
Theorem forced_presence_blocks_check_in (env env' : Env) (w : World)
    (force : ForceRequest) (req : Request) (session : Session.t) :
  f_status force = "Present" ->
  status (response (forceMarkAttendance env w force)) = 200 ->
  findSessionById w (f_sessionId force) = Some session ->
  userId req = f_userId force ->
  sessionId req = f_sessionId force ->
  Session.frequency session = OneTime
  \/ (recordsOf (f_userId force) (f_sessionId force) (attendance w) = []
      /\ dayOf (nowInIST env') = dayOf (nowInIST env)) ->
  let w1 := final (forceMarkAttendance env w force) in
  refused w1 (markAttendance env' w1 req)
  /\ noVerifyCall (trace (markAttendance env' w1 req)).
Proof.
  intros Hp Hok Hs Hu Hsid Hcase. cbv zeta.
  destruct (forceMarkAttendance_lookups env w force Hok)
    as (user & session0 & session1 & _ & Hs0 & _ & Hs1 & Hfreq & _).
  rewrite Hs in Hs0. inversion Hs0; subst session0. clear Hs0.
  rewrite <- Hsid in Hs1.
  apply (duplicate_refused env' _ req session1 Hs1).
  pose proof (forceMarkAttendance_attendance env w force Hok) as Hatt.
  cbv zeta in Hatt. rewrite Hp in Hatt. cbn [String.eqb Ascii.eqb Bool.eqb] in Hatt.
  destruct (find (sameUserAndSession (f_userId force) (f_sessionId force)) (attendance w))
    as [e|] eqn:Ef.
  - destruct Hcase as [Hone | [Hnone _]].
    + exists (forceVerified e). split.
      * rewrite Hatt.
        assert (Hf : find (sameUserAndSession (f_userId force) (f_sessionId force))
                          (replaceFirst
                             (sameUserAndSession (f_userId force) (f_sessionId force))
                             (forceVerified e) (attendance w))
                     = Some (forceVerified e)).
        { apply (find_replaceFirst _ _ _ e); [exact Ef | reflexivity |].
          exact (proj2 (find_some _ _ Ef)). }
        exact (proj1 (find_some _ _ Hf)).
      * pose proof (find_some _ _ Ef) as [_ Hkey].
        unfold sameUserAndSession in Hkey. apply andb_true_iff in Hkey as [K1 K2].
        apply String.eqb_eq in K1, K2.
        split; [cbn; congruence|]. split; [cbn; congruence|].
        intros Hrec. exfalso. apply Hrec. congruence.
    + pose proof (filter_has_match _ _ _ Ef) as Hlen.
      unfold recordsOf in Hnone. rewrite Hnone in Hlen. cbn in Hlen. lia.
  - exists (forcedAttendance env force). split.
    + rewrite Hatt. apply in_or_app. right. now left.
    + split; [cbn; congruence|]. split; [cbn; congruence|].
      intros Hrec. destruct Hcase as [Hone | [_ Hday]]; [congruence|].
      unfold sameLocalDay. cbn. symmetry. exact Hday.
Qed.

(** The Platform Owner marks the scenario's user present although the
    provider would refuse; the user's own attempt is then a duplicate. *)
Lemma forced_presence_blocks_check_in_witness :
  let w := Scenario.world Scenario.registered Scenario.physical [] in
  let w1 := final (forceMarkAttendance Scenario.env0 w (Scenario.forceRequest "Present")) in
  refused w1 (markAttendance Scenario.env0 w1 Scenario.request).
Proof.
  cbv zeta.
  destruct (forced_presence_blocks_check_in Scenario.env0 Scenario.env0
              (Scenario.world Scenario.registered Scenario.physical [])
              (Scenario.forceRequest "Present") Scenario.request Scenario.physical
              eq_refl eq_refl eq_refl eq_refl eq_refl (or_introl eq_refl))
    as (H & _).
  exact H.
Defined.

Lemma find_replaceFirst_none {A : Type} (p q : A -> bool) (v e : A) (l : list A) :
  find p l = Some e ->
  q v = q e ->
  (find q (replaceFirst p v l) = None <-> find q l = None).
Proof.
  intros Hf Hq. induction l as [|z l IH]; [discriminate|].
  cbn in Hf |- *. destruct (p z) eqn:Ez.
  - inversion Hf; subst z. cbn. rewrite Hq.
    destruct (q e); [split; discriminate | reflexivity].
  - cbn. destruct (q z); [reflexivity|]. apply IH, Hf.
Qed.

(** X15.  A force-mark depends on nothing but the role, the two ids and the
    status: whenever a Platform Owner names an existing user, an existing
    session and Present or Absent, the answer is 200, whatever the session's
    type, schedule and roster, the user's device and the time are.  The
    location verification is never called, the settings are never read,
    no user document changes, and every record written is marked verified. *)
Theorem force_mark_skips_every_check (env : Env) (w : World) (req : ForceRequest)
    (user : User.t) (session : Session.t) :
  f_validationErrors req = [] ->
  f_role req = "PLATFORM_OWNER" ->
  isValidObjectId env (f_sessionId req) = true ->
  isValidObjectId env (f_userId req) = true ->
  f_status req = "Present" \/ f_status req = "Absent" ->
  findUserById w (f_userId req) = Some user ->
  findSessionById w (f_sessionId req) = Some session ->
  let out := forceMarkAttendance env w req in
  response out = mkResponse 200 (ForceMarked (f_status req))
  /\ noVerifyCall (trace out)
  /\ ~ In FindSettings (trace out)
  /\ users (final out) = users w
  /\ (forall a, In (SaveAttendance a) (trace out) ->
        Attendance.locationVerified a = true /\ Attendance.isLate a = false).
Proof.
  intros He Hr Hs Hu Hst Hfu Hfs. cbv zeta.
  rewrite (forceMarkAttendance_passed env w req user session He Hr Hs Hu Hst Hfu Hfs).
  cbv zeta.
  assert (Hfin : forall w0 tr,
             response (forceFinish req session w0 tr)
             = mkResponse 200 (ForceMarked (f_status req))
             /\ users (final (forceFinish req session w0 tr)) = users w0
             /\ forall e, In e (trace (forceFinish req session w0 tr)) ->
                  In e tr \/ (exists s, e = SaveSession s)
                  \/ (exists a b c d, e = AuditLogCreate a b c d)).
  { intros w0 tr. unfold forceFinish.
    destruct (updateRoster session (f_userId req) (setRoster (f_status req)));
      cbn [response final trace]; (split; [reflexivity|]); (split; [reflexivity|]);
      intros e Hin; apply in_app_or in Hin as [Hin|Hin]; auto; right; cbn in Hin.
    - destruct Hin as [<-|[<-|[]]]; [left | right]; eauto.
    - destruct Hin as [<-|[]]. right; eauto. }
  assert (Hgoal : forall w0 tr,
             users w0 = users w ->
             (forall e, In e tr ->
                In e (forceLoads req)
                \/ (exists u s t, e = FindAttendance u s t)
                \/ (exists u s, e = DeleteAttendance u s)
                \/ (exists a, e = SaveAttendance a
                              /\ Attendance.locationVerified a = true
                              /\ Attendance.isLate a = false)) ->
             response (forceFinish req session w0 tr)
             = mkResponse 200 (ForceMarked (f_status req))
             /\ noVerifyCall (trace (forceFinish req session w0 tr))
             /\ ~ In FindSettings (trace (forceFinish req session w0 tr))
             /\ users (final (forceFinish req session w0 tr)) = users w
             /\ (forall a, In (SaveAttendance a) (trace (forceFinish req session w0 tr)) ->
                   Attendance.locationVerified a = true /\ Attendance.isLate a = false)).
  { intros w0 tr Hus Htr. destruct (Hfin w0 tr) as (H1 & H2 & H3).
    assert (Hcase : forall e, In e (trace (forceFinish req session w0 tr)) ->
               e = FindUserById (f_userId req) \/ e = FindSessionById (f_sessionId req)
               \/ (exists u s t, e = FindAttendance u s t)
               \/ (exists u s, e = DeleteAttendance u s)
               \/ (exists a, e = SaveAttendance a
                             /\ Attendance.locationVerified a = true
                             /\ Attendance.isLate a = false)
               \/ (exists s, e = SaveSession s)
               \/ (exists a b c d, e = AuditLogCreate a b c d)).
    { intros e Hin. destruct (H3 e Hin) as [Hin'|[Hs'|Ha']]; [|tauto|tauto].
      destruct (Htr e Hin') as [Hl|[Hq|[Hd|Hsv]]]; [|tauto|tauto|tauto].
      cbn in Hl. destruct Hl as [<-|[<-|[]]]; tauto. }
    split; [exact H1|]. split; [|split; [|split; [congruence|]]].
    - intros args Hin.
      destruct (Hcase _ Hin)
        as [E|[E|[(?&?&?&E)|[(?&?&E)|[(?&E&_)|[(?&E)|(?&?&?&?&E)]]]]]];
        discriminate E.
    - intros Hin.
      destruct (Hcase _ Hin)
        as [E|[E|[(?&?&?&E)|[(?&?&E)|[(?&E&_)|[(?&E)|(?&?&?&?&E)]]]]]];
        discriminate E.
    - intros a Hin.
      destruct (Hcase _ Hin)
        as [E|[E|[(?&?&?&E)|[(?&?&E)|[(a'&E&Hv)|[(?&E)|(?&?&?&?&E)]]]]]];
        try discriminate E.
      inversion E; subst a'. exact Hv. }
  destruct (f_status req =? "Present")%string.
  - destruct (find _ (attendance w)) as [e0|].
    + apply Hgoal; [reflexivity|]. intros e Hin.
      apply in_app_or in Hin as [Hin|Hin]; [now left|]. right. cbn in Hin.
      destruct Hin as [<-|[<-|[]]].
      * left. eauto.
      * right. right. eexists. split; [reflexivity|]. split; reflexivity.
    + apply Hgoal; [reflexivity|]. intros e Hin.
      apply in_app_or in Hin as [Hin|Hin]; [now left|]. right. cbn in Hin.
      destruct Hin as [<-|[<-|[]]].
      * left. eauto.
      * right. right. eexists. split; [reflexivity|]. split; reflexivity.
  - apply Hgoal; [reflexivity|]. intros e Hin.
    apply in_app_or in Hin as [Hin|Hin]; [now left|]. right. cbn in Hin.
    destruct Hin as [<-|[]]. right. left. eauto.
Qed.

(** The Platform Owner marks a user present for a PHYSICAL session whose
    roster the user is not on, while the provider would refuse. *)
Lemma force_mark_skips_every_check_witness :
  let stranger :=
    {| User.id := "65a000000000000000000999"; User.email := "other@example.com";
       User.registeredDeviceId := JUndefined; User.registeredUserAgent := JUndefined |} in
  let w := {| users := [stranger]; sessions := [Scenario.physical]; attendance := [] |} in
  let req :=
    {| f_validationErrors := []; f_role := "PLATFORM_OWNER";
       f_performerId := "65a000000000000000000001";
       f_sessionId := Scenario.sid; f_userId := "65a000000000000000000999";
       f_status := "Present" |} in
  status (response (forceMarkAttendance Scenario.envRefusing w req)) = 200.
Proof.
  cbv zeta.
  destruct (force_mark_skips_every_check Scenario.envRefusing
              {| users := [{| User.id := "65a000000000000000000999";
                              User.email := "other@example.com";
                              User.registeredDeviceId := JUndefined;
                              User.registeredUserAgent := JUndefined |}];
                 sessions := [Scenario.physical]; attendance := [] |}
              {| f_validationErrors := []; f_role := "PLATFORM_OWNER";
                 f_performerId := "65a000000000000000000001";
                 f_sessionId := Scenario.sid; f_userId := "65a000000000000000000999";
                 f_status := "Present" |}
              _ Scenario.physical
              eq_refl eq_refl eq_refl eq_refl (or_introl eq_refl) eq_refl eq_refl)
    as (H & _).
  rewrite H. reflexivity.
Defined.

(** X16.  Forcing Present on a user who already has a record for the
    session rewrites that record in place: the check-in time, location and
    device of the first record stay as they were, only the verification and
    lateness fields are overwritten, and no record is added.  The duplicate
    check of [markAttendance] therefore gives the same verdict after the
    force-mark as before it: a record of an earlier day, forced Present
    today, does not count as today's check-in of a recurring session. *)
Theorem force_present_keeps_check_in (env : Env) (w : World) (req : ForceRequest)
    (e : Attendance.t) :
  f_status req = "Present" ->
  status (response (forceMarkAttendance env w req)) = 200 ->
  find (sameUserAndSession (f_userId req) (f_sessionId req)) (attendance w) = Some e ->
  let w1 := final (forceMarkAttendance env w req) in
  attendance w1
  = replaceFirst (sameUserAndSession (f_userId req) (f_sessionId req))
                 (forceVerified e) (attendance w)
  /\ Attendance.checkInTime (forceVerified e) = Attendance.checkInTime e
  /\ Attendance.userLocation (forceVerified e) = Attendance.userLocation e
  /\ Attendance.deviceId (forceVerified e) = Attendance.deviceId e
  /\ List.length (attendance w1) = List.length (attendance w)
  /\ (forall env' req' session',
        existingAttendance env' w1 req' session' = None
        <-> existingAttendance env' w req' session' = None).
Proof.
  intros Hp Hok Hf. cbv zeta.
  pose proof (forceMarkAttendance_attendance env w req Hok) as Hatt.
  cbv zeta in Hatt. rewrite Hp, Hf in Hatt. cbn [String.eqb Ascii.eqb Bool.eqb] in Hatt.
  split; [exact Hatt|]. split; [reflexivity|]. split; [reflexivity|].
  split; [reflexivity|]. split.
  - rewrite Hatt. clear. induction (attendance w) as [|z l IH]; [reflexivity|].
    cbn. destruct (sameUserAndSession _ _ z); cbn; [reflexivity | now rewrite IH].
  - intros env' req' session'. unfold existingAttendance. rewrite Hatt.
    apply (find_replaceFirst_none _ _ _ e); [exact Hf | reflexivity].
Qed.

(** A Daily session: yesterday's record is forced Present today, and today's
    duplicate query still finds nothing. *)
Lemma force_present_keeps_check_in_witness :
  let daily := Scenario.session Daily SessionType.PHYSICAL Mode.PHYSICAL (11, 0) []
                                Scenario.coordsLocation in
  let yesterday := Scenario.earlier (Scenario.now - MS_PER_DAY) in
  let w := Scenario.world Scenario.registered daily [yesterday] in
  let w1 := final (forceMarkAttendance Scenario.env0 w (Scenario.forceRequest "Present")) in
  existingAttendance Scenario.env0 w1 Scenario.request daily = None.
Proof.
  cbv zeta.
  destruct (force_present_keeps_check_in Scenario.env0
              (Scenario.world Scenario.registered
                 (Scenario.session Daily SessionType.PHYSICAL Mode.PHYSICAL (11, 0) []
                                   Scenario.coordsLocation)
                 [Scenario.earlier (Scenario.now - MS_PER_DAY)])
              (Scenario.forceRequest "Present")
              (Scenario.earlier (Scenario.now - MS_PER_DAY))
              eq_refl eq_refl eq_refl)
    as (_ & _ & _ & _ & _ & H).
  apply (proj2 (H Scenario.env0 Scenario.request
                  (Scenario.session Daily SessionType.PHYSICAL Mode.PHYSICAL (11, 0) []
                                    Scenario.coordsLocation))).
  reflexivity.
Defined.

(* ------------------------------------------------------------------ *)
(** * Properties of the location verification service *)

Lemma validateAccuracy_returns S a :
  MapmyIndia.validateAccuracy S a = MapmyIndia.Return tt
  <-> exists n, a = JNum n /\ num_leb n MapmyIndia.MAX_ACCURACY_RADIUS = true.
Proof.
  unfold MapmyIndia.validateAccuracy, is_type. split.
  - destruct a as [ | | b | n | s | props]; cbn; try discriminate.
    destruct n as [ | neg | q]; cbn; try discriminate.
    + destruct neg; cbn; [|discriminate]. intros _. eexists. split; reflexivity.
    + destruct (Qle_bool q 50) eqn:E; cbn; [|discriminate].
      intros _. eexists. split; [reflexivity | exact E].
  - intros (n & -> & Hn). destruct n as [ | neg | q]; cbn in *; try discriminate.
    + destruct neg; [reflexivity | discriminate].
    + rewrite Hn. reflexivity.
Qed.

Lemma validateAccuracy_throws S a :
  (forall n, a = JNum n -> num_leb n MapmyIndia.MAX_ACCURACY_RADIUS = false) ->
  MapmyIndia.validateAccuracy S a
  = MapmyIndia.Throw
      (MapmyIndia.newError
         "Invalid GPS accuracy data. Please enable high-accuracy GPS and try again.")
  \/ exists n,
       a = JNum n
       /\ num_gtb n MapmyIndia.MAX_ACCURACY_RADIUS = true
       /\ MapmyIndia.validateAccuracy S a
          = MapmyIndia.Throw
              (MapmyIndia.newError
                 ("GPS accuracy is too low (" ++ MapmyIndia.rounded S n ++ "m). "
                    ++ "Please enable high-accuracy GPS and ensure you have a clear view of the sky. "
                    ++ "Maximum allowed accuracy: 50m.")).
Proof.
  intros H. unfold MapmyIndia.validateAccuracy, is_type.
  destruct a as [ | | b | n | s | props]; cbn; try (left; reflexivity).
  specialize (H n eq_refl).
  destruct n as [ | neg | q]; cbn in *; try (left; reflexivity).
  - destruct neg; [discriminate|]. right. eexists. repeat split.
  - rewrite H. cbn. right. eexists. repeat split. cbn. now rewrite H.
Qed.

Lemma confidenceOf_accepted data :
  MapmyIndia.num_ltb (MapmyIndia.confidenceOf data) MapmyIndia.MIN_CONFIDENCE_SCORE = false ->
  num_leb MapmyIndia.MIN_CONFIDENCE_SCORE (MapmyIndia.confidenceOf data) = true.
Proof.
  unfold MapmyIndia.confidenceOf, MapmyIndia.num_ltb.
  destruct (MapmyIndia.rev_confidenceScore data) as [[ | neg | q]|]; cbn;
    try reflexivity.
  - destruct neg; [discriminate | reflexivity].
  - destruct (Qeq_bool q 0); cbn; [reflexivity|].
    destruct (Qle_bool (6 # 10) q); [reflexivity | discriminate].
Qed.

(** The messages with which [reverseGeocode] can fail. *)
Lemma reverseGeocode_throws S lat lng e calls :
  MapmyIndia.reverseGeocode S lat lng = (MapmyIndia.Throw e, calls) ->
  (MapmyIndia.configured S = false /\ e = MapmyIndia.notConfigured /\ calls = [])
  \/ (MapmyIndia.configured S = true
      /\ calls = [MapmyIndia.RevGeocode lat lng]
      /\ exists m,
           e = MapmyIndia.newError m
           /\ In m ["Unable to verify location at this time. Attendance not marked. Please try again.";
                    "Location verification service is temporarily unavailable. Attendance not marked.";
                    "Unable to verify location at this time. Attendance not marked. Please check your connection and try again.";
                    "Unable to verify location at this time. Attendance not marked."]).
Proof.
  unfold MapmyIndia.reverseGeocode.
  destruct (MapmyIndia.configured S); cbn [negb].
  2:{ intros H. inversion H. left. repeat split. }
  intros H. right. split; [reflexivity|].
  assert (Hh : forall err : MapmyIndia.Exception,
             exists m,
               (match MapmyIndia.responseStatus err with
                | Some statusCode =>
                  if (400 <=? statusCode) && (statusCode <? 500)
                  then MapmyIndia.throw (MapmyIndia.newError "Unable to verify location at this time. Attendance not marked. Please try again.")
                  else MapmyIndia.throw (MapmyIndia.newError "Location verification service is temporarily unavailable. Attendance not marked.")
                | None =>
                  if MapmyIndia.hasRequest err
                  then MapmyIndia.throw (MapmyIndia.newError "Unable to verify location at this time. Attendance not marked. Please check your connection and try again.")
                  else MapmyIndia.throw (MapmyIndia.newError "Unable to verify location at this time. Attendance not marked.")
                end : MapmyIndia.M LocationVerificationResult.t)
               = (MapmyIndia.Throw (MapmyIndia.newError m), [])
               /\ In m ["Unable to verify location at this time. Attendance not marked. Please try again.";
                        "Location verification service is temporarily unavailable. Attendance not marked.";
                        "Unable to verify location at this time. Attendance not marked. Please check your connection and try again.";
                        "Unable to verify location at this time. Attendance not marked."]).
  { intros err. destruct (MapmyIndia.responseStatus err) as [st|].
    - destruct ((400 <=? st) && (st <? 500)); eexists; (split; [reflexivity|]);
        cbn; tauto.
    - destruct (MapmyIndia.hasRequest err); eexists; (split; [reflexivity|]);
        cbn; tauto. }
  unfold MapmyIndia.tryCatch, MapmyIndia.bind, MapmyIndia.axiosGet in H.
  destruct (MapmyIndia.rev_geocode S lat lng) as [data|err].
  - destruct (MapmyIndia.not200 (MapmyIndia.rev_responseCode data)).
    + cbn in H. inversion H. split; [reflexivity|]. eexists. split; [reflexivity|].
      cbn; tauto.
    + destruct (MapmyIndia.rev_results data) as [[|place others]|].
      * cbn in H. inversion H. split; [reflexivity|]. eexists.
        split; [reflexivity|]. cbn; tauto.
      * destruct (MapmyIndia.num_ltb _ _).
        -- cbn in H. inversion H. split; [reflexivity|]. eexists.
           split; [reflexivity|]. cbn; tauto.
        -- cbn in H. discriminate H.
      * cbn in H. inversion H. split; [reflexivity|]. eexists.
        split; [reflexivity|]. cbn; tauto.
  - destruct (Hh err) as (m & Hm & Hin). rewrite Hm in H. cbn in H.
    inversion H. split; [reflexivity|]. exists m. split; [reflexivity | exact Hin].
Qed.

Lemma reverseGeocode_returns S lat lng r calls :
  MapmyIndia.reverseGeocode S lat lng = (MapmyIndia.Return r, calls) ->
  MapmyIndia.configured S = true
  /\ calls = [MapmyIndia.RevGeocode lat lng]
  /\ exists data place others,
       MapmyIndia.rev_geocode S lat lng = MapmyIndia.Responds data
       /\ MapmyIndia.not200 (MapmyIndia.rev_responseCode data) = false
       /\ MapmyIndia.rev_results data = Some (place :: others)
       /\ num_leb MapmyIndia.MIN_CONFIDENCE_SCORE (MapmyIndia.confidenceOf data) = true
       /\ r = {| LocationVerificationResult.isValid := true;
                 LocationVerificationResult.confidenceScore :=
                   JNum (MapmyIndia.confidenceOf data);
                 LocationVerificationResult.accuracyRadius := zero;
                 LocationVerificationResult.reverseGeocode :=
                   Some (MapmyIndia.snapshotOf place);
                 LocationVerificationResult.geofenceResult := None |}.
Proof.
  unfold MapmyIndia.reverseGeocode.
  destruct (MapmyIndia.configured S); cbn [negb]; [|discriminate].
  intros H. split; [reflexivity|].
  unfold MapmyIndia.tryCatch, MapmyIndia.bind, MapmyIndia.axiosGet in H.
  destruct (MapmyIndia.rev_geocode S lat lng) as [data|err].
  - destruct (MapmyIndia.not200 (MapmyIndia.rev_responseCode data)) eqn:E2;
      [cbn in H; discriminate H|].
    destruct (MapmyIndia.rev_results data) as [[|place others]|] eqn:Er;
      try (cbn in H; discriminate H).
    destruct (MapmyIndia.num_ltb _ _) eqn:Ec; [cbn in H; discriminate H|].
    cbn in H. inversion H. split; [reflexivity|].
    exists data, place, others. repeat split; try assumption.
    now apply confidenceOf_accepted.
  - exfalso.
    destruct (MapmyIndia.responseStatus err) as [st|].
    + destruct ((400 <=? st) && (st <? 500)); cbn in H; discriminate H.
    + destruct (MapmyIndia.hasRequest err); cbn in H; discriminate H.
Qed.

Lemma checkGeofence_returns S lat lng poly g calls :
  MapmyIndia.checkGeofence S lat lng poly = (MapmyIndia.Return g, calls) ->
  MapmyIndia.configured S = true
  /\ exists ring rest data hit others,
       poly = ring :: rest
       /\ calls = [MapmyIndia.GeofenceCheck lat lng ring]
       /\ MapmyIndia.geofence_check S lat lng ring = MapmyIndia.Responds data
       /\ MapmyIndia.not200 (MapmyIndia.geo_responseCode data) = false
       /\ MapmyIndia.geo_results data = Some (hit :: others)
       /\ MapmyIndia.hit_isInside hit = true
       /\ g = {| isInside := true;
                 distance := if Qeq_bool (MapmyIndia.hit_distance hit) 0
                             then 0%Q else MapmyIndia.hit_distance hit |}.
Proof.
  unfold MapmyIndia.checkGeofence.
  destruct (MapmyIndia.configured S); cbn [negb]; [|discriminate].
  intros H. split; [reflexivity|].
  destruct poly as [|ring rest].
  { cbn in H. discriminate H. }
  unfold MapmyIndia.tryCatch, MapmyIndia.bind, MapmyIndia.axiosGet in H.
  destruct (MapmyIndia.geofence_check S lat lng ring) as [data|err] eqn:Eg.
  - destruct (MapmyIndia.not200 (MapmyIndia.geo_responseCode data)) eqn:E2;
      [cbn in H; discriminate H|].
    destruct (MapmyIndia.geo_results data) as [[|hit others]|] eqn:Er;
      try (cbn in H; discriminate H).
    destruct (MapmyIndia.hit_isInside hit) eqn:Ei; [|cbn in H; discriminate H].
    cbn in H. inversion H; subst.
    exists ring, rest, data, hit, others. repeat split; try assumption.
  - exfalso.
    destruct (MapmyIndia.responseStatus err) as [st|].
    + destruct ((400 <=? st) && (st <? 500)); cbn in H; discriminate H.
    + destruct (MapmyIndia.hasRequest err); cbn in H; discriminate H.
Qed.

Lemma checkGeofence_calls S lat lng poly :
  snd (MapmyIndia.checkGeofence S lat lng poly) = []
  \/ exists ring rest,
       poly = ring :: rest
       /\ snd (MapmyIndia.checkGeofence S lat lng poly)
          = [MapmyIndia.GeofenceCheck lat lng ring].
Proof.
  unfold MapmyIndia.checkGeofence.
  destruct (MapmyIndia.configured S); cbn [negb]; [|left; reflexivity].
  destruct poly as [|ring rest].
  { left. reflexivity. }
  right. exists ring, rest. split; [reflexivity|].
  unfold MapmyIndia.tryCatch, MapmyIndia.bind, MapmyIndia.axiosGet.
  destruct (MapmyIndia.geofence_check S lat lng ring) as [data|err].
  - destruct (MapmyIndia.not200 (MapmyIndia.geo_responseCode data));
      [reflexivity|].
    destruct (MapmyIndia.geo_results data) as [[|hit others]|]; try reflexivity.
    destruct (MapmyIndia.hit_isInside hit); reflexivity.
  - destruct (MapmyIndia.responseStatus err) as [st|].
    + destruct ((400 <=? st) && (st <? 500)); reflexivity.
    + destruct (MapmyIndia.hasRequest err); reflexivity.
Qed.

Lemma reverseGeocode_calls S lat lng :
  (MapmyIndia.configured S = false /\ snd (MapmyIndia.reverseGeocode S lat lng) = [])
  \/ snd (MapmyIndia.reverseGeocode S lat lng) = [MapmyIndia.RevGeocode lat lng].
Proof.
  destruct (MapmyIndia.reverseGeocode S lat lng) as [[r|e] calls] eqn:E.
  - right. now destruct (reverseGeocode_returns _ _ _ _ _ E) as (_ & -> & _).
  - destruct (reverseGeocode_throws _ _ _ _ _ E) as [(Hc & _ & ->) | (_ & -> & _)];
      [left; split; [exact Hc | reflexivity] | right; reflexivity].
Qed.

Lemma snapshot_city_named place :
  rg_city (MapmyIndia.snapshotOf place) <> "".
Proof.
  cbn. unfold MapmyIndia.orElse.
  destruct (MapmyIndia.city place =? "")%string eqn:E1.
  - destruct (MapmyIndia.district place =? "")%string eqn:E2; [discriminate|].
    intros H. rewrite H in E2. discriminate E2.
  - intros H. rewrite H in E1. discriminate E1.
Qed.

Lemma cityStep_returns S r city calls :
  MapmyIndia.cityStep S r city = (MapmyIndia.Return tt, calls) ->
  calls = []
  /\ forall c rg,
       city = Some c -> c <> "" ->
       LocationVerificationResult.reverseGeocode r = Some rg ->
       MapmyIndia.normalized S (rg_city rg) = MapmyIndia.normalized S c.
Proof.
  unfold MapmyIndia.cityStep. intros H.
  destruct city as [c|]; [|inversion H; split; [reflexivity | discriminate]].
  destruct (truthy (JString c)) eqn:Et.
  2:{ inversion H. split; [reflexivity|]. intros c' rg Hc Hne. inversion Hc; subst c'.
      cbn in Et. apply negb_false_iff, String.eqb_eq in Et. contradiction. }
  destruct (LocationVerificationResult.reverseGeocode r) as [rg|]; [|discriminate H].
  unfold MapmyIndia.lift in H. inversion H as [[Hv Hc]].
  split; [reflexivity|]. intros c' rg' Hc' _ Hrg. inversion Hc'; subst c'.
  inversion Hrg; subst rg'. clear Hc' Hrg H.
  unfold MapmyIndia.validateCityMatch in Hv. rewrite Et in Hv. cbn [negb orb] in Hv.
  destruct (negb (truthy (JString (rg_city rg)))); [discriminate Hv|].
  destruct (MapmyIndia.normalized S (rg_city rg) =? MapmyIndia.normalized S c)%string
    eqn:En; [|discriminate Hv].
  now apply String.eqb_eq.
Qed.

(** What a verification that returns has established. *)
Lemma verifyLocation_returns S lat lng acc city state poly r calls :
  MapmyIndia.verifyLocation S lat lng acc city state poly = (MapmyIndia.Return r, calls) ->
  (exists n, acc = JNum n /\ num_leb n MapmyIndia.MAX_ACCURACY_RADIUS = true)
  /\ MapmyIndia.configured S = true
  /\ exists data place others,
       MapmyIndia.rev_geocode S lat lng = MapmyIndia.Responds data
       /\ MapmyIndia.not200 (MapmyIndia.rev_responseCode data) = false
       /\ MapmyIndia.rev_results data = Some (place :: others)
       /\ num_leb MapmyIndia.MIN_CONFIDENCE_SCORE (MapmyIndia.confidenceOf data) = true
       /\ (forall c, city = Some c -> c <> "" ->
             MapmyIndia.normalized S (rg_city (MapmyIndia.snapshotOf place))
             = MapmyIndia.normalized S c)
       /\ ((MapmyIndia.hasGeofence poly = false
            /\ calls = [MapmyIndia.RevGeocode lat lng]
            /\ r = {| LocationVerificationResult.isValid := true;
                      LocationVerificationResult.confidenceScore :=
                        JNum (MapmyIndia.confidenceOf data);
                      LocationVerificationResult.accuracyRadius := acc;
                      LocationVerificationResult.reverseGeocode :=
                        Some (MapmyIndia.snapshotOf place);
                      LocationVerificationResult.geofenceResult := None |})
           \/ (exists ring rest gdata hit hits,
                 poly = Some (ring :: rest)
                 /\ (3 <= List.length ring)%nat
                 /\ MapmyIndia.geofence_check S lat lng ring = MapmyIndia.Responds gdata
                 /\ MapmyIndia.not200 (MapmyIndia.geo_responseCode gdata) = false
                 /\ MapmyIndia.geo_results gdata = Some (hit :: hits)
                 /\ MapmyIndia.hit_isInside hit = true
                 /\ calls = [MapmyIndia.RevGeocode lat lng;
                             MapmyIndia.GeofenceCheck lat lng ring]
                 /\ r = {| LocationVerificationResult.isValid := true;
                           LocationVerificationResult.confidenceScore :=
                             JNum (MapmyIndia.confidenceOf data);
                           LocationVerificationResult.accuracyRadius := acc;
                           LocationVerificationResult.reverseGeocode :=
                             Some (MapmyIndia.snapshotOf place);
                           LocationVerificationResult.geofenceResult :=
                             Some {| isInside := true;
                                     distance :=
                                       if Qeq_bool (MapmyIndia.hit_distance hit) 0
                                       then 0%Q else MapmyIndia.hit_distance hit |} |})).
Proof.
  unfold MapmyIndia.verifyLocation. intros H.
  destruct (MapmyIndia.validateAccuracy S acc) as [[]|e] eqn:Ea;
    [|cbn in H; discriminate H].
  split; [now apply (validateAccuracy_returns S)|].
  unfold MapmyIndia.lift in H. cbn [MapmyIndia.bind] in H.
  destruct (MapmyIndia.reverseGeocode S lat lng) as [[r0|e] c0] eqn:Er;
    [|cbn in H; discriminate H].
  destruct (reverseGeocode_returns _ _ _ _ _ Er)
    as (Hconf & -> & data & place & others & Hd & H2 & Hres & Hsc & ->).
  split; [exact Hconf|].
  exists data, place, others.
  split; [exact Hd|]. split; [exact H2|]. split; [exact Hres|]. split; [exact Hsc|].
  cbn [MapmyIndia.bind] in H.
  destruct (MapmyIndia.cityStep S _ city) as [[[]|e] c1] eqn:Ec;
    [|cbn in H; discriminate H].
  destruct (cityStep_returns _ _ _ _ Ec) as (-> & Hcity).
  split.
  { intros c Hc Hne. exact (Hcity c _ Hc Hne eq_refl). }
  cbn [MapmyIndia.bind] in H.
  destruct (MapmyIndia.hasGeofence poly) eqn:Eg.
  - right.
    destruct poly as [[|ring rest]|]; try discriminate Eg.
    unfold MapmyIndia.hasGeofence in Eg.
    apply Nat.leb_le in Eg.
    destruct (MapmyIndia.checkGeofence S lat lng (ring :: rest)) as [[g|e] c2] eqn:Ef;
      [|cbn in H; discriminate H].
    destruct (checkGeofence_returns _ _ _ _ _ _ Ef)
      as (_ & ring' & rest' & gdata & hit & hits & Hp & -> & Hg & Hg2 & Hgr & Hin & ->).
    inversion Hp; subst ring' rest'.
    cbn in H. inversion H.
    exists ring, rest, gdata, hit, hits. repeat split; assumption.
  - left. cbn in H. inversion H. repeat split.
Qed.

(** The requests of a verification: none, the reverse geocoding alone, or
    the reverse geocoding and then the geofence check. *)
Lemma verifyLocation_calls S lat lng acc city state poly :
  let calls := snd (MapmyIndia.verifyLocation S lat lng acc city state poly) in
  calls = []
  \/ calls = [MapmyIndia.RevGeocode lat lng]
  \/ exists ring rest,
       poly = Some (ring :: rest)
       /\ (3 <= List.length ring)%nat
       /\ calls = [MapmyIndia.RevGeocode lat lng; MapmyIndia.GeofenceCheck lat lng ring].
Proof.
  cbv zeta. unfold MapmyIndia.verifyLocation.
  destruct (MapmyIndia.validateAccuracy S acc) as [[]|e]; [|left; reflexivity].
  unfold MapmyIndia.lift. cbn [MapmyIndia.bind].
  destruct (MapmyIndia.reverseGeocode S lat lng) as [[r0|e] c0] eqn:Er.
  2:{ cbn. destruct (reverseGeocode_throws _ _ _ _ _ Er) as [(_ & _ & ->) | (_ & -> & _)];
        [left | right; left]; reflexivity. }
  destruct (reverseGeocode_returns _ _ _ _ _ Er) as (_ & -> & _).
  cbn [MapmyIndia.bind].
  destruct (MapmyIndia.cityStep S _ city) as [[[]|e] c1] eqn:Ec.
  2:{ right. left. cbn.
      unfold MapmyIndia.cityStep in Ec.
      destruct city as [c|]; [|discriminate Ec].
      destruct (truthy (JString c)); [|discriminate Ec].
      destruct (LocationVerificationResult.reverseGeocode _);
        unfold MapmyIndia.lift, MapmyIndia.throw in Ec; inversion Ec; reflexivity. }
  destruct (cityStep_returns _ _ _ _ Ec) as (-> & _).
  cbn [MapmyIndia.bind].
  destruct (MapmyIndia.hasGeofence poly) eqn:Eg; [|right; left; reflexivity].
  destruct poly as [[|ring rest]|]; try discriminate Eg.
    unfold MapmyIndia.hasGeofence in Eg.
  apply Nat.leb_le in Eg.
  destruct (checkGeofence_calls S lat lng (ring :: rest)) as [Hc | (ring' & rest' & Hp & Hc)].
  - right. left.
    destruct (MapmyIndia.checkGeofence S lat lng (ring :: rest)) as [[g|e] c2].
    + cbn in Hc. subst c2. cbn. destruct (isInside g); reflexivity.
    + cbn in Hc. subst c2. reflexivity.
  - right. right. inversion Hp; subst ring' rest'. exists ring, rest.
    split; [reflexivity|]. split; [exact Eg|].
    destruct (MapmyIndia.checkGeofence S lat lng (ring :: rest)) as [[g|e] c2].
    + cbn in Hc. subst c2. cbn. destruct (isInside g); reflexivity.
    + cbn in Hc. subst c2. reflexivity.
Qed.

(** X17.  A fix whose accuracy is not a number of at most 50 metres is
    refused by [verifyLocation] before anything is sent to the provider:
    with "Invalid GPS accuracy data" when the accuracy is not a number, and
    with "GPS accuracy is too low", which quotes the rounded accuracy, when
    it is a number above 50. *)
Theorem inaccurate_fix_is_not_sent (S : MapmyIndia.Service) (lat lng : JsNumber)
    (acc : JsValue) (city state : option string) (poly : option Polygon) :
  withinAccuracy acc = false ->
  exists e,
    MapmyIndia.verifyLocation S lat lng acc city state poly = (MapmyIndia.Throw e, [])
    /\ (e = MapmyIndia.newError
              "Invalid GPS accuracy data. Please enable high-accuracy GPS and try again."
        \/ exists n,
             acc = JNum n
             /\ num_gtb n MapmyIndia.MAX_ACCURACY_RADIUS = true
             /\ e = MapmyIndia.newError
                      ("GPS accuracy is too low (" ++ MapmyIndia.rounded S n ++ "m). "
                         ++ "Please enable high-accuracy GPS and ensure you have a clear view of the sky. "
                         ++ "Maximum allowed accuracy: 50m.")).
Proof.
  intros Hacc.
  assert (H : forall n, acc = JNum n -> num_leb n MapmyIndia.MAX_ACCURACY_RADIUS = false).
  { intros n ->. exact Hacc. }
  unfold MapmyIndia.verifyLocation.
  destruct (validateAccuracy_throws S acc H) as [Ht | (n & Hn & Hg & Ht)];
    rewrite Ht; eexists; (split; [reflexivity|]).
  - left. reflexivity.
  - right. exists n. repeat split; assumption.
Qed.

(** An accuracy of 50.4 m is reported as 50m, and nothing is sent. *)
Lemma inaccurate_fix_is_not_sent_witness :
  MapmyIndia.verifyLocation
    (Provider.service (Some "key") (Provider.located None) (Provider.fenced true 0))
    Provider.latitude Provider.longitude (JNum (JFinite (504 # 10)))
    (Some "New Delhi") None None
  = (MapmyIndia.Throw
       (MapmyIndia.newError
          "GPS accuracy is too low (50m). Please enable high-accuracy GPS and ensure you have a clear view of the sky. Maximum allowed accuracy: 50m."),
     []).
Proof.
  destruct (inaccurate_fix_is_not_sent
              (Provider.service (Some "key") (Provider.located None)
                                (Provider.fenced true 0))
              Provider.latitude Provider.longitude (JNum (JFinite (504 # 10)))
              (Some "New Delhi") None None eq_refl)
    as (e & He & [Hm | (n & Hn & _ & Hm)]).
  - exfalso. rewrite Hm in He. vm_compute in He. discriminate He.
  - rewrite He, Hm. inversion Hn; subst n. reflexivity.
Defined.

(** X18.  Without an API key (absent or empty) the service sends nothing:
    [reverseGeocode] and [checkGeofence] fail at once with "not configured",
    and [verifyLocation] fails with no request made, with that message
    whenever the accuracy was acceptable. *)
Theorem unconfigured_service_sends_nothing (S : MapmyIndia.Service)
    (lat lng : JsNumber) (acc : JsValue) (city state : option string)
    (poly : option Polygon) (fence : Polygon) :
  MapmyIndia.configured S = false ->
  MapmyIndia.reverseGeocode S lat lng = (MapmyIndia.Throw MapmyIndia.notConfigured, [])
  /\ MapmyIndia.checkGeofence S lat lng fence
     = (MapmyIndia.Throw MapmyIndia.notConfigured, [])
  /\ exists e,
       MapmyIndia.verifyLocation S lat lng acc city state poly = (MapmyIndia.Throw e, [])
       /\ (withinAccuracy acc = true -> e = MapmyIndia.notConfigured).
Proof.
  intros Hc.
  assert (Hr : MapmyIndia.reverseGeocode S lat lng
               = (MapmyIndia.Throw MapmyIndia.notConfigured, [])).
  { unfold MapmyIndia.reverseGeocode. rewrite Hc. reflexivity. }
  split; [exact Hr|]. split.
  { unfold MapmyIndia.checkGeofence. rewrite Hc. reflexivity. }
  unfold MapmyIndia.verifyLocation.
  destruct (withinAccuracy acc) eqn:Ea.
  - exists MapmyIndia.notConfigured. split; [|reflexivity].
    assert (Hv : MapmyIndia.validateAccuracy S acc = MapmyIndia.Return tt).
    { apply validateAccuracy_returns. destruct acc; try discriminate Ea. eauto. }
    rewrite Hv, Hr. reflexivity.
  - assert (H : forall n, acc = JNum n
                          -> num_leb n MapmyIndia.MAX_ACCURACY_RADIUS = false).
    { intros n ->. exact Ea. }
    destruct (validateAccuracy_throws S acc H) as [Ht | (n & _ & _ & Ht)];
      rewrite Ht; eexists; (split; [reflexivity | discriminate]).
Qed.

Lemma unconfigured_service_sends_nothing_witness :
  MapmyIndia.verifyLocation
    (Provider.service (Some "") (Provider.located None) (Provider.fenced true 0))
    Provider.latitude Provider.longitude (JNum (JFinite 20))
    (Some "New Delhi") None (Some Provider.campus)
  = (MapmyIndia.Throw MapmyIndia.notConfigured, []).
Proof.
  destruct (unconfigured_service_sends_nothing
              (Provider.service (Some "") (Provider.located None)
                                (Provider.fenced true 0))
              Provider.latitude Provider.longitude (JNum (JFinite 20))
              (Some "New Delhi") None (Some Provider.campus) [] eq_refl)
    as (_ & _ & e & He & Hm).
  rewrite He, (Hm eq_refl). reflexivity.
Defined.

(** X19.  A verification that returns has established this much: the
    accuracy is a number of at most 50 metres; the key is configured; the
    provider answered the reverse geocoding of these coordinates with
    response code 200 and at least one place; and the confidence score, or
    0.8 when the provider gave none, zero or NaN, is at least 0.6.  The
    result is valid, repeats the accuracy as given and that score, and holds
    the snapshot of the first place: the three fields that the controller
    requires are present. *)
Theorem verified_location_is_attested (S : MapmyIndia.Service) (lat lng : JsNumber)
    (acc : JsValue) (city state : option string) (poly : option Polygon)
    (r : LocationVerificationResult.t) (calls : list MapmyIndia.HttpGet) :
  MapmyIndia.verifyLocation S lat lng acc city state poly = (MapmyIndia.Return r, calls) ->
  withinAccuracy acc = true
  /\ MapmyIndia.configured S = true
  /\ exists data place others,
       MapmyIndia.rev_geocode S lat lng = MapmyIndia.Responds data
       /\ MapmyIndia.not200 (MapmyIndia.rev_responseCode data) = false
       /\ MapmyIndia.rev_results data = Some (place :: others)
       /\ num_leb MapmyIndia.MIN_CONFIDENCE_SCORE (MapmyIndia.confidenceOf data) = true
       /\ LocationVerificationResult.isValid r = true
       /\ LocationVerificationResult.confidenceScore r
          = JNum (MapmyIndia.confidenceOf data)
       /\ LocationVerificationResult.accuracyRadius r = acc
       /\ LocationVerificationResult.reverseGeocode r
          = Some (MapmyIndia.snapshotOf place)
       /\ verificationDataPresent r = true.
Proof.
  intros H.
  destruct (verifyLocation_returns _ _ _ _ _ _ _ _ _ H)
    as ((n & -> & Hn) & Hc & data & place & others & Hd & H2 & Hres & Hsc & _ & Hr).
  split; [exact Hn|]. split; [exact Hc|].
  exists data, place, others.
  split; [exact Hd|]. split; [exact H2|]. split; [exact Hres|]. split; [exact Hsc|].
  destruct Hr as [(_ & _ & ->) | (ring & rest & gdata & hit & hits & _ & _ & _ & _ & _
                                  & _ & _ & ->)];
    repeat split.
Qed.

Lemma verified_location_is_attested_witness :
  LocationVerificationResult.confidenceScore (Provider.attested None)
  = JNum (JFinite (8 # 10))
  /\ verificationDataPresent (Provider.attested None) = true.
Proof.
  destruct (verified_location_is_attested
              (Provider.service (Some "key") (Provider.located (Some (JFinite 0)))
                                Provider.timeout)
              Provider.latitude Provider.longitude (JNum (JFinite 20))
              (Some "New Delhi") None None
              (Provider.attested None)
              [MapmyIndia.RevGeocode Provider.latitude Provider.longitude]
              eq_refl)
    as (_ & _ & data & place & others & Hd & _ & _ & _ & _ & Hs & _ & _ & Hp).
  split; [|exact Hp].
  rewrite Hs. inversion Hd. reflexivity.
Defined.

(** X20.  A verification that returns has placed the user: when the session
    names a city, the city of the snapshot equals it up to case and
    surrounding white space; when the session has a fence whose first ring
    has at least three points, the provider answered the geofence check of
    these coordinates against that ring with response code 200 and a first
    result that is inside, and the result carries it; otherwise no geofence
    check was requested and the result carries none.  A geofence result that
    is returned always says inside. *)
Theorem verified_location_is_in_place (S : MapmyIndia.Service) (lat lng : JsNumber)
    (acc : JsValue) (city state : option string) (poly : option Polygon)
    (r : LocationVerificationResult.t) (calls : list MapmyIndia.HttpGet) :
  MapmyIndia.verifyLocation S lat lng acc city state poly = (MapmyIndia.Return r, calls) ->
  (forall c, city = Some c -> c <> "" ->
     exists rg, LocationVerificationResult.reverseGeocode r = Some rg
                /\ MapmyIndia.normalized S (rg_city rg) = MapmyIndia.normalized S c)
  /\ (MapmyIndia.hasGeofence poly = false ->
        LocationVerificationResult.geofenceResult r = None
        /\ calls = [MapmyIndia.RevGeocode lat lng])
  /\ (MapmyIndia.hasGeofence poly = true ->
        exists ring rest gdata hit hits g,
          poly = Some (ring :: rest)
          /\ MapmyIndia.geofence_check S lat lng ring = MapmyIndia.Responds gdata
          /\ MapmyIndia.not200 (MapmyIndia.geo_responseCode gdata) = false
          /\ MapmyIndia.geo_results gdata = Some (hit :: hits)
          /\ MapmyIndia.hit_isInside hit = true
          /\ LocationVerificationResult.geofenceResult r = Some g
          /\ (distance g == MapmyIndia.hit_distance hit)%Q
          /\ calls = [MapmyIndia.RevGeocode lat lng;
                      MapmyIndia.GeofenceCheck lat lng ring])
  /\ (forall g, LocationVerificationResult.geofenceResult r = Some g ->
                isInside g = true).
Proof.
  intros H.
  destruct (verifyLocation_returns _ _ _ _ _ _ _ _ _ H)
    as (_ & _ & data & place & others & _ & _ & _ & _ & Hcity & Hr).
  assert (Hd : forall d : Q, ((if Qeq_bool d 0 then 0 else d) == d)%Q).
  { intros d. destruct (Qeq_bool d 0) eqn:E; [|reflexivity].
    symmetry. now apply Qeq_bool_eq. }
  destruct Hr as [(Hg & -> & ->) | (ring & rest & gdata & hit & hits & -> & Hlen & Hgc
                                    & Hg2 & Hgr & Hin & -> & ->)].
  - split; [|split; [|split]].
    + intros c Hc Hne. eexists. split; [reflexivity|]. exact (Hcity c Hc Hne).
    + intros _. split; reflexivity.
    + intros Hg'. rewrite Hg in Hg'. discriminate Hg'.
    + cbn. discriminate.
  - split; [|split; [|split]].
    + intros c Hc Hne. eexists. split; [reflexivity|]. exact (Hcity c Hc Hne).
    + unfold MapmyIndia.hasGeofence. intros Hg'. apply Nat.leb_gt in Hg'. lia.
    + intros _. exists ring, rest, gdata, hit, hits. eexists.
      split; [reflexivity|]. split; [exact Hgc|]. split; [exact Hg2|].
      split; [exact Hgr|]. split; [exact Hin|]. split; [reflexivity|].
      split; [apply Hd | reflexivity].
    + cbn. intros g Hg'. inversion Hg'. reflexivity.
Qed.

(** The session is in " new delhi" and fenced; the provider says New Delhi
    and inside, 0 m away. *)
Lemma verified_location_is_in_place_witness :
  isInside {| isInside := true; distance := 0 |} = true
  /\ Provider.normalized "New Delhi" = Provider.normalized " new delhi".
Proof.
  destruct (verified_location_is_in_place
              (Provider.service (Some "key") (Provider.located None)
                                (Provider.fenced true 0))
              Provider.latitude Provider.longitude (JNum (JFinite 20))
              (Some " new delhi") None (Some Provider.campus)
              (Provider.attested (Some {| isInside := true; distance := 0 |}))
              [MapmyIndia.RevGeocode Provider.latitude Provider.longitude;
               MapmyIndia.GeofenceCheck Provider.latitude Provider.longitude
                 [[77208 # 1000; 286138 # 10000]; [77210 # 1000; 286138 # 10000];
                  [77210 # 1000; 286140 # 10000]; [77208 # 1000; 286140 # 10000]]%Q]
              eq_refl)
    as (Hc & _ & _ & Hg).
  split; [exact (Hg _ eq_refl)|].
  destruct (Hc " new delhi" eq_refl) as (rg & Hrg & Hn); [discriminate|].
  inversion Hrg; subst rg. exact Hn.
Defined.

Lemma reverseGeocode_responded S lat lng data e calls :
  MapmyIndia.rev_geocode S lat lng = MapmyIndia.Responds data ->
  MapmyIndia.reverseGeocode S lat lng = (MapmyIndia.Throw e, calls) ->
  MapmyIndia.configured S = true ->
  e = MapmyIndia.newError "Unable to verify location at this time. Attendance not marked.".
Proof.
  intros Hd H Hc. unfold MapmyIndia.reverseGeocode in H. rewrite Hc, Hd in H.
  cbn [negb] in H.
  unfold MapmyIndia.tryCatch, MapmyIndia.bind, MapmyIndia.axiosGet in H.
  destruct (MapmyIndia.not200 (MapmyIndia.rev_responseCode data)).
  { cbn in H. now inversion H. }
  destruct (MapmyIndia.rev_results data) as [[|place others]|];
    try (cbn in H; now inversion H).
  destruct (MapmyIndia.num_ltb _ _); cbn in H; [now inversion H | discriminate H].
Qed.

(** X21.  [reverseGeocode] fails in five wordings only, each a plain error
    without response or request: "not configured", and four standard
    messages chosen by the kind of failure of the HTTP client.  Whatever it
    finds wrong in a response that did arrive (a response code other than
    200, no results, a confidence score below 0.6) is reported with the last
    of them, "Unable to verify location at this time. Attendance not
    marked."; the specific messages written for these cases, the confidence
    score among them, never leave the function. *)
Theorem reverse_geocode_failures_are_generic (S : MapmyIndia.Service)
    (lat lng : JsNumber) (e : MapmyIndia.Exception)
    (calls : list MapmyIndia.HttpGet) :
  MapmyIndia.reverseGeocode S lat lng = (MapmyIndia.Throw e, calls) ->
  e = MapmyIndia.newError (MapmyIndia.message e)
  /\ In (MapmyIndia.message e) reverseGeocodeFailures
  /\ (forall data,
        MapmyIndia.configured S = true ->
        MapmyIndia.rev_geocode S lat lng = MapmyIndia.Responds data ->
        MapmyIndia.message e
        = "Unable to verify location at this time. Attendance not marked.").
Proof.
  intros H.
  destruct (reverseGeocode_throws _ _ _ _ _ H)
    as [(_ & -> & _) | (_ & _ & m & -> & Hin)].
  - split; [reflexivity|]. split; [left; reflexivity|].
    intros data Hc Hd.
    now rewrite (reverseGeocode_responded _ _ _ _ _ _ Hd H Hc).
  - split; [reflexivity|]. split; [right; exact Hin|].
    intros data Hc Hd.
    now rewrite (reverseGeocode_responded _ _ _ _ _ _ Hd H Hc).
Qed.

(** A confidence score of 0.31 is reported with the generic wording. *)
Lemma reverse_geocode_failures_are_generic_witness :
  In "Unable to verify location at this time. Attendance not marked."
     reverseGeocodeFailures.
Proof.
  destruct (reverse_geocode_failures_are_generic
              (Provider.service (Some "key") (Provider.located (Some (JFinite (31 # 100))))
                                Provider.timeout)
              Provider.latitude Provider.longitude
              (MapmyIndia.newError
                 "Unable to verify location at this time. Attendance not marked.")
              [MapmyIndia.RevGeocode Provider.latitude Provider.longitude]
              eq_refl)
    as (_ & H & _).
  exact H.
Defined.

(* ------------------------------------------------------------------ *)
(** * The controller on top of the service *)

Lemma verify_calls_before_gate env req session :
  filter isVerifyCall (loads req ++ [duplicateQuery env req session]) = [].
Proof. reflexivity. Qed.

(** The calls of [verifyLocation] in a run: none, or the one of the gate. *)
Lemma markAttendance_verify_calls env w req :
  filter isVerifyCall (trace (markAttendance env w req)) = []
  \/ exists user session late lateBy assignment,
       scheduled env w req user session
       /\ tooEarly env session = None
       /\ lateness (timeDifferenceMs env session) (lateAttendanceLimit env)
                   (isStrictAttendance env) = Accepted late lateBy
       /\ findAssignment session (userId req) = Some assignment
       /\ isLocationRequired session assignment = true
       /\ filter isVerifyCall (trace (markAttendance env w req))
          = [VerifyLocationCall (verifyArgs req session)].
Proof.
  destruct (validateRequest env req) as [r|] eqn:Hv.
  { left. unfold markAttendance. rewrite Hv. reflexivity. }
  destruct (findUserById w (userId req)) as [user|] eqn:Hu;
    [|left; unfold markAttendance; rewrite Hv, Hu; reflexivity].
  destruct (findSessionById w (sessionId req)) as [session|] eqn:Hs;
    [|left; unfold markAttendance; rewrite Hv, Hu, Hs; reflexivity].
  assert (Hl : loaded env w req user session) by (repeat split; assumption).
  destruct (isSessionDateToday env session) eqn:Ht;
    [|left; rewrite (markAttendance_loaded _ _ _ _ _ Hl), Ht; reflexivity].
  destruct (existingAttendance env w req session) eqn:He;
    [left; rewrite (markAttendance_loaded _ _ _ _ _ Hl), Ht, He; reflexivity|].
  assert (Hsch : scheduled env w req user session) by (repeat split; assumption).
  rewrite (markAttendance_scheduled _ _ _ _ _ Hsch). cbv zeta.
  destruct (tooEarly env session) as [r|] eqn:Hw; [left; reflexivity|].
  destruct (lateness _ _ _) as [late lateBy|m s] eqn:Hlate; [|left; reflexivity].
  destruct (findAssignment session (userId req)) as [assignment|] eqn:Ha;
    [|left; reflexivity].
  destruct (locationGate env req session assignment) as [[r|verified result] calls] eqn:Hg.
  - destruct (locationGate_responded _ _ _ _ _ _ Hg) as (Hr & _ & [-> | ->]).
    + left. cbn [trace]. rewrite ?filter_app. reflexivity.
    + right. exists user, session, late, lateBy, assignment.
      repeat (split; [assumption|]). cbn [trace]. rewrite ?filter_app. reflexivity.
  - pose proof (locationGate_open _ _ _ _ _ _ _ Hg) as (-> & Hopen).
    rewrite (assertAfterGate_open _ _ _ _ _ _ Hg).
    assert (Hcommit : forall w0 tr,
               trace (commit env req session (isLocationRequired session assignment)
                             true result late lateBy w0 tr)
               = (tr ++ [SaveAttendance (recordOf env req result late lateBy)])
                   ++ [SaveSession (rosterAfter session assignment (userId req) late)]).
    { intros w0 tr. now rewrite (commit_after_gate _ _ _ _ _ _ _ _ _ _ Ha Hg). }
    destruct Hopen as [(Hr & -> & _) | (Hr & -> & _)].
    + right. exists user, session, late, lateBy, assignment.
      repeat (split; [assumption|]).
      destruct (deviceGuard user req); rewrite ?Hcommit; cbn [trace];
        rewrite ?filter_app; reflexivity.
    + left.
      destruct (deviceGuard user req); rewrite ?Hcommit; cbn [trace];
        rewrite ?filter_app; reflexivity.
Qed.

(** X22.  [markAttendance] calls [verifyLocation] at most once, and only
    for an attempt that is scheduled today, is no duplicate, is inside the
    window, is on the roster and requires location.  The arguments are the
    request's own: two numbers that are not both zero, an accuracy above 0
    and of at most 1000 metres, and the city, state and fence of the stored
    session. *)
Theorem verification_is_called_once (env : Env) (w : World) (req : Request) :
  let tr := trace (markAttendance env w req) in
  (List.length (filter isVerifyCall tr) <= 1)%nat
  /\ forall args,
       In (VerifyLocationCall args) tr ->
       exists user session late lateBy assignment lat lng q,
         scheduled env w req user session
         /\ tooEarly env session = None
         /\ lateness (timeDifferenceMs env session) (lateAttendanceLimit env)
                     (isStrictAttendance env) = Accepted late lateBy
         /\ findAssignment session (userId req) = Some assignment
         /\ isLocationRequired session assignment = true
         /\ args = {| v_latitude := JNum lat;
                      v_longitude := JNum lng;
                      v_accuracyRadius := JNum (JFinite q);
                      v_sessionCity := Session.city session;
                      v_sessionState := Session.state session;
                      v_geofencePolygon := Session.geofence session |}
         /\ get (userLocation req) "latitude" = JNum lat
         /\ get (userLocation req) "longitude" = JNum lng
         /\ num_is_zero lat && num_is_zero lng = false
         /\ accuracy req = JNum (JFinite q)
         /\ (0 < q)%Q /\ (q <= 1000)%Q.
Proof.
  cbv zeta.
  destruct (markAttendance_verify_calls env w req)
    as [H | (user & session & late & lateBy & assignment & Hs & Hw & Hl & Ha & Hr & H)].
  - rewrite H. split; [cbn; lia|].
    intros args Hin.
    assert (Hf : In (VerifyLocationCall args)
                    (filter isVerifyCall (trace (markAttendance env w req)))).
    { apply filter_In. split; [exact Hin | reflexivity]. }
    rewrite H in Hf. contradiction Hf.
  - rewrite H. split; [cbn; lia|].
    intros args Hin.
    assert (Hf : In (VerifyLocationCall args)
                    (filter isVerifyCall (trace (markAttendance env w req)))).
    { apply filter_In. split; [exact Hin | reflexivity]. }
    rewrite H in Hf. destruct Hf as [Hf|[]]. inversion Hf; subst args. clear Hf.
    pose proof Hs as ((Hv & _ & _) & _ & _).
    destruct (validateRequest_passed _ _ Hv)
      as (_ & _ & _ & _ & (lat & lng & Hlat & Hlng & Hz) & (q & Hq & Hq0 & Hq1) & _).
    exists user, session, late, lateBy, assignment, lat, lng, q.
    repeat (split; [assumption|]).
    split.
    { unfold verifyArgs. rewrite Hlat, Hlng, Hq. reflexivity. }
    repeat (split; [assumption|]). assumption.
Qed.

Lemma awaited_resolved m r :
  MapmyIndia.awaited m = Resolved (Some r) ->
  exists calls, m = (MapmyIndia.Return r, calls).
Proof.
  unfold MapmyIndia.awaited. destruct m as [[r0|e] calls]; cbn; intros H;
    inversion H. now exists calls.
Qed.

(** X23.  With the service in place, a check-in that requires location and
    is answered 201 is attested end to end: the request's accuracy is above
    0 and at most 50 metres, the provider has reverse geocoded the request's
    coordinates with response code 200, a place and a confidence of at least
    0.6, the place is in the session's city when the session names one, and
    the provider has found the coordinates inside the session's fence when
    the session has one of three points or more.  The stored record keeps
    the snapshot of that place, that confidence and the request's accuracy. *)
Theorem check_in_is_attested (S : MapmyIndia.Service) (env : Env) (w : World)
    (req : Request) (session : Session.t) (assignment : Assignment.t) :
  status (response (markAttendance (withService S env) w req)) = 201 ->
  findSessionById w (sessionId req) = Some session ->
  findAssignment session (userId req) = Some assignment ->
  isLocationRequired session assignment = true ->
  exists lat lng q data place others a,
    get (userLocation req) "latitude" = JNum lat
    /\ get (userLocation req) "longitude" = JNum lng
    /\ accuracy req = JNum (JFinite q) /\ (0 < q)%Q /\ (q <= 50)%Q
    /\ MapmyIndia.configured S = true
    /\ MapmyIndia.rev_geocode S lat lng = MapmyIndia.Responds data
    /\ MapmyIndia.not200 (MapmyIndia.rev_responseCode data) = false
    /\ MapmyIndia.rev_results data = Some (place :: others)
    /\ num_leb MapmyIndia.MIN_CONFIDENCE_SCORE (MapmyIndia.confidenceOf data) = true
    /\ (forall c, Session.city session = Some c -> c <> "" ->
          MapmyIndia.normalized S (rg_city (MapmyIndia.snapshotOf place))
          = MapmyIndia.normalized S c)
    /\ (MapmyIndia.hasGeofence (Session.geofence session) = true ->
          exists ring rest gdata hit hits,
            Session.geofence session = Some (ring :: rest)
            /\ MapmyIndia.geofence_check S lat lng ring = MapmyIndia.Responds gdata
            /\ MapmyIndia.not200 (MapmyIndia.geo_responseCode gdata) = false
            /\ MapmyIndia.geo_results gdata = Some (hit :: hits)
            /\ MapmyIndia.hit_isInside hit = true)
    /\ body (response (markAttendance (withService S env) w req)) = Created a
    /\ Attendance.locationVerified a = true
    /\ Attendance.reverseGeocodeSnapshot a = Some (MapmyIndia.snapshotOf place)
    /\ Attendance.confidenceScore a = JNum (MapmyIndia.confidenceOf data)
    /\ Attendance.accuracyRadius a = accuracy req.
Proof.
  intros Hok Hs Ha Hreq.
  destruct (created_inv _ _ _ Hok)
    as (user & session' & late & lateBy & assignment' & result & calls & Hc & Hm).
  pose proof Hc as (((Hv & _ & Hs') & _ & _) & _ & _ & Ha' & Hg).
  rewrite Hs in Hs'. inversion Hs'; subst session'. clear Hs'.
  rewrite Ha in Ha'. inversion Ha'; subst assignment'. clear Ha'.
  destruct (locationGate_open _ _ _ _ _ _ _ Hg)
    as (_ & [(_ & _ & r & -> & Hver & _ & _) | (Hno & _)]); [|congruence].
  destruct (validateRequest_passed _ _ Hv)
    as (_ & _ & _ & _ & (lat & lng & Hlat & Hlng & _) & (q & Hq & Hq0 & _) & _).
  cbn [verifyLocation withService] in Hver.
  apply awaited_resolved in Hver as [hcalls Hver].
  unfold MapmyIndia.called, verifyArgs in Hver.
  cbn [v_latitude v_longitude v_accuracyRadius v_sessionCity v_sessionState
       v_geofencePolygon] in Hver.
  rewrite Hlat, Hlng, Hq in Hver. cbn [number_of] in Hver.
  destruct (verifyLocation_returns _ _ _ _ _ _ _ _ _ Hver)
    as ((n & Hn & Hacc) & Hconf & data & place & others & Hd & H2 & Hres & Hsc
        & Hcity & Hr).
  inversion Hn; subst n. cbn in Hacc. apply Qle_bool_iff in Hacc.
  exists lat, lng, q, data, place, others, (recordOf (withService S env) req (Some r)
                                                late lateBy).
  repeat (split; [assumption|]).
  split.
  { intros Hfence. destruct Hr as [(Hnf & _) | (ring & rest & gdata & hit & hits & Hp
                                                & _ & Hgc & Hg2 & Hgr & Hin & _)];
      [congruence|].
    exists ring, rest, gdata, hit, hits. repeat (split; [assumption|]). assumption. }
  split.
  { destruct Hm as [(_ & ->) | (user' & _ & ->)]; reflexivity. }
  split; [reflexivity|].
  rewrite Hq.
  destruct Hr as [(_ & _ & ->) | (ring & rest & gdata & hit & hits & _ & _ & _ & _ & _
                                  & _ & _ & ->)];
    repeat split.
Qed.

(** The scenario's user checks in to the fenced session in " new delhi". *)
Lemma check_in_is_attested_witness :
  let S := Provider.service (Some "key") (Provider.located None)
                            (Provider.fenced true 0) in
  let w := Scenario.world Scenario.registered Provider.office [] in
  exists a,
    body (response (markAttendance (withService S Scenario.env0) w Scenario.request))
    = Created a
    /\ Attendance.confidenceScore a = JNum (JFinite (8 # 10)).
Proof.
  cbv zeta.
  destruct (check_in_is_attested
              (Provider.service (Some "key") (Provider.located None)
                                (Provider.fenced true 0))
              Scenario.env0
              (Scenario.world Scenario.registered Provider.office [])
              Scenario.request Provider.office (Scenario.assigned Mode.PHYSICAL)
              eq_refl eq_refl eq_refl eq_refl)
    as (lat & lng & q & data & place & others & a & _ & _ & _ & _ & _ & _ & Hd & _ & _
        & _ & _ & _ & Hb & _ & _ & Hs & _).
  exists a. split; [exact Hb|]. rewrite Hs. inversion Hd. reflexivity.
Defined.

(** X24.  The controller accepts an accuracy of up to 1000 metres and the
    service one of up to 50.  With the service in place, an attempt that
    requires location and reaches the gate with an accuracy above 50 metres
    is answered 403, reason MAPMYINDIA_VERIFICATION_FAILED, with the
    service's "GPS accuracy is too low" and the rounded accuracy; the
    provider is not contacted and nothing is written. *)
Theorem coarse_fix_is_refused_unsent (S : MapmyIndia.Service) (env : Env) (w : World)
    (req : Request) (user : User.t) (session : Session.t) (late : bool)
    (lateBy : option Z) (assignment : Assignment.t) :
  scheduled (withService S env) w req user session ->
  tooEarly (withService S env) session = None ->
  lateness (timeDifferenceMs (withService S env) session)
           (lateAttendanceLimit (withService S env))
           (isStrictAttendance (withService S env)) = Accepted late lateBy ->
  findAssignment session (userId req) = Some assignment ->
  isLocationRequired session assignment = true ->
  withinAccuracy (accuracy req) = false ->
  exists q,
    accuracy req = JNum (JFinite q) /\ (50 < q)%Q /\ (q <= 1000)%Q
    /\ snd (MapmyIndia.called S (verifyArgs req session)) = []
    /\ markAttendance (withService S env) w req
       = mkOutcome
           (reject 403
              ("GPS accuracy is too low (" ++ MapmyIndia.rounded S (JFinite q) ++ "m). "
                 ++ "Please enable high-accuracy GPS and ensure you have a clear view of the sky. "
                 ++ "Maximum allowed accuracy: 50m.")
              "MAPMYINDIA_VERIFICATION_FAILED")
           ((loads req ++ [duplicateQuery (withService S env) req session])
              ++ [VerifyLocationCall (verifyArgs req session)])
           w.
Proof.
  intros Hs Hw Hl Ha Hr Hacc.
  pose proof Hs as ((Hv & _ & _) & _ & _).
  destruct (validateRequest_passed _ _ Hv)
    as (_ & _ & _ & _ & _ & (q & Hq & Hq0 & Hq1) & _).
  exists q. split; [exact Hq|].
  rewrite Hq in Hacc. cbn in Hacc.
  assert (H50 : (50 < q)%Q).
  { apply Qnot_le_lt. intros Hle. apply Qle_bool_iff in Hle. congruence. }
  split; [exact H50|]. split; [exact Hq1|].
  assert (Hcall : MapmyIndia.called S (verifyArgs req session)
                  = (MapmyIndia.Throw
                       (MapmyIndia.newError
                          ("GPS accuracy is too low (" ++ MapmyIndia.rounded S (JFinite q)
                             ++ "m). "
                             ++ "Please enable high-accuracy GPS and ensure you have a clear view of the sky. "
                             ++ "Maximum allowed accuracy: 50m.")), [])).
  { unfold MapmyIndia.called, MapmyIndia.verifyLocation, verifyArgs.
    cbn [v_accuracyRadius]. rewrite Hq.
    unfold MapmyIndia.validateAccuracy. cbn. rewrite Hacc. reflexivity. }
  split; [now rewrite Hcall|].
  rewrite (markAttendance_scheduled _ _ _ _ _ Hs), Hw, Hl, Ha. cbv zeta.
  unfold locationGate. rewrite Hr, (validated_location_data _ _ Hv).
  cbn [verifyLocation withService]. rewrite Hcall. reflexivity.
Qed.

(** An accuracy of 120 m passes the controller and stops at the service. *)
Lemma coarse_fix_is_refused_unsent_witness :
  let S := Provider.service (Some "key") (Provider.located None)
                            (Provider.fenced true 0) in
  let w := Scenario.world Scenario.registered Provider.office [] in
  response (markAttendance (withService S Scenario.env0) w
                           (Scenario.withAccuracy (JNum (JFinite 120))))
  = reject 403
      "GPS accuracy is too low (120m). Please enable high-accuracy GPS and ensure you have a clear view of the sky. Maximum allowed accuracy: 50m."
      "MAPMYINDIA_VERIFICATION_FAILED".
Proof.
  cbv zeta.
  destruct (coarse_fix_is_refused_unsent
              (Provider.service (Some "key") (Provider.located None)
                                (Provider.fenced true 0))
              Scenario.env0
              (Scenario.world Scenario.registered Provider.office [])
              (Scenario.withAccuracy (JNum (JFinite 120)))
              Scenario.registered Provider.office false None
              (Scenario.assigned Mode.PHYSICAL))
    as (q & Hq & _ & _ & _ & Hm).
  - repeat split; reflexivity.
  - reflexivity.
  - reflexivity.
  - reflexivity.
  - reflexivity.
  - reflexivity.
  - rewrite Hm. inversion Hq; subst q. reflexivity.
Defined.

(* ------------------------------------------------------------------ *)
(** * Properties of the listings *)

Lemma insertNewestFirst_perm a l : Permutation (insertNewestFirst a l) (a :: l).
Proof.
  induction l as [|b l IH]; [reflexivity|]. cbn.
  destruct (Attendance.checkInTime b <=? Attendance.checkInTime a); [reflexivity|].
  rewrite IH. apply perm_swap.
Qed.

Lemma sortNewestFirst_perm l : Permutation (sortNewestFirst l) l.
Proof.
  induction l as [|a l IH]; [reflexivity|]. cbn.
  rewrite insertNewestFirst_perm. now constructor.
Qed.

Lemma insertNewestFirst_sorted a l :
  Sorted (fun x y => Attendance.checkInTime y <= Attendance.checkInTime x) l ->
  Sorted (fun x y => Attendance.checkInTime y <= Attendance.checkInTime x)
         (insertNewestFirst a l).
Proof.
  induction l as [|b l IH]; intros Hs.
  - repeat constructor.
  - cbn. destruct (Attendance.checkInTime b <=? Attendance.checkInTime a) eqn:E.
    + apply Z.leb_le in E. constructor; [exact Hs | constructor; exact E].
    + apply Z.leb_gt in E. inversion Hs as [|? ? Hs' Hhd]; subst.
      constructor; [apply IH, Hs'|].
      destruct l as [|c l]; cbn.
      * constructor. lia.
      * destruct (Attendance.checkInTime c <=? Attendance.checkInTime a);
          constructor; [lia|]. now inversion Hhd.
Qed.

Lemma sortNewestFirst_sorted l :
  StronglySorted (fun x y => Attendance.checkInTime y <= Attendance.checkInTime x)
                 (sortNewestFirst l).
Proof.
  apply Sorted_StronglySorted.
  - intros x y z Hxy Hyz. lia.
  - induction l as [|a l IH]; [constructor|]. cbn. now apply insertNewestFirst_sorted.
Qed.

Lemma sessionMapOf_from l (m : SessionMap) k :
  fold_left (fun m s => mapSet m (Session.id s) s) l m k
  = match find (fun s => (Session.id s =? k)%string) (rev l) with
    | Some s => Some s
    | None => m k
    end.
Proof.
  revert m. induction l as [|s l IH]; intros m; [reflexivity|].
  cbn [fold_left rev]. rewrite IH.
  assert (Hf : forall l1 l2,
             find (fun s => (Session.id s =? k)%string) (l1 ++ l2)
             = match find (fun s => (Session.id s =? k)%string) l1 with
               | Some x => Some x
               | None => find (fun s => (Session.id s =? k)%string) l2
               end).
  { intros l1 l2. induction l1 as [|x l1 IH1]; [reflexivity|]. cbn.
    destruct (Session.id x =? k)%string; [reflexivity | exact IH1]. }
  rewrite Hf. destruct (find _ (rev l)); [reflexivity|].
  cbn. unfold mapSet. rewrite String.eqb_sym.
  destruct (Session.id s =? k)%string; reflexivity.
Qed.

Lemma sessionMapOf_some l k s :
  sessionMapOf l k = Some s -> In s l /\ Session.id s = k.
Proof.
  unfold sessionMapOf. rewrite sessionMapOf_from.
  destruct (find _ (rev l)) as [x|] eqn:E; [|discriminate].
  intros H. inversion H; subst x. apply find_some in E as [Hin Hid].
  split; [now apply in_rev | now apply String.eqb_eq].
Qed.

Lemma sessionMapOf_none l k :
  sessionMapOf l k = None <-> forall s, In s l -> Session.id s <> k.
Proof.
  unfold sessionMapOf. rewrite sessionMapOf_from. split.
  - destruct (find _ (rev l)) eqn:E; [discriminate|]. intros _ s Hin Hid.
    apply in_rev in Hin. pose proof (find_none _ _ E s Hin) as Hn.
    cbn in Hn. apply String.eqb_eq in Hid. congruence.
  - intros H. destruct (find _ (rev l)) as [x|] eqn:E; [|reflexivity].
    apply find_some in E as [Hin Hid]. apply String.eqb_eq in Hid.
    apply in_rev in Hin. now destruct (H x Hin).
Qed.

Lemma findSessionsIn_spec w ids s :
  In s (findSessionsIn w ids) <-> In s (sessions w) /\ In (Session.id s) ids.
Proof.
  unfold findSessionsIn. rewrite filter_In, existsb_exists. split.
  - intros (Hin & x & Hx & Hid). apply String.eqb_eq in Hid. subst x. now split.
  - intros (Hin & Hid). split; [exact Hin|]. exists (Session.id s).
    split; [exact Hid | apply String.eqb_refl].
Qed.

(** The records and the map that the two listings are built from. *)
Lemma joinSessions_spec w uid :
  exists sessionMap queries,
    joinSessions w uid = (findAttendanceOfUser w uid, sessionMap, queries)
    /\ forall a, In a (findAttendanceOfUser w uid) ->
         (sessionMap (Attendance.sessionId a) = None
          <-> findSessionById w (Attendance.sessionId a) = None)
         /\ forall s, sessionMap (Attendance.sessionId a) = Some s ->
              In s (sessions w) /\ Session.id s = Attendance.sessionId a.
Proof.
  unfold joinSessions.
  destruct (0 <? List.length (map Attendance.sessionId (findAttendanceOfUser w uid)))%nat
    eqn:E.
  - eexists. eexists. split; [reflexivity|]. intros a Hin.
    assert (Hid : In (Attendance.sessionId a)
                     (map Attendance.sessionId (findAttendanceOfUser w uid)))
      by now apply in_map.
    split.
    + rewrite sessionMapOf_none. unfold findSessionById. split.
      * intros H. destruct (find _ (sessions w)) as [s|] eqn:Ef; [|reflexivity].
        apply find_some in Ef as [Hs Hk]. apply String.eqb_eq in Hk.
        destruct (H s); [|exact Hk]. apply findSessionsIn_spec. split; [exact Hs|].
        now rewrite Hk.
      * intros H s Hs Hk. apply findSessionsIn_spec in Hs as [Hs _].
        pose proof (find_none _ _ H s Hs) as Hn. cbn in Hn.
        apply String.eqb_eq in Hk. congruence.
    + intros s Hs. apply sessionMapOf_some in Hs as [Hs Hk].
      apply findSessionsIn_spec in Hs as [Hs _]. now split.
  - eexists. eexists. split; [reflexivity|]. intros a Hin. exfalso.
    apply Nat.ltb_ge in E. rewrite length_map in E.
    destruct (findAttendanceOfUser w uid); [contradiction Hin | cbn in E; lia].
Qed.

Lemma findAttendanceOfUser_spec w uid a :
  In a (findAttendanceOfUser w uid)
  <-> In a (attendance w) /\ Attendance.userId a = uid.
Proof.
  unfold findAttendanceOfUser. split.
  - intros H. apply (Permutation_in _ (sortNewestFirst_perm _)) in H.
    apply filter_In in H as [Hin Hid]. now apply String.eqb_eq in Hid.
  - intros [Hin Hid].
    apply (Permutation_in _ (Permutation_sym (sortNewestFirst_perm _))).
    apply filter_In. split; [exact Hin | now apply String.eqb_eq].
Qed.

Lemma StronglySorted_map {A B : Type} (f : A -> B) (R : B -> B -> Prop) (l : list A) :
  StronglySorted (fun x y => R (f x) (f y)) l -> StronglySorted R (map f l).
Proof.
  induction 1 as [|a l Hs IH Hall]; cbn; constructor; [exact IH|].
  apply Forall_map. exact Hall.
Qed.

(** X25.  [getMyAttendance] lists the caller's records and no others: each
    entry carries the caller's id, there are as many entries as the caller
    has records, they are in the order of their check-in time, newest first,
    and every record of the caller is shown with all its fields, its session
    being populated exactly when a session with that id is stored (and then
    with a stored session of that id), and [null] otherwise. *)
Theorem my_attendance_is_mine (w : World) (uid : string) :
  exists records,
    fst (getMyAttendance w uid) = Sent records
    /\ Forall (fun v => MyRecord.userId v = uid) records
    /\ List.length records
       = List.length (filter (fun a => (Attendance.userId a =? uid)%string)
                             (attendance w))
    /\ StronglySorted (fun u v => MyRecord.checkInTime v <= MyRecord.checkInTime u)
                      records
    /\ forall a,
         In a (attendance w) -> Attendance.userId a = uid ->
         exists v,
           In v records
           /\ shows v a
           /\ (MyRecord.sessionId v = None
               <-> findSessionById w (Attendance.sessionId a) = None)
           /\ forall s, MyRecord.sessionId v = Some s ->
                        In s (sessions w) /\ Session.id s = Attendance.sessionId a.
Proof.
  unfold getMyAttendance.
  destruct (joinSessions_spec w uid) as (sessionMap & queries & -> & Hmap).
  eexists. split; [reflexivity|]. split; [|split; [|split]].
  - apply Forall_map, Forall_forall. intros a Hin.
    now apply findAttendanceOfUser_spec in Hin.
  - rewrite length_map. unfold findAttendanceOfUser.
    apply Permutation_length, sortNewestFirst_perm.
  - apply StronglySorted_map. cbn. apply sortNewestFirst_sorted.
  - intros a Hin Hid.
    assert (Ha : In a (findAttendanceOfUser w uid))
      by (apply findAttendanceOfUser_spec; now split).
    eexists. split; [apply in_map, Ha|]. split; [repeat split|].
    exact (Hmap a Ha).
Qed.

Lemma getMyAttendance_lists w uid a :
  In a (attendance w) -> Attendance.userId a = uid ->
  exists records v,
    fst (getMyAttendance w uid) = Sent records
    /\ In v records
    /\ shows v a
    /\ (MyRecord.sessionId v = None
        <-> findSessionById w (Attendance.sessionId a) = None)
    /\ forall s, MyRecord.sessionId v = Some s ->
                 In s (sessions w) /\ Session.id s = Attendance.sessionId a.
Proof.
  intros Hin Hid. unfold getMyAttendance.
  destruct (joinSessions_spec w uid) as (sessionMap & queries & -> & Hmap).
  assert (Ha : In a (findAttendanceOfUser w uid))
    by (apply findAttendanceOfUser_spec; now split).
  eexists. eexists. split; [reflexivity|].
  split; [apply in_map, Ha|]. split; [repeat split|]. exact (Hmap a Ha).
Qed.

(** X26.  A check-in shows up in the user's own listing: after a 201, the
    listing of that user holds the record that was created, with all its
    fields, and with its session populated by a stored session of the
    requested id. *)
Theorem check_in_is_listed (env : Env) (w : World) (req : Request) :
  status (response (markAttendance env w req)) = 201 ->
  let w1 := final (markAttendance env w req) in
  exists a v s,
    body (response (markAttendance env w req)) = Created a
    /\ In v (sent (fst (getMyAttendance w1 (userId req))))
    /\ shows v a
    /\ MyRecord.sessionId v = Some s
    /\ In s (sessions w1)
    /\ Session.id s = sessionId req.
Proof.
  intros Hok. cbv zeta.
  destruct (created_world env w req Hok)
    as (user & user0 & session & late & lateBy & assignment & result & calls
        & _ & Hb & _ & _ & Hs1 & Ha1 & _).
  destruct (getMyAttendance_lists (final (markAttendance env w req)) (userId req)
              (recordOf env req result late lateBy))
    as (records & v & Hsent & Hin & Hshow & Hnone & Hsome).
  { rewrite Ha1. apply in_or_app. right. now left. }
  { reflexivity. }
  destruct (MyRecord.sessionId v) as [s|] eqn:Ev.
  - destruct (Hsome s eq_refl) as [Hs Hid].
    exists (recordOf env req result late lateBy), v, s.
    rewrite Hsent. cbn [sent].
    repeat (split; [assumption|]). exact Hid.
  - exfalso. pose proof (proj1 Hnone eq_refl) as Hn.
    cbn [recordOf Attendance.sessionId] in Hn. congruence.
Qed.

(** The user had a record of an earlier day of the Daily session; the
    listing now holds the check-in of today as well. *)
Lemma check_in_is_listed_witness :
  exists v,
    In v (sent (fst (getMyAttendance
                       (final (markAttendance Scenario.env0
                                 (Scenario.world Scenario.registered
                                    (Scenario.session Daily SessionType.PHYSICAL
                                       Mode.PHYSICAL (11, 0) [] Scenario.coordsLocation)
                                    [Scenario.earlier 0])
                                 Scenario.request))
                       Scenario.uid)))
    /\ MyRecord.checkInTime v = Scenario.now.
Proof.
  destruct (check_in_is_listed Scenario.env0
              (Scenario.world Scenario.registered
                 (Scenario.session Daily SessionType.PHYSICAL Mode.PHYSICAL
                                   (11, 0) [] Scenario.coordsLocation)
                 [Scenario.earlier 0])
              Scenario.request eq_refl)
    as (a & v & s & Hb & Hin & (_ & Ht & _) & _).
  exists v. split; [exact Hin|]. rewrite Ht.
  vm_compute in Hb. inversion Hb. reflexivity.
Defined.

(** The guards of [getUserAttendance] and what it sends. *)
Lemma getUserAttendance_guarded (env : Env) (w : World) (userRole uid : string) :
  let out := getUserAttendance env w userRole uid in
  (forall records,
     fst out = Sent records ->
     In userRole ["Manager"; "SuperAdmin"; "PLATFORM_OWNER"]
     /\ isValidObjectId env uid = true
     /\ (exists user, findUserById w uid = Some user)
     /\ records = map summary (sent (fst (getMyAttendance w uid)))
     /\ snd out = FindUser uid :: snd (getMyAttendance w uid))
  /\ (~ In userRole ["Manager"; "SuperAdmin"; "PLATFORM_OWNER"] ->
      out = (Answered 403 "Not authorized to view attendance reports", []))
  /\ (forall code msg,
        fst out = Answered code msg ->
        (code = 403 /\ snd out = [])
        \/ (code = 400 /\ snd out = [])
        \/ (code = 404 /\ snd out = [FindUser uid])).
Proof.
  cbv zeta. unfold getUserAttendance.
  destruct (userRole =? "Manager")%string eqn:E1;
    [|destruct (userRole =? "SuperAdmin")%string eqn:E2;
      [|destruct (userRole =? "PLATFORM_OWNER")%string eqn:E3]];
    cbn [negb andb].
  4:{ split; [discriminate|]. split; [reflexivity|].
      intros code msg H. inversion H. left. now split. }
  all: assert (Hrole : In userRole ["Manager"; "SuperAdmin"; "PLATFORM_OWNER"])
         by (cbn; rewrite ?String.eqb_eq in *; auto).
  all: (split; [|split; [intros Hn; contradiction|]]).
  all: destruct (isValidObjectId env uid) eqn:Ev; cbn [negb].
  all: try (destruct (findUserById w uid) as [user|] eqn:Eu).
  all: try (unfold getMyAttendance; destruct (joinSessions w uid) as [[recs m] qs];
            cbn [fst snd sent]).
  all: try discriminate.
  all: try (intros records H; inversion H; split; [exact Hrole|];
            split; [reflexivity|]; split; [eauto|]; split; [|reflexivity];
            rewrite map_map; reflexivity).
  all: intros code msg H; inversion H; auto.
Qed.

(** X27.  [getUserAttendance] sends a listing only to a Manager, a
    SuperAdmin or the Platform Owner, for a valid id of an existing user,
    and what it sends is the listing that [getMyAttendance] gives that user,
    cut down to six fields: lateness and the verification data are left
    out.  Any other role is answered 403 before anything is read; an
    invalid id is answered 400 before anything is read, and an unknown user
    404 after the one lookup. *)
Theorem user_attendance_is_guarded (env : Env) (w : World) (userRole uid : string) :
  let out := getUserAttendance env w userRole uid in
  (forall records,
     fst out = Sent records ->
     In userRole ["Manager"; "SuperAdmin"; "PLATFORM_OWNER"]
     /\ isValidObjectId env uid = true
     /\ (exists user, findUserById w uid = Some user)
     /\ records = map summary (sent (fst (getMyAttendance w uid)))
     /\ snd out = FindUser uid :: snd (getMyAttendance w uid))
  /\ (~ In userRole ["Manager"; "SuperAdmin"; "PLATFORM_OWNER"] ->
      out = (Answered 403 "Not authorized to view attendance reports", []))
  /\ (forall code msg,
        fst out = Answered code msg ->
        (code = 403 /\ snd out = [])
        \/ (code = 400 /\ snd out = [])
        \/ (code = 404 /\ snd out = [FindUser uid]))
  /\ (In userRole ["Manager"; "SuperAdmin"; "PLATFORM_OWNER"] ->
      isValidObjectId env uid = false ->
      out = (Answered 400 "Invalid User ID", []))
  /\ (In userRole ["Manager"; "SuperAdmin"; "PLATFORM_OWNER"] ->
      isValidObjectId env uid = true ->
      findUserById w uid = None ->
      out = (Answered 404 "User not found", [FindUser uid])).
Proof.
  cbv zeta.
  destruct (getUserAttendance_guarded env w userRole uid) as (H1 & H2 & H3).
  split; [exact H1|]. split; [exact H2|]. split; [exact H3|].
  assert (Hrole : In userRole ["Manager"; "SuperAdmin"; "PLATFORM_OWNER"] ->
                  negb (userRole =? "Manager")%string
                  && negb (userRole =? "SuperAdmin")%string
                  && negb (userRole =? "PLATFORM_OWNER")%string = false).
  { intros [<- | [<- | [<- | []]]]; reflexivity. }
  split.
  - intros Hin Hv. unfold getUserAttendance. rewrite (Hrole Hin), Hv. reflexivity.
  - intros Hin Hv Hu. unfold getUserAttendance. rewrite (Hrole Hin), Hv, Hu.
    reflexivity.
Qed.

(* ------------------------------------------------------------------ *)
(** * The Platform Owner *)

(** X28.  The Platform Owner never checks in through [markAttendance]: the
    request is answered before any collection is read and nothing changes.
    The answer is the 403 "Platform Owner cannot mark their own attendance"
    unless an earlier check on the payload answers 400; the role is tested
    before the session id, so an invalid session id does not hide it. *)
Theorem platform_owner_never_checks_in (env : Env) (w : World) (req : Request) :
  role req = "PLATFORM_OWNER" ->
  let out := markAttendance env w req in
  trace out = []
  /\ final out = w
  /\ (status (response out) = 400
      \/ response out
         = rejectMsg 403 "Forbidden: Platform Owner cannot mark their own attendance")
  /\ response out <> rejectMsg 400 "Invalid Session ID. Please scan a valid QR code.".
Proof.
  intros Hrole. cbv zeta. unfold markAttendance, validateRequest. rewrite Hrole.
  change ("PLATFORM_OWNER" =? "PLATFORM_OWNER")%string with true. cbv iota.
  repeat match goal with
         | |- context [if ?c then _ else _] => destruct c
         end;
    cbn [trace final response status];
    (split; [reflexivity|]); (split; [reflexivity|]);
    (split; [auto|]); discriminate.
Qed.

(** A well-formed request of the Platform Owner, for a session id that is
    not valid. *)
Lemma platform_owner_never_checks_in_witness :
  let req := {| validationErrors := [];
                userId := "65a000000000000000000001";
                role := "PLATFORM_OWNER";
                sessionId := "not-an-id";
                userLocation := Scenario.delhi;
                deviceId := JString "device123";
                userAgent := JString "Mozilla/5.0";
                accuracy := JNum (JFinite 20) |} in
  response (markAttendance Scenario.env0
              (Scenario.world Scenario.registered Scenario.physical []) req)
  = rejectMsg 403 "Forbidden: Platform Owner cannot mark their own attendance".
Proof.
  cbv zeta.
  destruct (platform_owner_never_checks_in Scenario.env0
              (Scenario.world Scenario.registered Scenario.physical [])
              {| validationErrors := [];
                 userId := "65a000000000000000000001";
                 role := "PLATFORM_OWNER";
                 sessionId := "not-an-id";
                 userLocation := Scenario.delhi;
                 deviceId := JString "device123";
                 userAgent := JString "Mozilla/5.0";
                 accuracy := JNum (JFinite 20) |}
              eq_refl)
    as (_ & _ & [H | H] & _).
  - vm_compute in H. discriminate H.
  - exact H.
Defined.

(* ------------------------------------------------------------------ *)
(** * The order of operations *)

Ltac reads_only :=
  let e := fresh "e" in
  let Hin := fresh "Hin" in
  eexists; exists []; split; [symmetry; apply app_nil_r|];
  split; [intros e Hin; in_cases Hin; subst; solve [reflexivity | contradiction]
         | left; reflexivity].

(** X29.  In a run of [markAttendance] in which every record handed to
    [save()] is one that the Attendance schema accepts (database operations
    succeeding), every read and the location verification come before every
    write, and writes happen only in a run that answers 201: the user
    document first, exactly when the user had no registered device, which is
    then bound to the request's device and user agent, then the attendance
    record and then the session's roster.  In such a run a device is never
    registered by an attempt that is refused.  (The user document is saved
    before the record: a record with NaN on a Number path is refused by the
    schema after the device was registered; of such a run nothing is said
    here.) *)
Theorem writes_come_last (env : Env) (w : World) (req : Request) :
  savesAccepted (trace (markAttendance env w req)) = true ->
  let out := markAttendance env w req in
  exists reads writes,
    trace out = reads ++ writes
    /\ noWrite reads
    /\ (writes = []
        \/ exists a s,
             status (response out) = 201
             /\ body (response out) = Created a
             /\ storable a = true
             /\ (writes = [SaveAttendance a; SaveSession s]
                 \/ exists user,
                      findUserById w (userId req) = Some user
                      /\ truthy (User.registeredDeviceId user) = false
                      /\ writes = [SaveUser (registeredAs user req);
                                   SaveAttendance a; SaveSession s])).
Proof.
  intros Hsave. cbv zeta.
  destruct (validateRequest env req) as [r|] eqn:Hv.
  { unfold markAttendance. rewrite Hv. reads_only. }
  destruct (findUserById w (userId req)) as [user|] eqn:Hu;
    [|unfold markAttendance; rewrite Hv, Hu; reads_only].
  destruct (findSessionById w (sessionId req)) as [session|] eqn:Hs;
    [|unfold markAttendance; rewrite Hv, Hu, Hs; reads_only].
  assert (Hl : loaded env w req user session) by (repeat split; assumption).
  destruct (isSessionDateToday env session) eqn:Ht;
    [|rewrite (markAttendance_loaded _ _ _ _ _ Hl), Ht; reads_only].
  destruct (existingAttendance env w req session) eqn:He;
    [rewrite (markAttendance_loaded _ _ _ _ _ Hl), Ht, He; reads_only|].
  assert (Hsch : scheduled env w req user session) by (repeat split; assumption).
  destruct (tooEarly env session) as [r|] eqn:Hw;
    [rewrite (markAttendance_scheduled _ _ _ _ _ Hsch), Hw; reads_only|].
  destruct (lateness (timeDifferenceMs env session) (lateAttendanceLimit env)
                     (isStrictAttendance env)) as [late lateBy|m s] eqn:Hlate;
    [|rewrite (markAttendance_scheduled _ _ _ _ _ Hsch), Hw, Hlate; reads_only].
  destruct (findAssignment session (userId req)) as [assignment|] eqn:Ha;
    [|rewrite (markAttendance_scheduled _ _ _ _ _ Hsch), Hw, Hlate, Ha; reads_only].
  destruct (locationGate env req session assignment) as [[r|verified result] calls] eqn:Hg.
  { rewrite (markAttendance_scheduled _ _ _ _ _ Hsch), Hw, Hlate, Ha. cbv zeta.
    rewrite Hg.
    destruct (locationGate_responded _ _ _ _ _ _ Hg) as (_ & _ & [-> | ->]);
      reads_only. }
  pose proof (locationGate_open _ _ _ _ _ _ _ Hg) as (-> & Hopen).
  assert (Hcalls : calls = [] \/ calls = [VerifyLocationCall (verifyArgs req session)]).
  { destruct Hopen as [(_ & -> & _) | (_ & -> & _)]; auto. }
  assert (Hc : cleared env w req user session late lateBy assignment result calls)
    by (repeat split; assumption).
  rewrite (markAttendance_cleared _ _ _ _ _ _ _ _ _ _ Hc) in Hsave |- *.
  cbv zeta in Hsave |- *.
  destruct (deviceGuard user req) as [user'| | |] eqn:Hd.
  - pose proof (deviceGuard_registers _ _ _ Hd) as ->.
    exists ((loads req ++ [duplicateQuery env req session]) ++ calls).
    eexists. split.
    { unfold created. cbn [trace]. rewrite <- !app_assoc. reflexivity. }
    split.
    { intros e Hin. destruct Hcalls as [-> | ->]; in_cases Hin; subst;
        solve [reflexivity | contradiction]. }
    right. eexists. eexists. split; [reflexivity|]. split; [reflexivity|].
    split.
    { unfold savesAccepted in Hsave. rewrite forallb_forall in Hsave.
      apply (Hsave (SaveAttendance (recordOf env req result late lateBy))).
      unfold created. cbn [trace]. rewrite !in_app_iff. cbn [In]. auto. }
    right. exists user. split; [reflexivity|]. split; [|reflexivity].
    unfold deviceGuard in Hd.
    destruct (truthy (User.registeredDeviceId user)); [|reflexivity].
    cbn [negb] in Hd.
    repeat match type of Hd with
           | context [if ?c then _ else _] => destruct c
           end; discriminate Hd.
  - destruct Hcalls as [-> | ->]; reads_only.
  - destruct Hcalls as [-> | ->]; reads_only.
  - exists ((loads req ++ [duplicateQuery env req session]) ++ calls).
    eexists. split.
    { unfold created. cbn [trace]. rewrite <- !app_assoc. reflexivity. }
    split.
    { intros e Hin. destruct Hcalls as [-> | ->]; in_cases Hin; subst;
        solve [reflexivity | contradiction]. }
    right. eexists. eexists. split; [reflexivity|]. split; [reflexivity|].
    split.
    { unfold savesAccepted in Hsave. rewrite forallb_forall in Hsave.
      apply (Hsave (SaveAttendance (recordOf env req result late lateBy))).
      unfold created. cbn [trace]. rewrite !in_app_iff. cbn [In]. auto. }
    left. reflexivity.
Qed.

(** The first check-in of a user without registered device: the writes are
    the last three operations of the run. *)
Lemma writes_come_last_witness :
  exists reads writes,
    trace (markAttendance Scenario.env0
             (Scenario.world Scenario.newcomer Scenario.physical [])
             Scenario.request)
    = reads ++ writes
    /\ noWrite reads
    /\ List.length writes = 3%nat.
Proof.
  assert (Hs : savesAccepted
                 (trace (markAttendance Scenario.env0
                           (Scenario.world Scenario.newcomer Scenario.physical [])
                           Scenario.request)) = true)
    by (vm_compute; reflexivity).
  destruct (writes_come_last Scenario.env0
              (Scenario.world Scenario.newcomer Scenario.physical [])
              Scenario.request Hs)
    as (reads & writes & Ht & Hn & [Hw | (a & s & _ & _ & _ & [Hw | (u & Hu & _ & Hw)])]).
  - exfalso. subst writes. rewrite app_nil_r in Ht.
    assert (Hin : exists u, In (SaveUser u) reads).
    { rewrite <- Ht. eexists. vm_compute. do 5 right. left. reflexivity. }
    destruct Hin as [u Hin]. specialize (Hn _ Hin). discriminate Hn.
  - exfalso.
    assert (Hin : exists u, In (SaveUser u) (reads ++ writes)).
    { rewrite <- Ht. eexists. vm_compute. do 5 right. left. reflexivity. }
    destruct Hin as [u Hin]. apply in_app_or in Hin as [Hin | Hin].
    + specialize (Hn _ Hin). discriminate Hn.
    + subst writes. destruct Hin as [Hin | [Hin | []]]; discriminate Hin.
  - exists reads, writes. split; [exact Ht|]. split; [exact Hn|].
    subst writes. reflexivity.
Defined.

(* ------------------------------------------------------------------ *)
(** * Force-mark and the duplicate check *)

(** X30.  Forcing Absent re-opens the check-in when the user had at most
    one record for the session: after the 200 the user has no record for
    it, and the duplicate query of a later attempt of that user for that
    session finds nothing, at any time and for any frequency of the
    session. *)
Theorem force_absent_reopens_check_in (env env' : Env) (w : World)
    (force : ForceRequest) (req : Request) (session : Session.t) :
  f_status force = "Absent" ->
  status (response (forceMarkAttendance env w force)) = 200 ->
  (List.length (recordsOf (f_userId force) (f_sessionId force) (attendance w)) <= 1)%nat ->
  userId req = f_userId force ->
  sessionId req = f_sessionId force ->
  let w1 := final (forceMarkAttendance env w force) in
  recordsOf (f_userId force) (f_sessionId force) (attendance w1) = []
  /\ existingAttendance env' w1 req session = None.
Proof.
  intros Hst Hok Hlen Hu Hs. cbv zeta.
  pose proof (forceMarkAttendance_attendance env w force Hok) as Hatt.
  cbv zeta in Hatt. rewrite Hst in Hatt. cbn [String.eqb Ascii.eqb Bool.eqb] in Hatt.
  assert (Hnone : recordsOf (f_userId force) (f_sessionId force)
                            (attendance (final (forceMarkAttendance env w force))) = []).
  { apply length_zero_iff_nil. unfold recordsOf in *. rewrite Hatt, filter_removeFirst.
    lia. }
  split; [exact Hnone|].
  unfold existingAttendance.
  destruct (find _ _) as [a|] eqn:Ef; [exfalso | reflexivity].
  apply find_some in Ef as [Hin Hk].
  apply duplicateFilter_spec in Hk as (Hku & Hks & _).
  assert (Ha : In a (recordsOf (f_userId force) (f_sessionId force)
                               (attendance (final (forceMarkAttendance env w force))))).
  { unfold recordsOf. apply filter_In. split; [exact Hin|].
    unfold sameUserAndSession. rewrite Hku, Hks, Hu, Hs, !String.eqb_refl. reflexivity. }
  rewrite Hnone in Ha. contradiction Ha.
Qed.

(** The user checked in, the Platform Owner marks the user absent, and the
    duplicate query is empty again. *)
Lemma force_absent_reopens_check_in_witness :
  let w := Scenario.world Scenario.registered Scenario.physical [Scenario.earlier 0] in
  existingAttendance Scenario.env0
    (final (forceMarkAttendance Scenario.env0 w (Scenario.forceRequest "Absent")))
    Scenario.request Scenario.physical
  = None.
Proof.
  cbv zeta.
  destruct (force_absent_reopens_check_in Scenario.env0 Scenario.env0
              (Scenario.world Scenario.registered Scenario.physical [Scenario.earlier 0])
              (Scenario.forceRequest "Absent") Scenario.request Scenario.physical
              eq_refl eq_refl)
    as (_ & H); [cbn; lia | reflexivity | reflexivity | exact H].
Defined.
